(** * TNT purchase-order processor: validator, reference expander,
      order aggregator and inventory allocator.

    Shallow embedding of
      - [PDFExtractor.validate_po_data]        (backend/pdf_extractor.py),
      - [DataTransformer.transform_data]       (backend/data_transformer.py),
      - [InventoryOptimizer.optimize_allocations]
                                               (backend/inventory_optimizer.py).

    Conventions.  A finite Python float is idealised as an exact rational
    ([Q]); every concrete input used below is a dyadic rational of small
    magnitude, so the values computed here are the values binary floating
    point computes.  Where the code can produce or meet an infinity or NaN -
    in the validator and in the expander - a float is a [Py.float64]: a
    rational, an infinity or NaN.  A pandas DataFrame is a list of row
    records, in row order; a NaN or null cell of a key column is [None]; the
    index labels of a table are its row positions.  Where a function of the
    code can raise, its embedding returns an option, and [None] is the run
    that raises. *)

From Stdlib Require Import List String Ascii Bool Arith ZArith NArith QArith.
From Stdlib Require Import Qround Lia Lqa DecimalString DecimalZ Sorted.
Import ListNotations.

Local Open Scope string_scope.
Local Open Scope list_scope.

(** ** Python numbers *)

Module Py.

(** [a < b] on floats, as a boolean. *)
Definition Qltb (a b : Q) : bool := negb (Qle_bool b a).

(** [int(x)]: truncation toward zero. *)
Definition int (x : Q) : Z :=
  if Qle_bool 0 x then Qfloor x else Qceiling x.

(** [x % n] on floats: the result has the sign of the divisor. *)
Definition fmod (x n : Q) : Q := (x - inject_Z (Qfloor (x / n)) * n)%Q.

(** A float: a finite number, an infinity or NaN. *)
Inductive float64 :=
| Fin (q : Q)
| Inf (negative : bool)
| NaN.

(** The float is the finite number [q]. *)
Definition equals (x : float64) (q : Q) : Prop :=
  match x with
  | Fin a => (a == q)%Q
  | _ => False
  end.

Definition is_nan (x : float64) : bool :=
  match x with
  | NaN => true
  | _ => false
  end.

(** Truthiness of a float: only zero is falsy; NaN is truthy. *)
Definition truthy (x : float64) : bool :=
  match x with
  | Fin q => negb (Qeq_bool q 0)
  | _ => true
  end.

(** [x > 0]; a comparison with NaN is false. *)
Definition gt0 (x : float64) : bool :=
  match x with
  | Fin q => Qltb 0 q
  | Inf negative => negb negative
  | NaN => false
  end.

(** [a * b]. *)
Definition mul (a b : float64) : float64 :=
  match a, b with
  | NaN, _ => NaN
  | _, NaN => NaN
  | Fin x, Fin y => Fin (x * y)
  | Fin x, Inf s => if Qeq_bool x 0 then NaN else Inf (xorb s (Qltb x 0))
  | Inf s, Fin y => if Qeq_bool y 0 then NaN else Inf (xorb s (Qltb y 0))
  | Inf s, Inf t => Inf (xorb s t)
  end.

(** [a + b]. *)
Definition add (a b : float64) : float64 :=
  match a, b with
  | NaN, _ => NaN
  | _, NaN => NaN
  | Fin x, Fin y => Fin (x + y)
  | Fin _, Inf s => Inf s
  | Inf s, Fin _ => Inf s
  | Inf s, Inf t => if Bool.eqb s t then Inf s else NaN
  end.

(** [a / b] where numpy divides: a zero divisor gives an infinity, and NaN
    for 0 / 0, with a warning and no exception. *)
Definition np_truediv (a b : float64) : float64 :=
  match a, b with
  | NaN, _ => NaN
  | _, NaN => NaN
  | Fin x, Fin y =>
      if Qeq_bool y 0
      then (if Qeq_bool x 0 then NaN else Inf (Qltb x 0))
      else Fin (x / y)
  | Fin _, Inf _ => Fin 0
  | Inf s, Fin y => Inf (xorb s (Qltb y 0))
  | Inf _, Inf _ => NaN
  end.

(** [a / b] between two Python floats; [None] is ZeroDivisionError. *)
Definition truediv (a b : float64) : option float64 :=
  match b with
  | Fin y => if Qeq_bool y 0 then None else Some (np_truediv a b)
  | _ => Some (np_truediv a b)
  end.

(** [int(x)] on a float; [None] is the ValueError of NaN or the
    OverflowError of an infinity. *)
Definition int_of_float (x : float64) : option Z :=
  match x with
  | Fin q => Some (int q)
  | _ => None
  end.

(** [x % n] for a float [x] and a positive count [n]. *)
Definition mod_ (x : float64) (n : Q) : float64 :=
  match x with
  | Fin q => Fin (fmod q n)
  | _ => NaN
  end.

(** [Series.sum()] of a float column: NaN cells are skipped. *)
Definition nansum (l : list float64) : float64 :=
  fold_right add (Fin 0) (filter (fun x => negb (is_nan x)) l).

(** [str(n)] for an integer. *)
Definition str_of_Z (n : Z) : string := NilEmpty.string_of_int (Z.to_int n).

(** [sum] of a column of finite numbers. *)
Definition sum (l : list Q) : Q := fold_right Qplus 0%Q l.

(** [sep.join(l)]. *)
Fixpoint join (sep : string) (l : list string) : string :=
  match l with
  | [] => ""
  | [s] => s
  | s :: rest => s ++ sep ++ join sep rest
  end.

(** Insertion of [s] in a list sorted by code points, and [sorted(l)]. *)
Fixpoint insert_str (s : string) (l : list string) : list string :=
  match l with
  | [] => [s]
  | t :: rest => if String.leb s t then s :: l else t :: insert_str s rest
  end.

Definition sorted_str (l : list string) : list string :=
  fold_right insert_str [] l.

Fixpoint insert_Z (z : Z) (l : list Z) : list Z :=
  match l with
  | [] => [z]
  | t :: rest => if (z <=? t)%Z then z :: l else t :: insert_Z z rest
  end.

Definition sorted_Z (l : list Z) : list Z := fold_right insert_Z [] l.

(** [Series.unique()]: first occurrences, in order of appearance. *)
Fixpoint unique {A} (eqb : A -> A -> bool) (l : list A) : list A :=
  match l with
  | [] => []
  | x :: rest => x :: filter (fun y => negb (eqb x y)) (unique eqb rest)
  end.

(** The code points of a text held as UTF-8 bytes.  A byte that starts no
    well-formed sequence stands for itself. *)
Definition continuation (c : ascii) : option N :=
  let n := N_of_ascii c in
  if ((128 <=? n) && (n <? 192))%N then Some (n - 128)%N else None.

Fixpoint code_points (s : string) : list N :=
  match s with
  | EmptyString => []
  | String a rest =>
      let n := N_of_ascii a in
      let alone := n :: code_points rest in
      if (n <? 192)%N then alone
      else
        match rest with
        | EmptyString => alone
        | String b rest1 =>
            match continuation b with
            | None => alone
            | Some y1 =>
                if (n <? 224)%N
                then ((n - 192) * 64 + y1)%N :: code_points rest1
                else
                  match rest1 with
                  | EmptyString => alone
                  | String c rest2 =>
                      match continuation c with
                      | None => alone
                      | Some y2 =>
                          if (n <? 240)%N
                          then ((n - 224) * 4096 + y1 * 64 + y2)%N
                               :: code_points rest2
                          else
                            match rest2 with
                            | EmptyString => alone
                            | String d rest3 =>
                                match continuation d with
                                | None => alone
                                | Some y3 =>
                                    ((n - 240) * 262144 + y1 * 4096
                                     + y2 * 64 + y3)%N
                                    :: code_points rest3
                                end
                            end
                      end
                  end
            end
        end
  end.

(** The characters [str.strip()] removes: 9-13, 28-32, U+0085, U+00A0,
    U+1680, U+2000-U+200A, U+2028, U+2029, U+202F, U+205F, U+3000. *)
Definition is_space (c : N) : bool :=
  (((9 <=? c) && (c <=? 13)) || ((28 <=? c) && (c <=? 32))
   || (c =? 133) || (c =? 160) || (c =? 5760)
   || ((8192 <=? c) && (c <=? 8202))
   || (c =? 8232) || (c =? 8233) || (c =? 8239) || (c =? 8287)
   || (c =? 12288))%N.

Fixpoint lstrip (l : list N) : list N :=
  match l with
  | [] => []
  | c :: rest => if is_space c then lstrip rest else l
  end.

(** [s.strip()], on code points. *)
Definition strip (l : list N) : list N := rev (lstrip (rev (lstrip l))).

End Py.

(** ** Line validator *)

Module PDFExtractor.

(** A value of a record dictionary, as far as the validator inspects it:
    None, a boolean, an integer, a float or a text. *)
Inductive pyval :=
| VNone
| VBool (b : bool)
| VInt (z : Z)
| VNum (x : Py.float64)
| VStr (s : string).

(** Python truthiness. *)
Definition truthy (v : pyval) : bool :=
  match v with
  | VNone => false
  | VBool b => b
  | VInt z => negb (z =? 0)%Z
  | VNum x => Py.truthy x
  | VStr s => negb (String.eqb s "")
  end.

(** Truthiness of [str(v).strip()]: the text of a number, of a boolean and
    of [None] has a character that is not white space. *)
Definition str_strip_truthy (v : pyval) : bool :=
  match v with
  | VStr s =>
      match Py.strip (Py.code_points s) with
      | [] => false
      | _ => true
      end
  | _ => true
  end.

(** One extracted record.  A required field that is missing from the
    dictionary reads as [VNone] ([item.get(field)]); a numeric field that is
    missing is [None] and reads as the default [0]. *)
Record item := mk_item {
  PO_No : pyval;
  Store_ID : pyval;
  Store_Name : pyval;
  Order_Date : pyval;
  Delivery_Date : pyval;
  Internal_Reference : pyval;
  Description : pyval;
  Size : pyval;
  Pack : pyval;
  N_of_Order : option pyval;
  Price : option pyval
}.

(** What [float(v)] does: it answers a float, raises ValueError or
    TypeError (which the validator catches), or raises OverflowError (which
    it does not catch). *)
Inductive conversion :=
| Float (x : Py.float64)
| Refused
| Overflow.

(** The least magnitude of an integer that [float] does not convert:
    halfway between the largest float and 2^1024. *)
Definition float_limit : Z := (2 ^ 1024 - 2 ^ 970)%Z.

Section Validate.

(** [float(s)] on a string: the parsed float, or [None] for ValueError. *)
Variable float_of_string : string -> option Py.float64.

(** [float(v)]. *)
Definition float (v : pyval) : conversion :=
  match v with
  | VNone => Refused
  | VBool b => Float (Py.Fin (if b then 1%Q else 0%Q))
  | VInt z =>
      if (Z.abs z <? float_limit)%Z then Float (Py.Fin (inject_Z z))
      else Overflow
  | VNum x => Float x
  | VStr s =>
      match float_of_string s with
      | Some x => Float x
      | None => Refused
      end
  end.

(** [item.get(key, 0)] then [float]. *)
Definition float_field (f : option pyval) : conversion :=
  match f with
  | None => float (VInt 0)
  | Some v => float v
  end.

Definition required_fields : list (item -> pyval) :=
  [PO_No; Store_ID; Internal_Reference].

Definition required_ok (it : item) : bool :=
  forallb (fun field => truthy (field it) && str_strip_truthy (field it))
          required_fields.

(** The record with its two numeric fields overwritten by the floats. *)
Definition set_numbers (it : item) (qty price : Py.float64) : item :=
  mk_item (PO_No it) (Store_ID it) (Store_Name it) (Order_Date it)
          (Delivery_Date it) (Internal_Reference it) (Description it)
          (Size it) (Pack it) (Some (VNum qty)) (Some (VNum price)).

(** [validate_po_data]; [None] is the OverflowError that [float] raises on
    an integer beyond the float range and that leaves the function. *)
Fixpoint validate_po_data (data : list item) : option (list item) :=
  match data with
  | [] => Some []
  | it :: rest =>
      if required_ok it then
        match float_field (N_of_Order it) with
        | Overflow => None
        | Refused => validate_po_data rest
        | Float qty =>
            match float_field (Price it) with
            | Overflow => None
            | Refused => validate_po_data rest
            | Float price =>
                if Py.gt0 qty && Py.gt0 price
                then option_map (cons (set_numbers it qty price))
                                (validate_po_data rest)
                else validate_po_data rest
            end
        end
      else validate_po_data rest
  end.

(** The records the validator keeps and the records on which it raises, as
    the loop decides it. *)
Definition valid_recordb (it : item) : bool :=
  required_ok it &&
  match float_field (N_of_Order it) with
  | Float qty =>
      match float_field (Price it) with
      | Float price => Py.gt0 qty && Py.gt0 price
      | _ => false
      end
  | _ => false
  end.

Definition overflowsb (it : item) : bool :=
  required_ok it &&
  match float_field (N_of_Order it) with
  | Overflow => true
  | Refused => false
  | Float _ =>
      match float_field (Price it) with
      | Overflow => true
      | _ => false
      end
  end.

(** A kept record carries the coerced numbers. *)
Definition coerced (it : item) : item :=
  match float_field (N_of_Order it), float_field (Price it) with
  | Float qty, Float price => set_numbers it qty price
  | _, _ => it
  end.

End Validate.

(** *** The validator's postcondition, in words

    White space, character by character. *)
Definition white_space : list N :=
  [9; 10; 11; 12; 13; 28; 29; 30; 31; 32; 133; 160; 5760;
   8192; 8193; 8194; 8195; 8196; 8197; 8198; 8199; 8200; 8201; 8202;
   8232; 8233; 8239; 8287; 12288]%N.

(** A field is present and non-empty: it is not None, not False, not a zero
    number, and, when it is a text, some character of it is not white
    space. *)
Inductive present_nonempty : pyval -> Prop :=
| present_true : present_nonempty (VBool true)
| present_int (z : Z) : z <> 0%Z -> present_nonempty (VInt z)
| present_float (x : Py.float64) : ~ Py.equals x 0 -> present_nonempty (VNum x)
| present_text (s : string) (c : N) :
    In c (Py.code_points s) -> ~ In c white_space ->
    present_nonempty (VStr s).

(** An integer that is too large to be a float. *)
Definition beyond_float (f : option pyval) : Prop :=
  exists z, f = Some (VInt z) /\ (float_limit <= z \/ z <= - float_limit)%Z.

Definition positive (x : Py.float64) : Prop :=
  match x with
  | Py.Fin q => (0 < q)%Q
  | Py.Inf negative => negative = false
  | Py.NaN => False
  end.

Section Postcondition.

Variable float_of_string : string -> option Py.float64.

(** The number a numeric field coerces to: a missing field counts as 0, a
    boolean as 0 or 1, a text as the float it spells. *)
Inductive coerces_to : option pyval -> Py.float64 -> Prop :=
| coerces_missing : coerces_to None (Py.Fin 0)
| coerces_bool (b : bool) :
    coerces_to (Some (VBool b)) (Py.Fin (if b then 1%Q else 0%Q))
| coerces_int (z : Z) :
    (- float_limit < z < float_limit)%Z ->
    coerces_to (Some (VInt z)) (Py.Fin (inject_Z z))
| coerces_float (x : Py.float64) : coerces_to (Some (VNum x)) x
| coerces_text (s : string) (x : Py.float64) :
    float_of_string s = Some x -> coerces_to (Some (VStr s)) x.

Definition required_present (it : item) : Prop :=
  present_nonempty (PO_No it) /\
  present_nonempty (Store_ID it) /\
  present_nonempty (Internal_Reference it).

Definition valid_record (it : item) : Prop :=
  required_present it /\
  exists qty price,
    coerces_to (N_of_Order it) qty /\ coerces_to (Price it) price /\
    positive qty /\ positive price.

(** A record on which the validator meets an integer beyond the float
    range: its required fields are present, and its quantity is such an
    integer, or its quantity coerces and its price is such an integer. *)
Definition overflows (it : item) : Prop :=
  required_present it /\
  (beyond_float (N_of_Order it) \/
   (exists qty, coerces_to (N_of_Order it) qty) /\ beyond_float (Price it)).

End Postcondition.

End PDFExtractor.

(** ** Reference expander and order aggregator *)

Module DataTransformer.

Inductive warehouse := CE | CW.

Definition warehouse_eqb (a b : warehouse) : bool :=
  match a, b with
  | CE, CE | CW, CW => true
  | _, _ => false
  end.

(** The two numeric key columns of [po_df]. *)
Inductive column := Store_ID_column | PO_No_column.

(** A row of [po_df].  [Store ID] and [PO No.] are numeric columns
    ([pd.to_numeric(..., errors='coerce')]); [None] is NaN. *)
Record po_row := mk_po_row {
  Store_ID : option Z;
  Store_Name : string;
  Order_Date : string;
  Delivery_Date : string;
  PO_No : option Z;
  Internal_Reference : string;
  N_of_Order : Q;
  Price : Q
}.

(** A catalog variant as fetched from Odoo, a dictionary.  A units-per-order
    factor is a number; [None]: the dictionary has no such key. *)
Record product := mk_product {
  id : Z;
  name : string;
  barcode : option string;
  default_code : string;
  x_studio_tt_om_int : option Q;
  x_studio_canada_east_on_hand : Q;
  x_studio_ce_available : Q;
  x_studio_canada_west_on_hand : Q;
  x_studio_cw_available : Q
}.

(** A row of [order_line_details] (the column [product_image] is carried
    along untouched by every stage and left out).  [num] is the type of the
    four columns the expander computes. *)
Record line_of (num : Type) := mk_line {
  store_id : option Z;
  store_name : string;
  order_date : string;
  delivery_date : string;
  po_number : string;
  internal_reference : string;
  product_id : Z;
  product_name : string;
  line_barcode : option string;
  line_warehouse : warehouse;
  units_per_order : num;
  original_qty : Q;
  po_unit_price : Q;
  product_uom_qty : num;
  price_unit : num;
  total_price : num;
  odoo_on_hand : Q;
  odoo_available : Q;
  store_on_hand : option Q;
  hist_avg_sales : option Q;
  flagged : bool;
  flag_reason : option string;
  shortage_details : option string;
  so_reference : option string
}.

Arguments mk_line {num}.
Arguments store_id {num}.
Arguments store_name {num}.
Arguments order_date {num}.
Arguments delivery_date {num}.
Arguments po_number {num}.
Arguments internal_reference {num}.
Arguments product_id {num}.
Arguments product_name {num}.
Arguments line_barcode {num}.
Arguments line_warehouse {num}.
Arguments units_per_order {num}.
Arguments original_qty {num}.
Arguments po_unit_price {num}.
Arguments product_uom_qty {num}.
Arguments price_unit {num}.
Arguments total_price {num}.
Arguments odoo_on_hand {num}.
Arguments odoo_available {num}.
Arguments store_on_hand {num}.
Arguments hist_avg_sales {num}.
Arguments flagged {num}.
Arguments flag_reason {num}.
Arguments shortage_details {num}.
Arguments so_reference {num}.

(** A line as the expander builds it: the four computed cells are floats
    and can be an infinity or NaN. *)
Abbreviation expanded_line := (line_of Py.float64).

(** A line of a table all of whose numbers are finite, as the allocator is
    modelled on it. *)
Abbreviation line := (line_of Q).

(** A row of [order_summaries]. *)
Record header := mk_header {
  h_store_id : Z;
  h_store_name : string;
  h_official_name : string;
  h_warehouse : warehouse;
  h_po_count : nat;
  h_po_numbers : string;
  h_so_reference : string;
  h_order_date : string;
  h_delivery_date : string;
  h_total_lines : nat;
  h_total_value : Py.float64
}.

Definition set_so_reference {num} (l : line_of num) (r : option string)
  : line_of num :=
  mk_line (store_id l) (store_name l) (order_date l) (delivery_date l)
    (po_number l) (internal_reference l) (product_id l) (product_name l)
    (line_barcode l) (line_warehouse l) (units_per_order l) (original_qty l)
    (po_unit_price l) (product_uom_qty l) (price_unit l) (total_price l)
    (odoo_on_hand l) (odoo_available l) (store_on_hand l) (hist_avg_sales l)
    (flagged l) (flag_reason l) (shortage_details l) r.

Definition Z_opt_eqb (a b : option Z) : bool :=
  match a, b with
  | Some x, Some y => (x =? y)%Z
  | _, _ => false
  end.

(** [pd.DataFrame(product_variants)] has the column 'x_studio_tt_om_int'
    when some variant's dictionary has the key. *)
Definition has_factor_column (product_variants : list product) : bool :=
  existsb (fun p => match x_studio_tt_om_int p with
                    | Some _ => true
                    | None => false
                    end)
          product_variants.

(** The units-per-order cell of a variant's row of [products_df]: NaN where
    the column exists and the variant's dictionary has no such key.
    [None]: there is no such column. *)
Definition factor_cell (product_variants : list product) (p : product)
  : option Py.float64 :=
  if has_factor_column product_variants then
    Some (match x_studio_tt_om_int p with
          | Some q => Py.Fin q
          | None => Py.NaN
          end)
  else None.

(** [product.get('x_studio_tt_om_int') or 1.0]: a column that does not
    exist and a zero cell are falsy; a NaN cell is truthy. *)
Definition or_one (cell : option Py.float64) : Py.float64 :=
  match cell with
  | Some x => if Py.truthy x then x else Py.Fin 1
  | None => Py.Fin 1
  end.

(** [series.get('x_studio_tt_om_int', 1.0)]: the cell whatever it holds, the
    default when there is no such column. *)
Definition get_default (cell : option Py.float64) (default : Py.float64)
  : Py.float64 :=
  match cell with
  | Some x => x
  | None => default
  end.

Section Transform.

(** [settings['warehouse_mapping']['cw_stores']]. *)
Variable cw_stores : list Z.

(** [settings['tt_store_names']]. *)
Variable tt_store_names : Z -> option string.

(** Text of a cell of a numeric key column inside an f-string.  It depends
    on the dtype of the column, which the row list does not record: the
    digits of the integer in an integer column, the text of the float (as
    in '5.0', or 'nan') once a NaN has made the column a float column. *)
Variable str_cell : column -> option Z -> string.

(** [int(store_id)] fails on NaN, and the handler answers 'CE'. *)
Definition get_warehouse_for_store (sid : option Z) : warehouse :=
  match sid with
  | None => CE
  | Some n => if existsb (Z.eqb n) cw_stores then CW else CE
  end.

Definition not_found_message (row : po_row) : string :=
  "Product not found in Odoo: " ++ Internal_Reference row
  ++ " (Store: " ++ str_cell Store_ID_column (Store_ID row)
  ++ ", PO: " ++ str_cell PO_No_column (PO_No row) ++ ")".

(** The dictionary [line_data]. *)
Definition line_data (row : po_row) (p : product)
    (upo units price : Py.float64) : expanded_line :=
  let wh := get_warehouse_for_store (Store_ID row) in
  mk_line (Store_ID row) (Store_Name row) (Order_Date row) (Delivery_Date row)
    (match PO_No row with Some n => Py.str_of_Z n | None => "" end)
    (Internal_Reference row) (id p) (name p) (barcode p) wh
    upo (N_of_Order row) (Price row)
    units price (Py.mul units price)
    (match wh with
     | CE => x_studio_canada_east_on_hand p
     | CW => x_studio_canada_west_on_hand p
     end)
    (match wh with
     | CE => x_studio_ce_available p
     | CW => x_studio_cw_available p
     end)
    (Some 0%Q) (Some 0%Q) false None None None.

(** Body of the loop over [matched_products], at position [idx].  [None]:
    [int] raises, the bundle total being NaN. *)
Definition expand_product (product_variants : list product) (row : po_row)
    (matched : list product) (idx : nat) (p : product)
  : option expanded_line :=
  let total_ordered_qty := Py.Fin (N_of_Order row) in
  let po_price := Py.Fin (Price row) in
  let num_products := List.length matched in
  let units_per_order := or_one (factor_cell product_variants p) in
  if (1 <? num_products)%nat then
    match matched with
    | [] => None
    | first :: _ =>
        let base_units_per_case :=
          get_default (factor_cell product_variants first) (Py.Fin 1) in
        let total_units_bundle :=
          Py.mul total_ordered_qty base_units_per_case in
        let n := inject_Z (Z.of_nat num_products) in
        match Py.int_of_float (Py.np_truediv total_units_bundle (Py.Fin n)) with
        | None => None
        | Some share =>
            match
              (if (idx =? 0)%nat
               then option_map (Z.add share)
                      (Py.int_of_float (Py.mod_ total_units_bundle n))
               else Some share)
            with
            | None => None
            | Some units_this_product =>
                let unit_price_per_item :=
                  Py.np_truediv po_price base_units_per_case in
                Some (line_data row p units_per_order
                        (Py.Fin (inject_Z units_this_product))
                        unit_price_per_item)
            end
        end
    end
  else
    let total_units_bundle := Py.mul total_ordered_qty units_per_order in
    match Py.truediv po_price units_per_order with
    | None => None
    | Some unit_price_per_item =>
        Some (line_data row p units_per_order total_units_bundle
                unit_price_per_item)
    end.

(** [for idx, (_, product) in enumerate(matched_products.iterrows())]. *)
Fixpoint expand_from (product_variants : list product) (row : po_row)
    (matched : list product) (idx : nat) (todo : list product)
  : option (list expanded_line) :=
  match todo with
  | [] => Some []
  | p :: rest =>
      match expand_product product_variants row matched idx p with
      | None => None
      | Some l =>
          match expand_from product_variants row matched (S idx) rest with
          | None => None
          | Some ls => Some (l :: ls)
          end
      end
  end.

Definition matched_products (products : list product) (row : po_row)
  : list product :=
  filter (fun p => String.eqb (default_code p) (Internal_Reference row))
         products.

(** The lines and the diagnostics one row of [po_df] contributes. *)
Definition expand_row (products : list product) (row : po_row)
  : option (list expanded_line * list string) :=
  match matched_products products row with
  | [] => Some ([], [not_found_message row])
  | matched =>
      match expand_from products row matched 0 matched with
      | None => None
      | Some ls => Some (ls, [])
      end
  end.

(** [for _, row in po_df.iterrows()]: [expanded_lines] and [errors]. *)
Fixpoint expand_rows (products : list product) (rows : list po_row)
  : option (list expanded_line * list string) :=
  match rows with
  | [] => Some ([], [])
  | row :: rest =>
      match expand_row products row with
      | None => None
      | Some (ls, es) =>
          match expand_rows products rest with
          | None => None
          | Some (ls', es') => Some (ls ++ ls', es ++ es')
          end
      end
  end.

(** [order_line_details.dropna(subset=['store_id'])]. *)
Definition dropna_store_id {num} (ls : list (line_of num))
  : list (line_of num) :=
  filter (fun l => match store_id l with Some _ => true | None => false end)
         ls.

Definition store_ids {num} (ls : list (line_of num)) : list Z :=
  flat_map (fun l => match store_id l with Some n => [n] | None => [] end) ls.

Definition unique_stores {num} (ls : list (line_of num)) : list Z :=
  Py.sorted_Z (Py.unique Z.eqb (store_ids ls)).

(** [f"OATS00{current_ref_num}"]. *)
Definition so_ref (current_ref_num : Z) : string :=
  "OATS00" ++ Py.str_of_Z current_ref_num.

Definition group_of {num} (ls : list (line_of num)) (sid : Z)
  : list (line_of num) :=
  filter (fun l => Z_opt_eqb (store_id l) (Some sid)) ls.

Definition first_or_empty {num} (col : line_of num -> string)
    (group : list (line_of num)) : string :=
  match group with
  | [] => ""
  | l :: _ => col l
  end.

(** One pass of the loop over [enumerate(unique_stores)]. *)
Definition summary (ls : list expanded_line) (starting_so_ref : Z)
    (index : nat) (sid : Z) : header :=
  let current_ref_num := (starting_so_ref + Z.of_nat index)%Z in
  let group := group_of ls sid in
  let po_list := Py.sorted_str (Py.unique String.eqb (map po_number group)) in
  mk_header sid
    (first_or_empty store_name group)
    (match tt_store_names sid with
     | Some n => n
     | None => "Store " ++ str_cell Store_ID_column (Some sid)
     end)
    (get_warehouse_for_store (Some sid))
    (List.length po_list)
    (Py.join ", " po_list)
    (so_ref current_ref_num)
    (first_or_empty order_date group)
    (first_or_empty delivery_date group)
    (List.length group)
    (Py.nansum (map total_price group)).

Fixpoint summaries_from (ls : list expanded_line) (starting_so_ref : Z)
    (index : nat) (stores : list Z) : list header :=
  match stores with
  | [] => []
  | sid :: rest =>
      summary ls starting_so_ref index sid
      :: summaries_from ls starting_so_ref (S index) rest
  end.

(** The dictionary [store_so_map], as the list of its bindings. *)
Fixpoint store_so_map_from (starting_so_ref : Z) (index : nat)
    (stores : list Z) : list (Z * string) :=
  match stores with
  | [] => []
  | sid :: rest =>
      (sid, so_ref (starting_so_ref + Z.of_nat index)%Z)
      :: store_so_map_from starting_so_ref (S index) rest
  end.

(** Lookup in [store_so_map]; a later binding of a key replaces an earlier
    one. *)
Fixpoint map_get (m : list (Z * string)) (k : Z) : option string :=
  match m with
  | [] => None
  | (k', v) :: rest =>
      match map_get rest k with
      | Some v' => Some v'
      | None => if (k' =? k)%Z then Some v else None
      end
  end.

(** The aggregation stage: headers and the lines with their references. *)
Definition aggregate (expanded_lines : list expanded_line)
    (starting_so_ref : Z) : list header * list expanded_line :=
  match expanded_lines with
  | [] => ([], [])
  | _ =>
      let details := dropna_store_id expanded_lines in
      let stores := unique_stores details in
      let store_so_map := store_so_map_from starting_so_ref 0 stores in
      (summaries_from details starting_so_ref 0 stores,
       map (fun l =>
              set_so_reference l
                (match store_id l with
                 | Some n => map_get store_so_map n
                 | None => None
                 end))
           details)
  end.

(** [transform_data]: [(order_summaries, order_line_details, errors)]. *)
Definition transform_data (po_df : list po_row)
    (product_variants : list product) (starting_so_ref : Z)
  : option (list header * list expanded_line * list string) :=
  match po_df with
  | [] => Some ([], [], ["No PO data to transform"])
  | _ =>
      match product_variants with
      | [] => Some ([], [], ["No product data fetched from Odoo"])
      | _ =>
          match expand_rows product_variants po_df with
          | None => None
          | Some (expanded_lines, errors) =>
              let '(order_summaries, order_line_details) :=
                aggregate expanded_lines starting_so_ref in
              Some (order_summaries, order_line_details, errors)
          end
      end
  end.

End Transform.

End DataTransformer.

(** ** Inventory allocator *)

Module InventoryOptimizer.

Import DataTransformer.

(** A row of [historical_sales] and of [store_inventory]: the two merge
    keys and the value column, a NaN value being [None]. *)
Record sales_row := mk_sales_row {
  hs_internal_reference : string;
  hs_store_id : Z;
  avg_monthly_sales : option Q
}.

Record inventory_row := mk_inventory_row {
  inv_internal_reference : string;
  inv_store_id : Z;
  quantity : option Q
}.

Definition set_store_id {num} (l : line_of num) (v : option Z) : line_of num :=
  mk_line v (store_name l) (order_date l) (delivery_date l)
    (po_number l) (internal_reference l) (product_id l) (product_name l)
    (line_barcode l) (line_warehouse l) (units_per_order l) (original_qty l)
    (po_unit_price l) (product_uom_qty l) (price_unit l) (total_price l)
    (odoo_on_hand l) (odoo_available l) (store_on_hand l) (hist_avg_sales l)
    (flagged l) (flag_reason l) (shortage_details l) (so_reference l).

Definition set_store_on_hand {num} (l : line_of num) (v : option Q)
  : line_of num :=
  mk_line (store_id l) (store_name l) (order_date l) (delivery_date l)
    (po_number l) (internal_reference l) (product_id l) (product_name l)
    (line_barcode l) (line_warehouse l) (units_per_order l) (original_qty l)
    (po_unit_price l) (product_uom_qty l) (price_unit l) (total_price l)
    (odoo_on_hand l) (odoo_available l) v (hist_avg_sales l)
    (flagged l) (flag_reason l) (shortage_details l) (so_reference l).

Definition set_hist_avg_sales {num} (l : line_of num) (v : option Q)
  : line_of num :=
  mk_line (store_id l) (store_name l) (order_date l) (delivery_date l)
    (po_number l) (internal_reference l) (product_id l) (product_name l)
    (line_barcode l) (line_warehouse l) (units_per_order l) (original_qty l)
    (po_unit_price l) (product_uom_qty l) (price_unit l) (total_price l)
    (odoo_on_hand l) (odoo_available l) (store_on_hand l) v
    (flagged l) (flag_reason l) (shortage_details l) (so_reference l).

Definition set_flagged (l : line) (v : bool) : line :=
  mk_line (store_id l) (store_name l) (order_date l) (delivery_date l)
    (po_number l) (internal_reference l) (product_id l) (product_name l)
    (line_barcode l) (line_warehouse l) (units_per_order l) (original_qty l)
    (po_unit_price l) (product_uom_qty l) (price_unit l) (total_price l)
    (odoo_on_hand l) (odoo_available l) (store_on_hand l) (hist_avg_sales l)
    v (flag_reason l) (shortage_details l) (so_reference l).

Definition set_flag_reason (l : line) (v : option string) : line :=
  mk_line (store_id l) (store_name l) (order_date l) (delivery_date l)
    (po_number l) (internal_reference l) (product_id l) (product_name l)
    (line_barcode l) (line_warehouse l) (units_per_order l) (original_qty l)
    (po_unit_price l) (product_uom_qty l) (price_unit l) (total_price l)
    (odoo_on_hand l) (odoo_available l) (store_on_hand l) (hist_avg_sales l)
    (flagged l) v (shortage_details l) (so_reference l).

Definition set_shortage_details (l : line) (v : option string) : line :=
  mk_line (store_id l) (store_name l) (order_date l) (delivery_date l)
    (po_number l) (internal_reference l) (product_id l) (product_name l)
    (line_barcode l) (line_warehouse l) (units_per_order l) (original_qty l)
    (po_unit_price l) (product_uom_qty l) (price_unit l) (total_price l)
    (odoo_on_hand l) (odoo_available l) (store_on_hand l) (hist_avg_sales l)
    (flagged l) (flag_reason l) v (so_reference l).

(** [pd.to_numeric(store_id, errors='coerce').fillna(0).astype(int)]. *)
Definition normalise_keys {num} (l : line_of num) : line_of num :=
  set_store_id l (Some (match store_id l with Some n => n | None => 0%Z end)).

Definition sales_key_matches {num} (l : line_of num) (h : sales_row) : bool :=
  String.eqb (internal_reference l) (hs_internal_reference h)
  && Z_opt_eqb (store_id l) (Some (hs_store_id h)).

Definition inventory_key_matches {num} (l : line_of num) (r : inventory_row)
  : bool :=
  String.eqb (internal_reference l) (inv_internal_reference r)
  && Z_opt_eqb (store_id l) (Some (inv_store_id r)).

(** Rows a line contributes to [pd.merge(..., how='left')]: one per right
    row with its key, in the right table's order, or one with a NaN value
    when no right row has the key. *)
Definition merge_sales_line {num} (hist : list sales_row) (l : line_of num)
  : list (line_of num) :=
  match filter (sales_key_matches l) hist with
  | [] => [set_hist_avg_sales l None]
  | ms => map (fun h => set_hist_avg_sales l (avg_monthly_sales h)) ms
  end.

Definition merge_inventory_line {num} (inv : list inventory_row)
    (l : line_of num) : list (line_of num) :=
  match filter (inventory_key_matches l) inv with
  | [] => [set_store_on_hand l None]
  | ms => map (fun r => set_store_on_hand l (quantity r)) ms
  end.

(** The historical-sales step: merge when the table is not empty, else keep
    the column the lines already carry. *)
Definition merge_sales {num} (hist : list sales_row)
    (ls : list (line_of num)) : list (line_of num) :=
  match hist with
  | [] => ls
  | _ => flat_map (merge_sales_line hist) ls
  end.

Definition merge_inventory {num} (inv : list inventory_row)
    (ls : list (line_of num)) : list (line_of num) :=
  match inv with
  | [] => ls
  | _ => flat_map (merge_inventory_line inv) ls
  end.

(** [fillna(0)] on both merged columns. *)
Definition fill0 (v : option Q) : option Q :=
  match v with
  | Some q => Some q
  | None => Some 0%Q
  end.

Definition fillna {num} (l : line_of num) : line_of num :=
  set_store_on_hand (set_hist_avg_sales l (fill0 (hist_avg_sales l)))
                    (fill0 (store_on_hand l)).

(** The table the flagging loop starts from. *)
Definition merged {num} (line_details : list (line_of num))
    (hist : list sales_row) (inv : list inventory_row)
  : list (line_of num) :=
  map fillna
    (merge_inventory inv
       (merge_sales hist (map normalise_keys line_details))).

(** Rows with their index labels. *)
Fixpoint enumerate_from {A} (i : nat) (l : list A) : list (nat * A) :=
  match l with
  | [] => []
  | x :: rest => (i, x) :: enumerate_from (S i) rest
  end.

(** [line_details.loc[index, cols] = ...], as a row update [f]. *)
Fixpoint loc_set_from (i : nat) (tbl : list line) (index : list nat)
    (f : line -> line) : list line :=
  match tbl with
  | [] => []
  | l :: rest =>
      (if existsb (Nat.eqb i) index then f l else l)
      :: loc_set_from (S i) rest index f
  end.

Definition loc_set (tbl : list line) (index : list nat) (f : line -> line)
  : list line := loc_set_from 0 tbl index f.

(** [line_details[line_details['warehouse'] == warehouse]]. *)
Definition wh_lines (tbl : list line) (wh : warehouse) : list (nat * line) :=
  filter (fun x => warehouse_eqb (line_warehouse (snd x)) wh)
         (enumerate_from 0 tbl).

(** The groups of [groupby('internal_reference')], by sorted key. *)
Definition group_keys (rows : list (nat * line)) : list string :=
  Py.sorted_str
    (Py.unique String.eqb (map (fun x => internal_reference (snd x)) rows)).

Definition group_rows (rows : list (nat * line)) (ref : string)
  : list (nat * line) :=
  filter (fun x => String.eqb (internal_reference (snd x)) ref) rows.

Definition total_demand_of (group : list (nat * line)) : Q :=
  Py.sum (map (fun x => product_uom_qty (snd x)) group).

Definition reason_truthy (r : option string) : bool :=
  match r with
  | Some s => negb (String.eqb s "")
  | None => false
  end.

Section Optimize.

(** Text of a float inside an f-string. *)
Variable str_float : Q -> string.

Definition shortage_text (total_demand available_qty : Q) : string :=
  "D: " ++ Py.str_of_Z (Py.int total_demand)
  ++ ", Ava: " ++ Py.str_of_Z (Py.int available_qty).

(** Body of the loop over the groups of one warehouse: [group] is taken
    from the warehouse snapshot, the updates go to [line_details]. *)
Definition process_group (line_details : list line)
    (group : list (nat * line)) : list line :=
  match group with
  | [] => line_details
  | (i0, first) :: _ =>
      let total_demand := total_demand_of group in
      let available_qty := odoo_available first in
      let on_hand_qty := odoo_on_hand first in
      let index := map fst group in
      if Qle_bool on_hand_qty 0 then
        loc_set line_details index
          (fun l => set_flag_reason (set_flagged l true) (Some "0/- On Hand"))
      else if Py.Qltb available_qty total_demand then
        if Qle_bool available_qty 0 then
          let extra_msg := ("Available: " ++ str_float available_qty)%string in
          let current_reason :=
            match nth_error line_details i0 with
            | Some l => flag_reason l
            | None => None
            end in
          let reason :=
            match current_reason with
            | Some s =>
                if reason_truthy current_reason
                then (s ++ ", " ++ extra_msg)%string
                else ("Negative Available: " ++ str_float available_qty)%string
            | None =>
                ("Negative Available: " ++ str_float available_qty)%string
            end in
          loc_set line_details index
            (fun l => set_flag_reason (set_flagged l true) (Some reason))
        else
          fold_left
            (fun tbl x =>
               loc_set tbl [fst x]
                 (fun l =>
                    set_shortage_details
                      (set_flag_reason l (Some "Shortage"))
                      (Some (shortage_text total_demand available_qty))))
            group line_details
      else line_details
  end.

(** One pass of [for warehouse in ['CE', 'CW']]. *)
Definition process_warehouse (line_details : list line) (wh : warehouse)
  : list line :=
  let rows := wh_lines line_details wh in
  fold_left (fun tbl ref => process_group tbl (group_rows rows ref))
            (group_keys rows) line_details.

Definition optimize_allocations (line_details : list line)
    (historical_sales : list sales_row) (store_inventory : list inventory_row)
  : list line * list string :=
  match line_details with
  | [] => (line_details, [])
  | _ =>
      (fold_left process_warehouse [CE; CW]
         (merged line_details historical_sales store_inventory),
       [])
  end.

End Optimize.

End InventoryOptimizer.

(** ** Auxiliary notions used by the statements *)

(** Order of [sorted] on strings. *)
Definition leb_str (a b : string) : Prop := String.leb a b = true.

(** Unit count the multi-match branch gives the variant at position [idx]
    of [n] variants sharing the bundle [total]. *)
Definition split_units (total : Q) (n : nat) (idx : nat) : Z :=
  let q := inject_Z (Z.of_nat n) in
  if (idx =? 0)%nat
  then (Py.int (total / q) + Py.int (Py.fmod total q))%Z
  else Py.int (total / q)%Q.

(** Dates are kept as the text the scanner captured, month/day/year.
    [earlier a b] says that both texts are dates and [a] falls strictly
    before [b]. *)
Module Calendar.

Fixpoint split_on (c : ascii) (s : string) : list string :=
  match s with
  | EmptyString => [EmptyString]
  | String a rest =>
      if Ascii.eqb a c then EmptyString :: split_on c rest
      else match split_on c rest with
           | [] => [String a EmptyString]
           | w :: ws => String a w :: ws
           end
  end.

Definition nat_of_text (s : string) : option nat :=
  option_map Nat.of_uint (NilEmpty.uint_of_string s).

(** Year, month and day of a month/day/year text. *)
Definition ymd (s : string) : option (nat * nat * nat) :=
  match split_on "/"%char s with
  | [m; d; y] =>
      match nat_of_text y, nat_of_text m, nat_of_text d with
      | Some y', Some m', Some d' => Some (y', m', d')
      | _, _, _ => None
      end
  | _ => None
  end.

Definition earlier (a b : string) : bool :=
  match ymd a, ymd b with
  | Some (ya, ma, da), Some (yb, mb, db) =>
      ((ya <? yb) || ((ya =? yb) && ((ma <? mb) || ((ma =? mb) && (da <? db)))))%nat
  | _, _ => false
  end.

End Calendar.

(** The columns of a line that are neither an allocation annotation
    ([flagged], [flag_reason], [shortage_details]), nor a merged external
    field ([store_on_hand], [hist_avg_sales]), nor the merge key [store_id]
    (which the allocator casts to an integer). *)
Definition untouched (l : DataTransformer.line) :=
  (DataTransformer.store_name l, DataTransformer.order_date l, DataTransformer.delivery_date l,
   DataTransformer.po_number l, DataTransformer.internal_reference l,
   DataTransformer.product_id l, DataTransformer.product_name l,
   DataTransformer.line_barcode l, DataTransformer.line_warehouse l,
   DataTransformer.units_per_order l, DataTransformer.original_qty l,
   DataTransformer.po_unit_price l, DataTransformer.product_uom_qty l,
   DataTransformer.price_unit l, DataTransformer.total_price l,
   DataTransformer.odoo_on_hand l, DataTransformer.odoo_available l,
   DataTransformer.so_reference l).

(** The columns the flagging loop reads to form and to judge a group. *)
Definition stable (l : DataTransformer.line) :=
  (DataTransformer.line_warehouse l, DataTransformer.internal_reference l,
   DataTransformer.product_uom_qty l, DataTransformer.odoo_available l,
   DataTransformer.odoo_on_hand l).

Definition merged_fields {num} (l : DataTransformer.line_of num)
  : option Q * option Q :=
  (DataTransformer.hist_avg_sales l, DataTransformer.store_on_hand l).

(** The rows of the merged table that stem from one input line. *)
Definition merge_line {num} (hist : list InventoryOptimizer.sales_row)
    (inv : list InventoryOptimizer.inventory_row)
    (l : DataTransformer.line_of num) : list (DataTransformer.line_of num) :=
  InventoryOptimizer.merged [l] hist inv.

(** How many rows of the output stem from one input line. *)
Definition copies (hist : list InventoryOptimizer.sales_row)
    (inv : list InventoryOptimizer.inventory_row)
    (l : DataTransformer.line) : nat :=
  List.length (merge_line hist inv l).

(** The lines of a (warehouse, reference) group, in table order. *)
Definition group_lines (tbl : list DataTransformer.line)
    (wh : DataTransformer.warehouse) (ref : string)
  : list DataTransformer.line :=
  filter (fun l =>
            DataTransformer.warehouse_eqb (DataTransformer.line_warehouse l) wh
            && String.eqb (DataTransformer.internal_reference l) ref)
         tbl.

(** The values a (reference, destination) key has in an external table. *)
Definition sales_values {num} (hist : list InventoryOptimizer.sales_row)
    (l : DataTransformer.line_of num) : list (option Q) :=
  map InventoryOptimizer.avg_monthly_sales
      (filter (InventoryOptimizer.sales_key_matches
                 (InventoryOptimizer.normalise_keys l)) hist).

Definition inventory_values {num}
    (inv : list InventoryOptimizer.inventory_row)
    (l : DataTransformer.line_of num) : list (option Q) :=
  map InventoryOptimizer.quantity
      (filter (InventoryOptimizer.inventory_key_matches
                 (InventoryOptimizer.normalise_keys l)) inv).

(** The three allocation annotations of a line. *)
Definition annotations (l : DataTransformer.line) :=
  (DataTransformer.flagged l, DataTransformer.flag_reason l,
   DataTransformer.shortage_details l).

(** The annotation the shortage branch writes on a line. *)
Definition shortage_note (text : string) (l : DataTransformer.line)
  : DataTransformer.line :=
  InventoryOptimizer.set_shortage_details
    (InventoryOptimizer.set_flag_reason l (Some "Shortage")) (Some text).

(** A group is short when its first line shows stock on hand and a positive
    available quantity that is below the group's total demand. *)
Definition short (g : list DataTransformer.line) : Prop :=
  match g with
  | [] => False
  | first :: _ =>
      (0 < DataTransformer.odoo_on_hand first)%Q /\
      (0 < DataTransformer.odoo_available first)%Q /\
      (DataTransformer.odoo_available first
       < Py.sum (map DataTransformer.product_uom_qty g))%Q
  end.

(** The detail text of a group: total demand and available quantity. *)
Definition short_text (g : list DataTransformer.line) : string :=
  match g with
  | [] => ""
  | first :: _ =>
      InventoryOptimizer.shortage_text
        (Py.sum (map DataTransformer.product_uom_qty g))
        (DataTransformer.odoo_available first)
  end.

(** The reason text of the branch for an available quantity that is zero or
    negative, [current_reason] being the reason the group's first row has. *)
Definition negative_available_reason (str_float : Q -> string)
    (current_reason : option string) (available_qty : Q) : string :=
  match current_reason with
  | Some s =>
      if InventoryOptimizer.reason_truthy current_reason
      then (s ++ ", " ++ ("Available: " ++ str_float available_qty))%string
      else ("Negative Available: " ++ str_float available_qty)%string
  | None => ("Negative Available: " ++ str_float available_qty)%string
  end.

(** The mark the two flagging branches put on a line. *)
Definition flag_with (reason : string) (l : DataTransformer.line)
  : DataTransformer.line :=
  InventoryOptimizer.set_flag_reason
    (InventoryOptimizer.set_flagged l true) (Some reason).

(** What the flagging loop does to each line of a group, read off the
    group's lines [g] in the table the loop starts from. *)
Definition group_effect (str_float : Q -> string)
    (g : list DataTransformer.line)
  : DataTransformer.line -> DataTransformer.line :=
  match g with
  | [] => fun l => l
  | first :: _ =>
      let total_demand := Py.sum (map DataTransformer.product_uom_qty g) in
      let available_qty := DataTransformer.odoo_available first in
      if Qle_bool (DataTransformer.odoo_on_hand first) 0 then
        flag_with "0/- On Hand"
      else if Py.Qltb available_qty total_demand then
        if Qle_bool available_qty 0 then
          flag_with (negative_available_reason str_float
                       (DataTransformer.flag_reason first) available_qty)
        else
          shortage_note
            (InventoryOptimizer.shortage_text total_demand available_qty)
      else fun l => l
  end.

(** The line with the annotation of its (warehouse, reference) group. *)
Definition annotate (str_float : Q -> string)
    (tbl : list DataTransformer.line) (l : DataTransformer.line)
  : DataTransformer.line :=
  group_effect str_float
    (group_lines tbl (DataTransformer.line_warehouse l)
                 (DataTransformer.internal_reference l)) l.

(** The values a line takes from an external table in a left merge: the
    values of the rows with its key, in table order; one null when the table
    has no such row; and the value the line came with when the table is
    empty and no merge takes place. *)
Definition joined_values (table_empty : bool) (own : option Q)
    (matching : list (option Q)) : list (option Q) :=
  if table_empty then [own]
  else match matching with
       | [] => [None]
       | _ => matching
       end.

Definition is_nil {A} (l : list A) : bool :=
  match l with
  | [] => true
  | _ => false
  end.

(** A line that matches several variants the first of which has no factor
    while the catalog table has a factor column: its bundle total is NaN,
    and [int] raises on it. *)
Definition nan_bundle (products : list DataTransformer.product)
    (row : DataTransformer.po_row) : bool :=
  match DataTransformer.matched_products products row with
  | first :: _ :: _ =>
      DataTransformer.has_factor_column products
      && match DataTransformer.x_studio_tt_om_int first with
         | Some _ => false
         | None => true
         end
  | _ => false
  end.

Definition unmatched (products : list DataTransformer.product)
    (row : DataTransformer.po_row) : bool :=
  is_nil (DataTransformer.matched_products products row).

(** The state in which the expander leaves a line: no annotation, merged
    fields at zero, total price the product of unit count and unit price,
    warehouse and stock columns those of the line's destination. *)
Definition as_expanded (cw_stores : list Z)
    (l : DataTransformer.expanded_line) : Prop :=
  DataTransformer.flagged l = false /\
  DataTransformer.flag_reason l = None /\
  DataTransformer.shortage_details l = None /\
  DataTransformer.store_on_hand l = Some 0%Q /\
  DataTransformer.hist_avg_sales l = Some 0%Q /\
  DataTransformer.total_price l
  = Py.mul (DataTransformer.product_uom_qty l) (DataTransformer.price_unit l)
  /\
  DataTransformer.line_warehouse l
  = DataTransformer.get_warehouse_for_store cw_stores
      (DataTransformer.store_id l).

Definition sum_nat (l : list nat) : nat := fold_right Nat.add 0%nat l.

Definition sum_Z (l : list Z) : Z := fold_right Z.add 0%Z l.

(** The factor the multi-match branch takes from the first matched
    variant. *)
Definition base_units_per_case (products : list DataTransformer.product)
    (first : DataTransformer.product) : Py.float64 :=
  DataTransformer.get_default (DataTransformer.factor_cell products first)
                              (Py.Fin 1).

(** What a line carries over from its order line and its variant. *)
Definition provenance {num} (l : DataTransformer.line_of num) :=
  (DataTransformer.internal_reference l, DataTransformer.product_id l,
   DataTransformer.store_id l, DataTransformer.original_qty l,
   DataTransformer.po_unit_price l).

Definition expected_provenance (products : list DataTransformer.product)
    (row : DataTransformer.po_row) :=
  map (fun p => (DataTransformer.Internal_Reference row, DataTransformer.id p,
                 DataTransformer.Store_ID row, DataTransformer.N_of_Order row,
                 DataTransformer.Price row))
      (DataTransformer.matched_products products row).

(** ** History provider: from fetched rows to the two external tables *)

Module SupabaseClient.

(** A Python dict with integer keys, as the list of its insertions; a later
    insertion of a key replaces an earlier one. *)
Fixpoint dict_get {V} (m : list (Z * V)) (k : Z) : option V :=
  match m with
  | [] => None
  | (k', v) :: rest =>
      match dict_get rest k with
      | Some v' => Some v'
      | None => if (k' =? k)%Z then Some v else None
      end
  end.

(** A key after [Series.map(dict)]: [None] is NaN. *)
Definition key := (option string * option Z)%type.

Definition opt_eqb {A} (eqb : A -> A -> bool) (a b : option A) : bool :=
  match a, b with
  | Some x, Some y => eqb x y
  | None, None => true
  | _, _ => false
  end.

(** Equality of keys as [drop_duplicates] sees it: NaN equals NaN. *)
Definition key_eqb (a b : key) : bool :=
  opt_eqb String.eqb (fst a) (fst b) && opt_eqb Z.eqb (snd a) (snd b).

(** A row of 'inventory_snapshots'; the date is the timestamp
    [pd.to_datetime] reads. *)
Record snapshot := mk_snapshot {
  sn_product_id : Z;
  sn_store_id : Z;
  snapshot_date : Z;
  sn_quantity : option Q
}.

(** A row of 'sales_performance'. *)
Record sale := mk_sale {
  sp_product_id : Z;
  sp_store_id : Z;
  total_quantity_sold : option Q
}.

Section Tables.

Variable product_map : list (Z * string).
Variable store_map : list (Z * Z).

Definition snapshot_key (r : snapshot) : key :=
  (dict_get product_map (sn_product_id r), dict_get store_map (sn_store_id r)).

Definition sale_key (r : sale) : key :=
  (dict_get product_map (sp_product_id r), dict_get store_map (sp_store_id r)).

(** [astype(str)] of a mapped reference. *)
Definition str_of_sku (s : option string) : string :=
  match s with
  | Some t => t
  | None => "nan"
  end.

(** [df.sort_values('snapshot_date', ascending=False)]; the order among
    equal dates is not fixed by the sort. *)
Variable sort_snapshots : list snapshot -> list snapshot.

(** [get_store_inventory] once the rows are fetched: newest snapshot per
    key; [astype(int)] on a NaN store number raises, and the handler
    returns an empty table. *)
Definition get_store_inventory (data : list snapshot)
  : list InventoryOptimizer.inventory_row :=
  if is_nil product_map || is_nil store_map then []
  else if is_nil data then []
  else
    let latest_inventory :=
      Py.unique (fun a b => key_eqb (snapshot_key a) (snapshot_key b))
                (sort_snapshots data) in
    if forallb (fun r => match snd (snapshot_key r) with
                         | Some _ => true
                         | None => false
                         end) latest_inventory
    then
      map (fun r =>
             InventoryOptimizer.mk_inventory_row
               (str_of_sku (fst (snapshot_key r)))
               (match snd (snapshot_key r) with Some n => n | None => 0%Z end)
               (sn_quantity r))
          latest_inventory
    else [].

(** Keys with both parts present, the other rows being left out by
    [groupby]. *)
Definition group_key_of (k : key) : list (string * Z) :=
  match k with
  | (Some s, Some n) => [(s, n)]
  | _ => []
  end.

Definition pair_eqb (a b : string * Z) : bool :=
  String.eqb (fst a) (fst b) && (snd a =? snd b)%Z.

(** Order of the group keys: by reference, then by store number. *)
Definition pair_leb (a b : string * Z) : bool :=
  if String.eqb (fst a) (fst b) then (snd a <=? snd b)%Z
  else String.leb (fst a) (fst b).

Fixpoint insert_pair (x : string * Z) (l : list (string * Z))
  : list (string * Z) :=
  match l with
  | [] => [x]
  | t :: rest => if pair_leb x t then x :: l else t :: insert_pair x rest
  end.

Definition sorted_pairs (l : list (string * Z)) : list (string * Z) :=
  fold_right insert_pair [] l.

(** The values of a group, nulls skipped as [mean] skips them. *)
Definition sold_in_group (data : list sale) (k : string * Z) : list Q :=
  flat_map (fun r => match total_quantity_sold r with
                     | Some q => [q]
                     | None => []
                     end)
           (filter (fun r => key_eqb (sale_key r) (Some (fst k), Some (snd k)))
                   data).

(** [mean]; [None] is the NaN of a group without a value. *)
Definition mean (vs : list Q) : option Q :=
  match vs with
  | [] => None
  | _ => Some (Py.sum vs / inject_Z (Z.of_nat (List.length vs)))%Q
  end.

(** [round()]: to the nearest integer, a tie going to the even one. *)
Definition round_half_even (q : Q) : Z :=
  let f := Qfloor q in
  let r := (q - inject_Z f)%Q in
  if Py.Qltb r (1 # 2) then f
  else if Py.Qltb (1 # 2) r then (f + 1)%Z
  else if Z.even f then f else (f + 1)%Z.

(** [get_historical_sales] once the rows are fetched: one row per key with
    the rounded mean; [astype(int)] on a NaN mean raises, and the handler
    returns an empty table. *)
Definition get_historical_sales (data : list sale)
  : list InventoryOptimizer.sales_row :=
  if is_nil product_map || is_nil store_map then []
  else if is_nil data then []
  else
    let keys :=
      sorted_pairs
        (Py.unique pair_eqb (flat_map (fun r => group_key_of (sale_key r))
                                      data)) in
    if forallb (fun k => negb (is_nil (sold_in_group data k))) keys
    then
      map (fun k =>
             InventoryOptimizer.mk_sales_row (fst k) (snd k)
               (option_map (fun m => inject_Z (round_half_even m))
                           (mean (sold_in_group data k))))
          keys
    else [].

End Tables.

End SupabaseClient.

(** The merge key of a row of an external table. *)
Definition inventory_key (r : InventoryOptimizer.inventory_row) : string * Z :=
  (InventoryOptimizer.inv_internal_reference r,
   InventoryOptimizer.inv_store_id r).

Definition sales_key (r : InventoryOptimizer.sales_row) : string * Z :=
  (InventoryOptimizer.hs_internal_reference r,
   InventoryOptimizer.hs_store_id r).

(** ** Scanner tail and export sheet *)

Module Scanner.

(** [extract_from_file], lines 136-148: the ordered quantity and the price
    among the numeric tokens of an item line - the third and the second from
    the end when there are three or more, the last two when there are two,
    none otherwise. *)
Definition qty_and_price (numeric_values : list Q) : option (Q * Q) :=
  match rev numeric_values with
  | last1 :: last2 :: last3 :: _ => Some (last3, last2)
  | last1 :: last2 :: [] => Some (last2, last1)
  | _ => None
  end.

Section Tail.

Variable float_of_string : string -> option Py.float64.

(** [extract_from_file], lines 177-182: validation of the scanned records
    and the report of the records it dropped; [None] when the validator
    raises. *)
Definition validate_and_report (data : list PDFExtractor.item)
    (filename : string) (errors : list string)
  : option (list PDFExtractor.item * list string) :=
  match PDFExtractor.validate_po_data float_of_string data with
  | None => None
  | Some valid_data =>
      if (List.length valid_data <? List.length data)%nat
      then Some (valid_data,
                 errors
                 ++ [("Dropped "
                      ++ Py.str_of_Z (Z.of_nat (List.length data)
                                      - Z.of_nat (List.length valid_data))
                      ++ " invalid items from " ++ filename)%string])
      else Some (valid_data, errors)
  end.

End Tail.

End Scanner.

Module Frontend.

(** A row of the sheet 'Sales Order Lines' ([to_excel] in frontend/app.py). *)
Record order_line := mk_order_line {
  Order_Reference : option string;
  Product : string;
  Description : string;
  Quantity : Q;
  Unit_Price : Q;
  Lock_Unit_Price : bool
}.

Definition order_line_of (l : DataTransformer.line) : order_line :=
  mk_order_line (DataTransformer.so_reference l)
                (DataTransformer.internal_reference l)
                (DataTransformer.product_name l)
                (DataTransformer.product_uom_qty l)
                (DataTransformer.price_unit l) true.

(** [valid_lines = lines[~lines['flagged']]] and the rows made of them. *)
Definition sales_order_lines (lines : list DataTransformer.line)
  : list order_line :=
  map order_line_of
      (filter (fun l => negb (DataTransformer.flagged l)) lines).

End Frontend.

(** A group the allocator flags: nothing on hand, or nothing available for
    a demand above the available quantity. *)
Definition blocked (g : list DataTransformer.line) : bool :=
  match g with
  | [] => false
  | first :: _ =>
      Qle_bool (DataTransformer.odoo_on_hand first) 0
      || (Py.Qltb (DataTransformer.odoo_available first)
                  (Py.sum (map DataTransformer.product_uom_qty g))
          && Qle_bool (DataTransformer.odoo_available first) 0)
  end.

(** ** Concrete tables *)

Module Samples.

Import DataTransformer.

(** No store is mapped to the western warehouse. *)
Definition no_cw : list Z := [].

(** The text of the cells of integer columns. *)
Definition show_cell (_ : column) (c : option Z) : string :=
  match c with
  | Some n => Py.str_of_Z n
  | None => "nan"
  end.

(** The text of the cells when a NaN has made 'Store ID' a float column. *)
Definition show_float_cell (col : column) (c : option Z) : string :=
  match c, col with
  | Some n, Store_ID_column => Py.str_of_Z n ++ ".0"
  | Some n, PO_No_column => Py.str_of_Z n
  | None, _ => "nan"
  end.

Definition no_names : Z -> option string := fun _ => None.

Definition variant (i : Z) (code : string) (factor : option Q) : product :=
  mk_product i "item" None code factor 100 80 50 40.

Definition po (store : Z) (code : string) (qty price : Q) : po_row :=
  mk_po_row (Some store) "Store" "01/05/2024" "01/09/2024" (Some 7001%Z)
            code qty price.

Definition po_on (store po_no : Z) (code : string) (qty price : Q)
    (ordered delivered : string) : po_row :=
  mk_po_row (Some store) "Store" ordered delivered (Some po_no)
            code qty price.

(** A rendering of floats for concrete tables; only the text of the
    negative-available reason depends on it. *)
Definition show_float (q : Q) : string :=
  Py.str_of_Z (Qnum q) ++ "/" ++ Py.str_of_Z (Zpos (Qden q)).

(** An expanded line of the eastern warehouse, as the expander leaves it. *)
Definition stocked (store : Z) (ref : string) (qty on_hand available : Q)
  : line :=
  mk_line (Some store) "Store" "01/05/2024" "01/09/2024" "7001" ref
          1%Z "item" None CE 1%Q qty 1%Q qty 1%Q qty on_hand available
          (Some 0%Q) (Some 0%Q) false None None (Some "OATS00391").

(** A sort of snapshots by descending date (insertion sort). *)
Fixpoint insert_snapshot (x : SupabaseClient.snapshot)
    (l : list SupabaseClient.snapshot) : list SupabaseClient.snapshot :=
  match l with
  | [] => [x]
  | t :: rest =>
      if (SupabaseClient.snapshot_date t <=? SupabaseClient.snapshot_date x)%Z
      then x :: l else t :: insert_snapshot x rest
  end.

Definition newest_first (l : list SupabaseClient.snapshot)
  : list SupabaseClient.snapshot :=
  fold_right insert_snapshot [] l.

(** Two variants of factor 1 share the code R2; two variants of factors 12
    and 6 share R3; R1 has one variant of factor 12 and R0 one of factor 0;
    R5 has three variants of factor 10. *)
Definition catalog : list product :=
  [variant 1 "R1" (Some 12%Q);
   variant 2 "R2" (Some 1%Q); variant 3 "R2" (Some 1%Q);
   variant 4 "R3" (Some 12%Q); variant 5 "R3" (Some 6%Q);
   variant 6 "R0" (Some 0%Q);
   variant 9 "R5" (Some 10%Q); variant 10 "R5" (Some 10%Q);
   variant 11 "R5" (Some 10%Q)].

(** R1 has one variant of factor 12; the only variant of R9 has no factor;
    RN has two variants the first of which has no factor; RZ has two
    variants the first of which has factor 0. *)
Definition patchy : list product :=
  [variant 1 "R1" (Some 12%Q);
   variant 12 "R9" None;
   variant 13 "RN" None; variant 14 "RN" (Some 6%Q);
   variant 15 "RZ" (Some 0%Q); variant 16 "RZ" (Some 6%Q)].

(** No variant has a factor: the catalog table has no factor column. *)
Definition bare : list product :=
  [variant 1 "R1" None; variant 2 "R2" None; variant 3 "R2" None].

(** A record with the text fields of a scanned item, its quantity and its
    price as given. *)
Definition scanned (po store ref : string) (qty price : PDFExtractor.pyval)
  : PDFExtractor.item :=
  PDFExtractor.mk_item (PDFExtractor.VStr po) (PDFExtractor.VStr store)
    (PDFExtractor.VStr "Store") (PDFExtractor.VStr "01/05/2024")
    (PDFExtractor.VStr "01/09/2024") (PDFExtractor.VStr ref)
    (PDFExtractor.VStr "item") (PDFExtractor.VStr "500g")
    (PDFExtractor.VStr "8.00") (Some qty) (Some price).

(** A reading of decimal digits as [float] does it; any other text is
    refused. *)
Definition read_digits (s : string) : option Py.float64 :=
  match s with
  | EmptyString => None
  | _ =>
      option_map (fun n => Py.Fin (inject_Z (Z.of_nat (Nat.of_uint n))))
                 (NilEmpty.uint_of_string s)
  end.

End Samples.

(** * Properties *)

Lemma Qltb_lt (a b : Q) : Py.Qltb a b = true <-> (a < b)%Q.
Proof.
  unfold Py.Qltb. rewrite negb_true_iff.
  split; intro H.
  - apply Qnot_le_lt. intro Hle. apply Qle_bool_iff in Hle. congruence.
  - destruct (Qle_bool b a) eqn:E; [|reflexivity].
    apply Qle_bool_iff in E. exfalso. apply (Qlt_not_le _ _ H E).
Qed.

(** ** Line validator *)

Lemma is_space_spec (c : N) :
  Py.is_space c = true <-> In c PDFExtractor.white_space.
Proof.
  unfold Py.is_space, PDFExtractor.white_space. cbn [In].
  rewrite !orb_true_iff, !andb_true_iff, !N.leb_le, !N.eqb_eq. lia.
Qed.

Lemma lstrip_nil (l : list N) :
  Py.lstrip l = [] <-> forallb Py.is_space l = true.
Proof.
  induction l as [|c l IH]; [easy|].
  cbn [Py.lstrip forallb]. destruct (Py.is_space c); [exact IH|].
  split; discriminate.
Qed.

Lemma lstrip_spaces (l : list N) :
  forallb Py.is_space (Py.lstrip l) = forallb Py.is_space l.
Proof.
  induction l as [|c l IH]; [reflexivity|].
  cbn [Py.lstrip]. destruct (Py.is_space c) eqn:E; [|reflexivity].
  cbn [forallb]. now rewrite E.
Qed.

Lemma forallb_rev {A} (p : A -> bool) (l : list A) :
  forallb p (rev l) = forallb p l.
Proof.
  destruct (forallb p l) eqn:E.
  - rewrite forallb_forall in *. intros x Hx. apply E. now apply in_rev.
  - destruct (forallb p (rev l)) eqn:E'; [|reflexivity].
    rewrite forallb_forall in E'.
    assert (C : forallb p l = true).
    { apply forallb_forall. intros x Hx. apply E'. now apply in_rev in Hx. }
    congruence.
Qed.

(** [s.strip()] is empty exactly when [s] is made of white space only. *)
Lemma strip_nil (l : list N) :
  Py.strip l = [] <-> forallb Py.is_space l = true.
Proof.
  unfold Py.strip. split; intro H.
  - apply (f_equal (@rev N)) in H. rewrite rev_involutive in H. cbn in H.
    apply lstrip_nil in H. now rewrite forallb_rev, lstrip_spaces in H.
  - assert (E : Py.lstrip (rev (Py.lstrip l)) = []).
    { apply lstrip_nil. now rewrite forallb_rev, lstrip_spaces. }
    now rewrite E.
Qed.

Lemma code_points_nil (s : string) : Py.code_points s = [] -> s = "".
Proof.
  destruct s as [|a rest]; [reflexivity|]. cbn [Py.code_points].
  destruct (N_of_ascii a <? 192)%N; [discriminate|].
  destruct rest as [|b rest1]; [discriminate|].
  destruct (Py.continuation b); [|discriminate].
  destruct (N_of_ascii a <? 224)%N; [discriminate|].
  destruct rest1 as [|c rest2]; [discriminate|].
  destruct (Py.continuation c); [|discriminate].
  destruct (N_of_ascii a <? 240)%N; [discriminate|].
  destruct rest2 as [|d rest3]; [discriminate|].
  destruct (Py.continuation d); discriminate.
Qed.

Section ValidatorFacts.

Import PDFExtractor.
Variable float_of_string : string -> option Py.float64.

Local Abbreviation float_field := (float_field float_of_string).
Local Abbreviation validate_po_data := (validate_po_data float_of_string).
Local Abbreviation valid_recordb := (valid_recordb float_of_string).
Local Abbreviation overflowsb := (overflowsb float_of_string).
Local Abbreviation coerced := (coerced float_of_string).
Local Abbreviation coerces_to := (coerces_to float_of_string).
Local Abbreviation valid_record := (valid_record float_of_string).
Local Abbreviation overflows := (overflows float_of_string).

Lemma truthy_float (x : Py.float64) :
  Py.truthy x = true <-> ~ Py.equals x 0.
Proof.
  destruct x as [q| |]; cbn; [|easy|easy].
  rewrite negb_true_iff. split; intro H.
  - intro C. apply Qeq_bool_iff in C. congruence.
  - destruct (Qeq_bool q 0) eqn:E; [|reflexivity].
    apply Qeq_bool_iff in E. contradiction.
Qed.

(** The test on a required field holds exactly of the values that are
    present and non-empty. *)
Lemma present_nonempty_spec (v : pyval) :
  truthy v && str_strip_truthy v = true <-> present_nonempty v.
Proof.
  destruct v as [|b|z|x|s]; cbn [truthy str_strip_truthy].
  - split; [discriminate|]. intro H. inversion H.
  - rewrite andb_true_r. split.
    + intros ->. constructor.
    + intro H. now inversion H.
  - rewrite andb_true_r, negb_true_iff, Z.eqb_neq. split.
    + intro H. now constructor.
    + intro H. now inversion H.
  - rewrite andb_true_r, truthy_float. split.
    + intro H. now constructor.
    + intro H. now inversion H.
  - split.
    + intro H. apply andb_true_iff in H. destruct H as [_ H].
      destruct (Py.strip (Py.code_points s)) as [|c r] eqn:E; [discriminate|].
      assert (Hn : forallb Py.is_space (Py.code_points s) <> true).
      { intro C. apply strip_nil in C. congruence. }
      destruct (forallb Py.is_space (Py.code_points s)) eqn:Ef;
        [contradiction|].
      assert (Hex : exists c', In c' (Py.code_points s)
                               /\ Py.is_space c' = false).
      { clear -Ef. induction (Py.code_points s) as [|c' l IH];
          [discriminate|].
        cbn [forallb] in Ef. destruct (Py.is_space c') eqn:Ec.
        - destruct (IH Ef) as (x & Hx & Hs). exists x. split; [now right|easy].
        - exists c'. split; [now left|exact Ec]. }
      destruct Hex as (c' & Hin & Hs).
      apply (present_text s c' Hin). intro C. apply is_space_spec in C.
      congruence.
    + intro H. inversion H as [| | |s' c Hin Hc]; subst.
      assert (Hs : Py.strip (Py.code_points s) <> []).
      { intro C. apply strip_nil in C. rewrite forallb_forall in C.
        apply Hc, is_space_spec, C, Hin. }
      apply andb_true_iff. split.
      * rewrite negb_true_iff. apply String.eqb_neq. intro C. subst s.
        destruct Hin.
      * destruct (Py.strip (Py.code_points s)); [contradiction|reflexivity].
Qed.

Lemma required_ok_spec (it : item) :
  required_ok it = true <-> required_present it.
Proof.
  unfold required_ok, required_fields, required_present. cbn [forallb].
  rewrite !andb_true_iff, <- !present_nonempty_spec, !andb_true_iff. tauto.
Qed.

Lemma float_limit_pos : (0 < float_limit)%Z.
Proof. reflexivity. Qed.

Lemma float_int (z : Z) :
  float float_of_string (VInt z)
  = if (Z.abs z <? float_limit)%Z then Float (Py.Fin (inject_Z z))
    else Overflow.
Proof. reflexivity. Qed.

(** [float] answers the number the field coerces to. *)
Lemma float_field_value (f : option pyval) (x : Py.float64) :
  float_field f = Float x <-> coerces_to f x.
Proof.
  pose proof float_limit_pos as Hpos.
  destruct f as [[|b|z|y|s]|]; unfold PDFExtractor.float_field.
  - cbn. split; [discriminate|]. intro H. inversion H.
  - cbn. split.
    + intro H. injection H as <-. constructor.
    + intro H. now inversion H.
  - rewrite float_int. destruct (Z.ltb_spec (Z.abs z) float_limit) as [Hz|Hz].
    + split.
      * intro H. injection H as <-. constructor. lia.
      * intro H. now inversion H.
    + split; [discriminate|]. intro H. inversion H. lia.
  - cbn. split.
    + intro H. injection H as <-. constructor.
    + intro H. now inversion H.
  - cbn. destruct (float_of_string s) as [y|] eqn:E.
    + split.
      * intro H. injection H as <-. now constructor.
      * intro H. inversion H. congruence.
    + split; [discriminate|]. intro H. inversion H. congruence.
  - rewrite float_int.
    destruct (Z.ltb_spec (Z.abs 0) float_limit) as [Hz|Hz]; [|cbn in Hz; lia].
    split.
    + intro H. injection H as <-. constructor.
    + intro H. now inversion H.
Qed.

(** [float] raises OverflowError exactly on an integer beyond the float
    range. *)
Lemma float_field_overflow (f : option pyval) :
  float_field f = Overflow <-> beyond_float f.
Proof.
  pose proof float_limit_pos as Hpos. unfold beyond_float.
  destruct f as [[|b|z|y|s]|]; unfold PDFExtractor.float_field.
  - cbn. split; [discriminate|]. intros (z & H & _). discriminate.
  - cbn. split; [discriminate|]. intros (z & H & _). discriminate.
  - rewrite float_int. destruct (Z.ltb_spec (Z.abs z) float_limit) as [Hz|Hz].
    + split; [discriminate|]. intros (z' & H & Hb). injection H as <-. lia.
    + split; [|reflexivity]. intros _. exists z. split; [reflexivity|lia].
  - cbn. split; [discriminate|]. intros (z & H & _). discriminate.
  - cbn. destruct (float_of_string s); split; try discriminate;
      intros (z & H & _); discriminate.
  - rewrite float_int.
    destruct (Z.ltb_spec (Z.abs 0) float_limit) as [Hz|Hz]; [|cbn in Hz; lia].
    split; [discriminate|]. intros (z & H & _). discriminate.
Qed.

Lemma gt0_spec (x : Py.float64) : Py.gt0 x = true <-> positive x.
Proof.
  destruct x as [q|s|]; cbn.
  - apply Qltb_lt.
  - now destruct s.
  - easy.
Qed.

Lemma valid_recordb_spec (it : item) :
  valid_recordb it = true <-> valid_record it.
Proof.
  unfold PDFExtractor.valid_recordb, PDFExtractor.valid_record.
  rewrite andb_true_iff, required_ok_spec.
  split.
  - intros [Hr H]. split; [exact Hr|].
    destruct (float_field (N_of_Order it)) as [qty| |] eqn:Eq;
      try discriminate.
    destruct (float_field (Price it)) as [price| |] eqn:Ep;
      try discriminate.
    apply andb_true_iff in H. destruct H as [Hq Hp].
    exists qty, price. rewrite <- !float_field_value, <- !gt0_spec. auto.
  - intros [Hr (qty & price & Hq & Hp & Hqp & Hpp)]. split; [exact Hr|].
    apply float_field_value in Hq, Hp. rewrite Hq, Hp.
    apply andb_true_iff. now rewrite !gt0_spec.
Qed.

Lemma overflowsb_spec (it : item) :
  overflowsb it = true <-> overflows it.
Proof.
  unfold PDFExtractor.overflowsb, PDFExtractor.overflows.
  rewrite andb_true_iff, required_ok_spec, <- !float_field_overflow.
  split.
  - intros [Hr H]. split; [exact Hr|].
    destruct (float_field (N_of_Order it)) as [qty| |] eqn:Eq;
      [|discriminate|now left].
    right. split; [exists qty; now apply float_field_value|].
    now destruct (float_field (Price it)).
  - intros [Hr [H|[(qty & Hq) Hp]]]; (split; [exact Hr|]).
    + now rewrite H.
    + apply float_field_value in Hq. now rewrite Hq, Hp.
Qed.

(** The loop, record by record. *)
Lemma validate_po_data_cons (it : item) (rest : list item) :
  validate_po_data (it :: rest)
  = if overflowsb it then None
    else if valid_recordb it
         then option_map (cons (coerced it)) (validate_po_data rest)
         else validate_po_data rest.
Proof.
  cbn [PDFExtractor.validate_po_data].
  unfold PDFExtractor.overflowsb, PDFExtractor.valid_recordb,
    PDFExtractor.coerced.
  destruct (required_ok it); cbn [andb]; [|reflexivity].
  destruct (float_field (N_of_Order it)) as [qty| |]; try reflexivity.
  destruct (float_field (Price it)) as [price| |]; reflexivity.
Qed.

Lemma validate_po_data_run (data : list item) :
  validate_po_data data
  = if existsb overflowsb data then None
    else Some (map coerced (filter valid_recordb data)).
Proof.
  induction data as [|it rest IH]; [reflexivity|].
  rewrite validate_po_data_cons. cbn [existsb filter].
  destruct (overflowsb it); cbn [orb]; [reflexivity|].
  rewrite IH. destruct (existsb overflowsb rest).
  - now destruct (valid_recordb it).
  - now destruct (valid_recordb it).
Qed.

(** A kept record is returned with the numbers its quantity and its price
    coerce to. *)
Lemma coerced_spec (it : item) :
  valid_record it ->
  exists qty price,
    coerces_to (N_of_Order it) qty /\ coerces_to (Price it) price /\
    coerced it = set_numbers it qty price.
Proof.
  intros [_ (qty & price & Hq & Hp & _)]. exists qty, price.
  split; [exact Hq|]. split; [exact Hp|].
  apply float_field_value in Hq, Hp. unfold PDFExtractor.coerced.
  now rewrite Hq, Hp.
Qed.


End ValidatorFacts.


(** ** Arithmetic of the split *)

Lemma int_comp (x y : Q) : (x == y)%Q -> Py.int x = Py.int y.
Proof.
  intro H. unfold Py.int.
  assert (E : Qle_bool 0 x = Qle_bool 0 y).
  { destruct (Qle_bool 0 x) eqn:Ex, (Qle_bool 0 y) eqn:Ey; try reflexivity.
    - apply Qle_bool_iff in Ex. rewrite H in Ex.
      apply Qle_bool_iff in Ex. congruence.
    - apply Qle_bool_iff in Ey. rewrite <- H in Ey.
      apply Qle_bool_iff in Ey. congruence. }
  rewrite E. destruct (Qle_bool 0 y).
  - now apply Qfloor_comp.
  - now apply Qceiling_comp.
Qed.

Lemma int_inject_Z (z : Z) : Py.int (inject_Z z) = z.
Proof.
  unfold Py.int. destruct (Qle_bool 0 (inject_Z z)).
  - apply Qfloor_Z.
  - apply Qceiling_Z.
Qed.

Lemma int_nonneg_floor (x : Q) : (0 <= x)%Q -> Py.int x = Qfloor x.
Proof.
  intro H. unfold Py.int. apply Qle_bool_iff in H. now rewrite H.
Qed.

Lemma inject_Z_pos_neq0 (n : Z) : (0 < n)%Z -> ~ (inject_Z n == 0)%Q.
Proof.
  intros H E. unfold Qeq, inject_Z in E. simpl in E. lia.
Qed.

(** The per-variant share of a whole bundle is its integer quotient. *)
Lemma share_whole (total : Q) (B n : Z) :
  (total == inject_Z B)%Q -> (0 <= B)%Z -> (0 < n)%Z ->
  Py.int (total / inject_Z n) = (B / n)%Z.
Proof.
  intros Ht HB Hn.
  rewrite (int_comp (total / inject_Z n) (inject_Z B / inject_Z n)).
  2:{ now rewrite Ht. }
  rewrite int_nonneg_floor.
  - symmetry. apply Zdiv_Qdiv.
  - apply Qle_shift_div_l.
    + change 0%Q with (inject_Z 0). rewrite <- Zlt_Qlt. exact Hn.
    + rewrite Qmult_0_l. change 0%Q with (inject_Z 0).
      rewrite <- Zle_Qle. exact HB.
Qed.

(** The float remainder of a whole bundle is its integer remainder. *)
Lemma remainder_whole (total : Q) (B n : Z) :
  (total == inject_Z B)%Q -> (0 <= B)%Z -> (0 < n)%Z ->
  Py.int (Py.fmod total (inject_Z n)) = (B mod n)%Z.
Proof.
  intros Ht HB Hn.
  rewrite (int_comp _ (inject_Z (B mod n))); [apply int_inject_Z|].
  unfold Py.fmod.
  assert (Ef : Qfloor (total / inject_Z n) = (B / n)%Z).
  { rewrite <- (int_nonneg_floor (total / inject_Z n)).
    - now apply share_whole.
    - rewrite Ht. apply Qle_shift_div_l.
      + change 0%Q with (inject_Z 0). rewrite <- Zlt_Qlt. exact Hn.
      + rewrite Qmult_0_l. change 0%Q with (inject_Z 0).
        rewrite <- Zle_Qle. exact HB. }
  rewrite Ef, Ht.
  rewrite <- inject_Z_mult.
  unfold Qminus. rewrite <- inject_Z_opp, <- inject_Z_plus.
  apply inject_Z_injective.
  pose proof (Z.div_mod B n ltac:(lia)). lia.
Qed.

(** ** Reference expander *)

Lemma count_nonzero (k : nat) :
  Qeq_bool (inject_Z (Z.of_nat (S k))) 0 = false.
Proof.
  destruct (Qeq_bool _ 0) eqn:E; [|reflexivity].
  apply Qeq_bool_iff in E. exfalso. revert E.
  apply inject_Z_pos_neq0. lia.
Qed.

Lemma Qeq_bool_neq (q : Q) : ~ (q == 0)%Q -> Qeq_bool q 0 = false.
Proof.
  intro H. destruct (Qeq_bool q 0) eqn:E; [|reflexivity].
  apply Qeq_bool_iff in E. contradiction.
Qed.

Section ExpanderFacts.

Import DataTransformer.

Variable cw_stores : list Z.
Variable str_cell : column -> option Z -> string.

Local Abbreviation expand_product := (expand_product cw_stores).
Local Abbreviation expand_from := (expand_from cw_stores).
Local Abbreviation expand_row := (expand_row cw_stores str_cell).
Local Abbreviation expand_rows := (expand_rows cw_stores str_cell).
Local Abbreviation line_data := (line_data cw_stores).
Local Abbreviation not_found_message := (not_found_message str_cell).

Lemma or_one_truthy (c : option Py.float64) : Py.truthy (or_one c) = true.
Proof.
  destruct c as [x|]; cbn; [|reflexivity].
  destruct (Py.truthy x) eqn:E; [exact E|reflexivity].
Qed.

(** The divisor of the single-match branch is never zero. *)
Lemma truediv_or_one (a : Py.float64) (c : option Py.float64) :
  Py.truediv a (or_one c) = Some (Py.np_truediv a (or_one c)).
Proof.
  pose proof (or_one_truthy c) as H. unfold Py.truediv.
  destruct (or_one c) as [y| |]; try reflexivity.
  cbn in H. apply negb_true_iff in H. now rewrite H.
Qed.

Lemma has_factor_column_In (products : list product) (p : product) (q : Q) :
  In p products -> x_studio_tt_om_int p = Some q ->
  has_factor_column products = true.
Proof.
  intros Hin Hq. unfold has_factor_column. apply existsb_exists.
  exists p. split; [exact Hin|]. now rewrite Hq.
Qed.

Lemma factor_cell_set (products : list product) (p : product) (q : Q) :
  In p products -> x_studio_tt_om_int p = Some q ->
  factor_cell products p = Some (Py.Fin q).
Proof.
  intros Hin Hq. unfold factor_cell.
  now rewrite (has_factor_column_In products p q Hin Hq), Hq.
Qed.

Lemma matched_first_In (products : list product) (row : po_row)
    (first : product) (rest : list product) :
  matched_products products row = first :: rest -> In first products.
Proof.
  intro Hm. assert (H : In first (matched_products products row)).
  { rewrite Hm. now left. }
  unfold matched_products in H. apply filter_In in H. tauto.
Qed.

(** The factor the multi-match branch reads is a number, except when the
    first variant has no factor and the catalog table has the column. *)
Lemma base_units_cases (products : list product) (first : product) :
  (exists b, base_units_per_case products first = Py.Fin b /\
             (has_factor_column products
              && match x_studio_tt_om_int first with
                 | Some _ => false
                 | None => true
                 end) = false)
  \/ (base_units_per_case products first = Py.NaN /\
      (has_factor_column products
       && match x_studio_tt_om_int first with
          | Some _ => false
          | None => true
          end) = true).
Proof.
  unfold base_units_per_case, factor_cell.
  destruct (has_factor_column products); cbn [get_default andb].
  - destruct (x_studio_tt_om_int first) as [q|].
    + left. now exists q.
    + now right.
  - left. now exists 1%Q.
Qed.

(** The single-match branch. *)
Lemma expand_row_single (products : list product) (row : po_row) (p : product) :
  matched_products products row = [p] ->
  expand_row products row
  = Some ([line_data row p (or_one (factor_cell products p))
             (Py.mul (Py.Fin (N_of_Order row))
                     (or_one (factor_cell products p)))
             (Py.np_truediv (Py.Fin (Price row))
                            (or_one (factor_cell products p)))], []).
Proof.
  intro Hm. unfold DataTransformer.expand_row. rewrite Hm.
  cbn [DataTransformer.expand_from]. unfold DataTransformer.expand_product.
  cbn [List.length Nat.ltb Nat.leb]. now rewrite truediv_or_one.
Qed.

(** The multi-match branch, for a first factor that is a number. *)
Lemma expand_product_multi (products : list product) (row : po_row)
    (first : product) (rest : list product) (base : Q) (idx : nat)
    (p : product) :
  rest <> [] ->
  base_units_per_case products first = Py.Fin base ->
  expand_product products row (first :: rest) idx p
  = Some (line_data row p (or_one (factor_cell products p))
            (Py.Fin (inject_Z (split_units (N_of_Order row * base)
                                 (List.length (first :: rest)) idx)))
            (Py.np_truediv (Py.Fin (Price row)) (Py.Fin base))).
Proof.
  intros Hrest Hbase. unfold DataTransformer.expand_product.
  destruct rest as [|p2 rest']; [contradiction|].
  cbn [List.length Nat.ltb Nat.leb].
  unfold base_units_per_case in Hbase. rewrite Hbase.
  cbn [Py.mul]. unfold Py.np_truediv at 1. rewrite count_nonzero.
  cbn [Py.int_of_float Py.mod_ option_map]. unfold split_units.
  cbn [List.length]. destruct (idx =? 0)%nat; reflexivity.
Qed.

(** The multi-match branch, for a first factor that is NaN: [int] raises
    on the first variant. *)
Lemma expand_product_nan (products : list product) (row : po_row)
    (first : product) (rest : list product) (idx : nat) (p : product) :
  rest <> [] ->
  base_units_per_case products first = Py.NaN ->
  expand_product products row (first :: rest) idx p = None.
Proof.
  intros Hrest Hbase. unfold DataTransformer.expand_product.
  destruct rest as [|p2 rest']; [contradiction|].
  cbn [List.length Nat.ltb Nat.leb].
  unfold base_units_per_case in Hbase. now rewrite Hbase.
Qed.

Lemma expand_from_multi (products : list product) (row : po_row)
    (first : product) (rest : list product) (base : Q) :
  rest <> [] ->
  base_units_per_case products first = Py.Fin base ->
  forall (todo : list product) (idx : nat),
    exists ls,
      expand_from products row (first :: rest) idx todo = Some ls /\
      map product_uom_qty ls
      = map (fun i => Py.Fin (inject_Z (split_units (N_of_Order row * base)
                                          (List.length (first :: rest)) i)))
            (seq idx (List.length todo)) /\
      map price_unit ls
      = repeat (Py.np_truediv (Py.Fin (Price row)) (Py.Fin base))
               (List.length todo) /\
      map product_id ls = map id todo.
Proof.
  intros Hrest Hbase todo.
  induction todo as [|p todo IH]; intro idx.
  - exists []. repeat split.
  - destruct (IH (S idx)) as (ls & E & Hq & Hp & Hi).
    eexists. cbn [DataTransformer.expand_from].
    rewrite (expand_product_multi products row first rest base idx p
               Hrest Hbase).
    rewrite E. split; [reflexivity|].
    cbn [map List.length seq repeat]. rewrite Hq, Hp, Hi.
    repeat split.
Qed.

Lemma expand_row_multi (products : list product) (row : po_row)
    (first : product) (rest : list product) (base : Q) :
  matched_products products row = first :: rest ->
  rest <> [] ->
  base_units_per_case products first = Py.Fin base ->
  exists ls,
    expand_row products row = Some (ls, []) /\
    map product_uom_qty ls
    = map (fun i => Py.Fin (inject_Z (split_units (N_of_Order row * base)
                                        (List.length (first :: rest)) i)))
          (seq 0 (List.length (first :: rest))) /\
    map price_unit ls
    = repeat (Py.np_truediv (Py.Fin (Price row)) (Py.Fin base))
             (List.length (first :: rest)) /\
    map product_id ls = map id (first :: rest).
Proof.
  intros Hm Hrest Hbase.
  destruct (expand_from_multi products row first rest base Hrest Hbase
              (first :: rest) 0%nat) as (ls & E & H).
  exists ls. split; [|exact H].
  unfold DataTransformer.expand_row. rewrite Hm. now rewrite E.
Qed.

(** A set factor of the first matched variant is the factor the multi-match
    branch reads. *)
Lemma base_units_set (products : list product) (row : po_row)
    (first : product) (rest : list product) (base : Q) :
  matched_products products row = first :: rest ->
  x_studio_tt_om_int first = Some base ->
  base_units_per_case products first = Py.Fin base.
Proof.
  intros Hm Hb. unfold base_units_per_case.
  now rewrite (factor_cell_set products first base
                 (matched_first_In products row first rest Hm) Hb).
Qed.

(** The loop over the rows raises exactly on a row whose bundle total is
    NaN. *)
Lemma expand_row_raises (products : list product) (row : po_row) :
  expand_row products row = None <-> nan_bundle products row = true.
Proof.
  unfold nan_bundle.
  destruct (matched_products products row) as [|first [|p2 rest]] eqn:Hm.
  - unfold DataTransformer.expand_row. rewrite Hm. split; discriminate.
  - rewrite (expand_row_single products row first Hm). split; discriminate.
  - destruct (base_units_cases products first) as [(b & Hb & ->)|[Hb ->]].
    + destruct (expand_row_multi products row first (p2 :: rest) b Hm
                  ltac:(discriminate) Hb) as (ls & -> & _).
      split; discriminate.
    + split; [reflexivity|intros _].
      unfold DataTransformer.expand_row. rewrite Hm.
      cbn [DataTransformer.expand_from].
      now rewrite (expand_product_nan products row first (p2 :: rest) 0 first
                     ltac:(discriminate) Hb).
Qed.

Lemma expand_rows_raises (products : list product) (rows : list po_row) :
  expand_rows products rows = None
  <-> existsb (nan_bundle products) rows = true.
Proof.
  induction rows as [|row rows IH].
  - cbn. split; discriminate.
  - cbn [DataTransformer.expand_rows existsb].
    rewrite orb_true_iff, <- IH, <- expand_row_raises.
    destruct (expand_row products row) as [[ls es]|].
    + destruct (expand_rows products rows) as [[ls' es']|].
      * split; [discriminate|]. intros [C|C]; discriminate.
      * split; [now right|reflexivity].
    + split; [now left|reflexivity].
Qed.

(** Every line the loop body builds is the dictionary [line_data] of its
    order line and its variant. *)
Lemma expand_product_line_data (products : list product) (row : po_row)
    (matched : list product) (idx : nat) (p : product) (l : expanded_line) :
  expand_product products row matched idx p = Some l ->
  exists upo units price, l = line_data row p upo units price.
Proof.
  unfold DataTransformer.expand_product.
  destruct (1 <? List.length matched)%nat.
  - destruct matched as [|first ?]; [discriminate|].
    destruct (Py.int_of_float _); [|discriminate].
    destruct (if (idx =? 0)%nat then _ else _); [|discriminate].
    intro H. injection H as <-. now eexists _, _, _.
  - destruct (Py.truediv _ _); [|discriminate].
    intro H. injection H as <-. now eexists _, _, _.
Qed.

Lemma expand_from_provenance (products : list product) (row : po_row)
    (matched : list product) :
  forall todo idx ls,
    expand_from products row matched idx todo = Some ls ->
    map provenance ls
    = map (fun p => (Internal_Reference row, id p, Store_ID row,
                     N_of_Order row, Price row)) todo.
Proof.
  induction todo as [|p todo IH]; intros idx ls H.
  - cbn in H. injection H as <-. reflexivity.
  - cbn [DataTransformer.expand_from] in H.
    destruct (expand_product products row matched idx p) as [l|] eqn:El;
      [|discriminate].
    destruct (expand_from products row matched (S idx) todo) as [ls'|] eqn:E;
      [|discriminate].
    injection H as <-. cbn [map]. rewrite (IH _ _ E). f_equal.
    destruct (expand_product_line_data _ _ _ _ _ _ El) as (u & v & w & ->).
    reflexivity.
Qed.

(** What a run of the loop that does not raise returns: the messages of
    the unmatched rows, one each and in row order, and one line per row and
    matched variant, in row order and, within a row, in catalog order. *)
Lemma expand_rows_output (products : list product) (rows : list po_row)
    (ls : list expanded_line) (es : list string) :
  expand_rows products rows = Some (ls, es) ->
  es = map not_found_message (filter (unmatched products) rows) /\
  map provenance ls = flat_map (expected_provenance products) rows.
Proof.
  revert ls es. induction rows as [|row rows IH]; intros ls es H.
  - cbn in H. injection H as <- <-. split; reflexivity.
  - cbn [DataTransformer.expand_rows] in H.
    destruct (expand_row products row) as [[l1 e1]|] eqn:E1; [|discriminate].
    destruct (expand_rows products rows) as [[l2 e2]|] eqn:E2;
      [|discriminate].
    injection H as <- <-. destruct (IH _ _ eq_refl) as [He Hl].
    cbn [filter flat_map]. rewrite map_app, Hl.
    assert (Hrow : map provenance l1 = expected_provenance products row /\
                   e1 = map not_found_message
                          (if unmatched products row then [row] else [])).
    { unfold expected_provenance, unmatched.
      unfold DataTransformer.expand_row in E1.
      destruct (matched_products products row) as [|p ps] eqn:Hm;
        cbn [is_nil].
      - injection E1 as <- <-. split; reflexivity.
      - destruct (expand_from products row (p :: ps) 0 (p :: ps))
          as [l0|] eqn:E0; [|discriminate].
        injection E1 as <- <-. split; [|reflexivity].
        now apply (expand_from_provenance products row (p :: ps)
                     (p :: ps) 0%nat). }
    destruct Hrow as [-> ->]. split; [|reflexivity].
    rewrite He. now destruct (unmatched products row).
Qed.

(** The loop over the rows treats a concatenation piecewise. *)
Lemma expand_rows_app (products : list product) (pre post : list po_row) :
  expand_rows products (pre ++ post)
  = match expand_rows products pre, expand_rows products post with
    | Some (l1, e1), Some (l2, e2) => Some (l1 ++ l2, e1 ++ e2)
    | _, _ => None
    end.
Proof.
  induction pre as [|row pre IH].
  - cbn. destruct (expand_rows products post) as [[l2 e2]|]; reflexivity.
  - cbn [app DataTransformer.expand_rows].
    destruct (expand_row products row) as [[l0 e0]|]; [|reflexivity].
    rewrite IH.
    destruct (expand_rows products pre) as [[l1 e1]|]; [|reflexivity].
    destruct (expand_rows products post) as [[l2 e2]|]; [|reflexivity].
    now rewrite !app_assoc.
Qed.

End ExpanderFacts.

Section ExpanderClaims.

Import DataTransformer.

Variable cw_stores : list Z.
Variable str_cell : column -> option Z -> string.

Local Abbreviation expand_row := (expand_row cw_stores str_cell).
Local Abbreviation expand_rows := (expand_rows cw_stores str_cell).

Lemma map_seq_const {A} (f : nat -> A) (a : A) (k : nat) :
  forall start, (forall i, (start <= i)%nat -> f i = a) ->
  map f (seq start k) = repeat a k.
Proof.
  induction k as [|k IH]; intros start H; [reflexivity|].
  cbn [seq map repeat]. rewrite (H start (le_n _)).
  f_equal. apply IH. intros i Hi. apply H. lia.
Qed.

Lemma sum_Z_repeat (z : Z) (k : nat) :
  sum_Z (repeat z k) = (Z.of_nat k * z)%Z.
Proof.
  induction k as [|k IH]; [reflexivity|].
  cbn [repeat]. unfold sum_Z in *. cbn [fold_right]. rewrite IH. lia.
Qed.

(** C1, as amended.  A line matching N >= 1 variants whose first variant
    has a set, non-zero factor expands to N lines.  When N = 1 the unit
    count is the bundle total, the ordered quantity times that factor.
    When N > 1 and the bundle total is a whole number B >= 0, the unit
    counts are whole numbers that sum to B exactly, every non-first variant
    receiving floor(B / N) and the first one floor(B / N) + B mod N. *)
Theorem expansion_conservation (products : list product) (row : po_row)
    (first : product) (rest : list product) (base : Q) :
  matched_products products row = first :: rest ->
  x_studio_tt_om_int first = Some base ->
  ~ (base == 0)%Q ->
  let N := Z.of_nat (List.length (first :: rest)) in
  exists ls,
    expand_row products row = Some (ls, []) /\
    List.length ls = List.length (first :: rest) /\
    (rest = [] ->
     map product_uom_qty ls = [Py.Fin (N_of_Order row * base)]) /\
    (rest <> [] ->
     forall B : Z,
       (0 <= B)%Z -> (N_of_Order row * base == inject_Z B)%Q ->
       let units :=
         (B / N + B mod N)%Z :: repeat (B / N)%Z (List.length rest) in
       map product_uom_qty ls = map (fun z => Py.Fin (inject_Z z)) units /\
       sum_Z units = B).
Proof.
  intros Hm Hbase Hnz N.
  pose proof (base_units_set products row first rest base Hm Hbase) as Hcell.
  destruct rest as [|p2 rest'].
  - eexists. split; [apply (expand_row_single _ _ _ _ _ Hm)|].
    split; [reflexivity|]. split; [|intro H; now contradiction H].
    intros _. cbn [map product_uom_qty line_data].
    unfold base_units_per_case in Hcell.
    rewrite (factor_cell_set products first base
               (matched_first_In products row first [] Hm) Hbase).
    cbn [or_one Py.truthy]. rewrite (Qeq_bool_neq base Hnz). reflexivity.
  - assert (Hrest : p2 :: rest' <> []) by discriminate.
    destruct (expand_row_multi cw_stores str_cell products row first
                (p2 :: rest') base Hm Hrest Hcell)
      as (ls & E & Hq & _ & Hi).
    assert (HN : (0 < N)%Z) by (unfold N; cbn [List.length]; lia).
    exists ls. split; [exact E|]. split.
    { rewrite <- (length_map product_id ls), Hi. now rewrite length_map. }
    split; [intro C; discriminate C|].
    intros _ B HB Ht units. subst units. split.
    + rewrite Hq.
      change (List.length (first :: p2 :: rest'))
        with (S (List.length (p2 :: rest'))) at 2.
      cbn [seq map]. f_equal.
      * unfold split_units. cbn [Nat.eqb]. do 2 f_equal.
        rewrite (share_whole _ B _ Ht HB), (remainder_whole _ B _ Ht HB);
          fold N; auto.
      * rewrite (map_seq_const _ (Py.Fin (inject_Z (B / N)))).
        { now rewrite map_repeat. }
        intros i Hi'. unfold split_units.
        destruct i as [|i]; [lia|]. cbn [Nat.eqb]. do 2 f_equal.
        apply (share_whole _ B _ Ht HB). exact HN.
    + unfold sum_Z. cbn [fold_right].
      fold (sum_Z (repeat (B / N)%Z (List.length (p2 :: rest')))).
      rewrite sum_Z_repeat.
      assert (EN : N = (1 + Z.of_nat (List.length (p2 :: rest')))%Z).
      { unfold N. cbn [List.length]. lia. }
      pose proof (Z.div_mod B N ltac:(lia)). nia.
Qed.

(** C2, as amended.  Every line a multi-match produces carries the line
    price divided by the factor of the first matched variant, whatever the
    variant's own factor, provided that factor is set and not zero. *)
Theorem multi_variant_price_basis (products : list product) (row : po_row)
    (first : product) (rest : list product) (base : Q) :
  matched_products products row = first :: rest ->
  rest <> [] ->
  x_studio_tt_om_int first = Some base ->
  ~ (base == 0)%Q ->
  exists ls,
    expand_row products row = Some (ls, []) /\
    map product_id ls = map id (first :: rest) /\
    Forall (fun l => price_unit l = Py.Fin (Price row / base)) ls.
Proof.
  intros Hm Hrest Hbase Hnz.
  destruct (expand_row_multi cw_stores str_cell products row first rest base
              Hm Hrest (base_units_set products row first rest base Hm Hbase))
    as (ls & E & _ & Hp & Hi).
  exists ls. split; [exact E|]. split; [exact Hi|].
  apply Forall_forall. intros l Hl.
  apply (in_map price_unit) in Hl. rewrite Hp in Hl.
  apply repeat_spec in Hl. rewrite Hl. unfold Py.np_truediv.
  now rewrite (Qeq_bool_neq base Hnz).
Qed.

End ExpanderClaims.

Import DataTransformer.

(** Three variants of factor 10 share one ordered case: 4, 3 and 3 units. *)
Lemma expansion_conservation_witness :
  exists ls,
    DataTransformer.expand_row Samples.no_cw Samples.show_cell Samples.catalog
      (Samples.po 5 "R5" 1 12) = Some (ls, []) /\
    List.length ls = 3%nat /\
    map product_uom_qty ls
    = [Py.Fin (inject_Z 4); Py.Fin (inject_Z 3); Py.Fin (inject_Z 3)] /\
    sum_Z [4; 3; 3]%Z = 10%Z.
Proof.
  destruct (expansion_conservation Samples.no_cw Samples.show_cell
              Samples.catalog (Samples.po 5 "R5" 1 12)
              (Samples.variant 9 "R5" (Some 10%Q))
              [Samples.variant 10 "R5" (Some 10%Q);
               Samples.variant 11 "R5" (Some 10%Q)]
              10%Q)
    as (ls & E & Hl & _ & Hq).
  - reflexivity.
  - reflexivity.
  - intro H; discriminate H.
  - exists ls. split; [exact E|]. split; [exact Hl|].
    apply (Hq ltac:(discriminate) 10%Z); [lia|reflexivity].
Defined.

(** C1 fails as stated: a bundle total of 2.5 units split over two variants
    gives 1 and 1; and a single variant of factor 0 gives the ordered
    quantity, not zero. *)
Lemma expansion_conservation_counterexample :
  (exists l1 l2,
     DataTransformer.expand_row Samples.no_cw Samples.show_cell Samples.catalog
       (Samples.po 5 "R2" (5 # 2) 12) = Some ([l1; l2], []) /\
     product_uom_qty l1 = Py.Fin (inject_Z 1) /\
     product_uom_qty l2 = Py.Fin (inject_Z 1) /\
     ~ (inject_Z 1 + inject_Z 1 == (5 # 2) * 1)%Q) /\
  (exists l,
     DataTransformer.expand_row Samples.no_cw Samples.show_cell Samples.catalog
       (Samples.po 5 "R0" 2 12) = Some ([l], []) /\
     Py.equals (product_uom_qty l) 2 /\
     ~ Py.equals (product_uom_qty l) (2 * 0)).
Proof.
  split.
  - do 2 eexists. split; [vm_compute; reflexivity|].
    split; [reflexivity|]. split; [reflexivity|].
    vm_compute. discriminate.
  - eexists. split; [vm_compute; reflexivity|].
    split; vm_compute; [reflexivity|discriminate].
Qed.

Lemma multi_variant_price_basis_witness :
  exists ls,
    DataTransformer.expand_row Samples.no_cw Samples.show_cell Samples.catalog
      (Samples.po 5 "R3" 1 12) = Some (ls, []) /\
    map product_id ls = [4%Z; 5%Z] /\
    Forall (fun l => price_unit l = Py.Fin (12 / 12)%Q) ls.
Proof.
  apply (multi_variant_price_basis Samples.no_cw Samples.show_cell
           Samples.catalog (Samples.po 5 "R3" 1 12)
           (Samples.variant 4 "R3" (Some 12%Q))
           [Samples.variant 5 "R3" (Some 6%Q)] 12%Q).
  - reflexivity.
  - discriminate.
  - reflexivity.
  - intro H; discriminate H.
Defined.

(** C2 fails as stated: the second variant of R3 has factor 6, and its line
    is priced 12 / 12 = 1, not 12 / 6 = 2. *)
Lemma multi_variant_price_basis_counterexample :
  exists l1 l2,
    DataTransformer.expand_row Samples.no_cw Samples.show_cell Samples.catalog
      (Samples.po 5 "R3" 1 12) = Some ([l1; l2], []) /\
    product_id l2 = 5%Z /\
    units_per_order l2 = Py.Fin 6 /\
    Py.equals (price_unit l2) 1 /\
    ~ Py.equals (price_unit l2) (Price (Samples.po 5 "R3" 1 12) / 6).
Proof.
  do 2 eexists. split; [vm_compute; reflexivity|].
  split; [reflexivity|]. split; [reflexivity|]. split; [reflexivity|].
  vm_compute. discriminate.
Qed.

Section ExpanderDiagnostics.

Variable cw_stores : list Z.
Variable tt_store_names : Z -> option string.
Variable str_cell : column -> option Z -> string.

Local Abbreviation expand_row := (expand_row cw_stores str_cell).
Local Abbreviation expand_rows := (expand_rows cw_stores str_cell).
Local Abbreviation not_found_message := (not_found_message str_cell).

Lemma filter_middle {A} (f : A -> bool) (pre post : list A) (x : A) :
  f x = true ->
  filter f (pre ++ x :: post) = filter f pre ++ x :: filter f post.
Proof. intro H. rewrite filter_app. cbn [filter]. now rewrite H. Qed.


(** With a catalog and an order table that are not empty, the diagnostics
    [transform_data] returns are those of the loop over the rows. *)
Lemma transform_data_errors (po_df : list po_row) (products : list product)
    (starting_so_ref : Z) :
  po_df <> [] -> products <> [] ->
  option_map snd
    (transform_data cw_stores tt_store_names str_cell po_df products
       starting_so_ref)
  = option_map snd (expand_rows products po_df).
Proof.
  intros Hpo Hpr. unfold transform_data.
  destruct po_df as [|r po]; [contradiction|].
  destruct products as [|p ps]; [contradiction|].
  destruct (expand_rows (p :: ps) (r :: po)) as [[ls es]|]; [|reflexivity].
  destruct (aggregate cw_stores tt_store_names str_cell ls starting_so_ref).
  reflexivity.
Qed.


End ExpanderDiagnostics.




(** ** Order aggregator *)

Lemma In_insert_Z (z x : Z) (l : list Z) :
  In x (Py.insert_Z z l) <-> x = z \/ In x l.
Proof.
  induction l as [|t l IH]; cbn [Py.insert_Z].
  - cbn. intuition.
  - destruct (z <=? t)%Z; cbn [In]; [intuition|].
    rewrite IH. cbn [In]. intuition.
Qed.

Lemma In_sorted_Z (x : Z) (l : list Z) : In x (Py.sorted_Z l) <-> In x l.
Proof.
  induction l as [|z l IH]; [reflexivity|].
  unfold Py.sorted_Z in *. cbn [fold_right In].
  rewrite In_insert_Z, IH. intuition.
Qed.

Lemma In_unique {A} (eqb : A -> A -> bool) (x : A) (l : list A) :
  In x (Py.unique eqb l) -> In x l.
Proof.
  induction l as [|a l IH]; [auto|].
  cbn [Py.unique In]. intros [H|H]; [now left|].
  apply filter_In in H. right. apply IH. tauto.
Qed.

Lemma insert_str_sorted (s : string) (l : list string) :
  Sorted leb_str l -> Sorted leb_str (Py.insert_str s l).
Proof.
  induction l as [|t l IH]; intro H; cbn [Py.insert_str].
  - repeat constructor.
  - destruct (String.leb s t) eqn:E.
    + constructor; [exact H|]. constructor. exact E.
    + inversion H as [|? ? Hs Hh]; subst.
      constructor; [now apply IH|].
      assert (Hts : leb_str t s).
      { destruct (String.leb_total s t) as [C|C]; [congruence|exact C]. }
      destruct l as [|u l']; cbn [Py.insert_str].
      * constructor. exact Hts.
      * destruct (String.leb s u); constructor; [exact Hts|].
        now inversion Hh.
Qed.

(** [sorted] returns an ascending list. *)
Lemma sorted_str_sorted (l : list string) :
  Sorted leb_str (Py.sorted_str l).
Proof.
  induction l as [|s l IH]; [constructor|].
  unfold Py.sorted_str in *. cbn [fold_right]. now apply insert_str_sorted.
Qed.

Section AggregatorFacts.

Variable cw_stores : list Z.
Variable tt_store_names : Z -> option string.
Variable str_cell : column -> option Z -> string.

Local Abbreviation aggregate := (aggregate cw_stores tt_store_names str_cell).
Local Abbreviation summaries_from :=
  (summaries_from cw_stores tt_store_names str_cell).

Lemma summaries_from_store_ids (ls : list expanded_line) (S0 : Z)
    (stores : list Z) :
  forall index,
    map h_store_id (summaries_from ls S0 index stores) = stores.
Proof.
  induction stores as [|sid stores IH]; intro index; [reflexivity|].
  cbn [DataTransformer.summaries_from map]. now rewrite IH.
Qed.

Lemma summaries_from_Forall (P : header -> Prop) (ls : list expanded_line)
    (S0 : Z) (stores : list Z) :
  (forall index sid, In sid stores ->
     P (summary cw_stores tt_store_names str_cell ls S0 index sid)) ->
  forall index, Forall P (summaries_from ls S0 index stores).
Proof.
  induction stores as [|sid stores IH]; intros H index; [constructor|].
  cbn [DataTransformer.summaries_from]. constructor.
  - apply H. now left.
  - apply IH. intros i s Hs. apply H. now right.
Qed.

(** Every destination the aggregator numbers has at least one line. *)
Lemma group_of_unique_store (ls : list expanded_line) (sid : Z) :
  In sid (unique_stores ls) -> group_of ls sid <> [].
Proof.
  unfold unique_stores. rewrite In_sorted_Z. intro H.
  apply In_unique in H. unfold store_ids in H.
  apply in_flat_map in H. destruct H as (l & Hl & Hs).
  destruct (store_id l) as [n|] eqn:E; [|contradiction].
  destruct Hs as [<-|[]].
  assert (Hin : In l (group_of ls n)).
  { unfold group_of. apply filter_In. split; [exact Hl|].
    rewrite E. cbn. apply Z.eqb_refl. }
  intro C. rewrite C in Hin. exact Hin.
Qed.

(** C7, as amended.  The aggregator builds one header per destination of
    the lines that have one, in ascending order of destination id; the
    header carries the order date and the delivery date of the destination's
    first line in table order, its distinct order numbers sorted and joined
    by a comma and a space, the sum of its lines' total prices and the
    number of its lines. *)
Theorem order_header_fields (expanded_lines : list expanded_line)
    (starting_so_ref : Z) :
  let details := dropna_store_id expanded_lines in
  let headers := fst (aggregate expanded_lines starting_so_ref) in
  map h_store_id headers = unique_stores details /\
  Forall
    (fun h =>
       let group := group_of details (h_store_id h) in
       let po_list :=
         Py.sorted_str (Py.unique String.eqb (map po_number group)) in
       (exists first rest,
          group = first :: rest /\
          h_order_date h = order_date first /\
          h_delivery_date h = delivery_date first) /\
       Sorted leb_str po_list /\
       h_po_numbers h = Py.join ", " po_list /\
       h_total_value h = Py.nansum (map total_price group) /\
       h_total_lines h = List.length group)
    headers.
Proof.
  intros details headers. subst headers. unfold DataTransformer.aggregate.
  destruct expanded_lines as [|l0 ls0].
  - subst details. cbn. split; [reflexivity|constructor].
  - cbn [fst]. fold details.
    split; [apply summaries_from_store_ids|].
    apply summaries_from_Forall. intros index sid Hsid.
    cbn [h_store_id h_order_date h_delivery_date h_po_numbers h_total_value
         h_total_lines summary].
    pose proof (group_of_unique_store details sid Hsid) as Hne.
    destruct (group_of details sid) as [|first rest] eqn:Eg;
      [contradiction|].
    split; [exists first, rest; repeat split|].
    split; [apply sorted_str_sorted|]. repeat split.
Qed.

End AggregatorFacts.

(** C7 fails as stated: destination 5 has a line ordered on 01/15/2024 for
    delivery on 01/20/2024, and its header carries 02/01/2024 and
    02/10/2024, the dates of the line that comes first in the table. *)
Lemma order_header_dates_counterexample :
  exists h l1 l2,
    transform_data Samples.no_cw Samples.no_names Samples.show_cell
      [Samples.po_on 5 7001 "R1" 2 24 "02/01/2024" "02/10/2024";
       Samples.po_on 5 7002 "R1" 1 24 "01/15/2024" "01/20/2024"]
      Samples.catalog 391
    = Some ([h], [l1; l2], []) /\
    store_id l2 = Some (h_store_id h) /\
    h_order_date h = "02/01/2024" /\
    order_date l2 = "01/15/2024" /\
    Calendar.earlier (order_date l2) (h_order_date h) = true /\
    Calendar.earlier (delivery_date l2) (h_delivery_date h) = true.
Proof.
  do 3 eexists. split; [vm_compute; reflexivity|].
  repeat split.
Qed.

(** C3 at the starting number 999 with the destinations 5 and 9: the two
    references are OATS00999 and OATS001000; they differ in length, and the
    reference of the higher destination sorts before the other. *)
Theorem order_reference_not_padded :
  exists h1 h2 lines,
    transform_data Samples.no_cw Samples.no_names Samples.show_cell
      [Samples.po 5 "R1" 2 24; Samples.po 9 "R1" 1 24] Samples.catalog 999
    = Some ([h1; h2], lines, []) /\
    (h_store_id h1 < h_store_id h2)%Z /\
    h_so_reference h1 = "OATS00999" /\
    h_so_reference h2 = "OATS001000" /\
    String.length (h_so_reference h1) <> String.length (h_so_reference h2) /\
    String.ltb (h_so_reference h2) (h_so_reference h1) = true.
Proof.
  do 3 eexists. split; [vm_compute; reflexivity|].
  repeat split. cbn. discriminate.
Qed.

(** A line without destination id makes 'Store ID' a float column: the
    line is left out of the tables, and the default name of destination 5
    is made of the float's text. *)
Example official_name_of_float_column :
  exists h l,
    transform_data Samples.no_cw Samples.no_names Samples.show_float_cell
      [Samples.po 5 "R1" 2 24;
       mk_po_row None "Store" "01/05/2024" "01/09/2024" (Some 7001%Z)
                 "R1" 1 24]
      Samples.catalog 391
    = Some ([h], [l], []) /\
    h_official_name h = "Store 5.0" /\
    store_id l = Some 5%Z.
Proof.
  do 2 eexists. split; [vm_compute; reflexivity|]. split; reflexivity.
Qed.

(** ** Inventory allocator: the merges *)

Import InventoryOptimizer.

Lemma merge_sales_app {num} (hist : list sales_row)
    (a b : list (line_of num)) :
  merge_sales hist (a ++ b) = merge_sales hist a ++ merge_sales hist b.
Proof. destruct hist; [reflexivity|]. apply flat_map_app. Qed.

Lemma merge_inventory_app {num} (inv : list inventory_row)
    (a b : list (line_of num)) :
  merge_inventory inv (a ++ b) = merge_inventory inv a ++ merge_inventory inv b.
Proof. destruct inv; [reflexivity|]. apply flat_map_app. Qed.

(** The merged table is made of the rows of its lines, line after line. *)
Lemma merged_flat_map (ls : list line) (hist : list sales_row)
    (inv : list inventory_row) :
  merged ls hist inv = flat_map (merge_line hist inv) ls.
Proof.
  induction ls as [|l ls IH]; [destruct hist, inv; reflexivity|].
  cbn [flat_map]. rewrite <- IH. unfold merge_line, merged.
  change (l :: ls) with ([l] ++ ls).
  now rewrite map_app, merge_sales_app, merge_inventory_app, map_app.
Qed.

Lemma set_hist_avg_sales_same {num} (l : line_of num) :
  set_hist_avg_sales l (hist_avg_sales l) = l.
Proof. now destruct l. Qed.

Lemma set_store_on_hand_same {num} (l : line_of num) :
  set_store_on_hand l (store_on_hand l) = l.
Proof. now destruct l. Qed.

(** Rows after the historical-sales step, for one line. *)
Lemma merge_sales_rows (hist : list sales_row) (l r : line) :
  In r (merge_sales hist [l]) -> exists v, r = set_hist_avg_sales l v.
Proof.
  destruct hist as [|h hist]; cbn [merge_sales flat_map].
  - intros [<-|[]]. exists (hist_avg_sales l).
    now rewrite set_hist_avg_sales_same.
  - rewrite app_nil_r. unfold merge_sales_line.
    destruct (filter (sales_key_matches l) (h :: hist)) as [|m ms].
    + intros [<-|[]]. now exists None.
    + intro H. apply in_map_iff in H. destruct H as (x & <- & _).
      now eexists.
Qed.

Lemma merge_inventory_rows (inv : list inventory_row) (l r : line) :
  In r (merge_inventory inv [l]) -> exists v, r = set_store_on_hand l v.
Proof.
  destruct inv as [|h inv]; cbn [merge_inventory flat_map].
  - intros [<-|[]]. exists (store_on_hand l).
    now rewrite set_store_on_hand_same.
  - rewrite app_nil_r. unfold merge_inventory_line.
    destruct (filter (inventory_key_matches l) (h :: inv)) as [|m ms].
    + intros [<-|[]]. now exists None.
    + intro H. apply in_map_iff in H. destruct H as (x & <- & _).
      now eexists.
Qed.

Lemma merge_inventory_In (inv : list inventory_row) (ls : list line) (r : line) :
  In r (merge_inventory inv ls) ->
  exists l, In l ls /\ In r (merge_inventory inv [l]).
Proof.
  induction ls as [|l ls IH]; [destruct inv; intros []|].
  change (l :: ls) with ([l] ++ ls). rewrite merge_inventory_app.
  intro H. apply in_app_or in H. destruct H as [H|H].
  - exists l. split; [now left|exact H].
  - destruct (IH H) as (l' & Hl' & Hr). exists l'. split; [now right|exact Hr].
Qed.

(** Every row that stems from a line is that line with its merge key cast
    and its two merged fields set. *)
Lemma merge_line_rows (hist : list sales_row) (inv : list inventory_row)
    (l r : line) :
  In r (merge_line hist inv l) ->
  exists vh vi,
    r = fillna (set_store_on_hand
                  (set_hist_avg_sales (normalise_keys l) vh) vi).
Proof.
  unfold merge_line, merged. intro H. apply in_map_iff in H.
  destruct H as (r1 & <- & H1). cbn [map] in H1.
  apply merge_inventory_In in H1. destruct H1 as (r2 & H2 & H1).
  apply merge_sales_rows in H2. destruct H2 as (vh & ->).
  apply merge_inventory_rows in H1. destruct H1 as (vi & ->).
  now exists vh, vi.
Qed.

Lemma untouched_merge_row (l : line) (vh vi : option Q) :
  untouched (fillna (set_store_on_hand
                       (set_hist_avg_sales (normalise_keys l) vh) vi))
  = untouched l.
Proof. now destruct l. Qed.

Lemma map_const_repeat {A B} (f : A -> B) (b : B) (l : list A) :
  (forall x, In x l -> f x = b) -> map f l = repeat b (List.length l).
Proof.
  induction l as [|a l IH]; intro H; [reflexivity|].
  cbn [map List.length repeat]. rewrite (H a (or_introl eq_refl)).
  f_equal. apply IH. intros x Hx. apply H. now right.
Qed.

Lemma untouched_merge_line (hist : list sales_row) (inv : list inventory_row)
    (l : line) :
  map untouched (merge_line hist inv l)
  = repeat (untouched l) (copies hist inv l).
Proof.
  unfold copies. apply map_const_repeat. intros r Hr.
  apply merge_line_rows in Hr. destruct Hr as (vh & vi & ->).
  apply untouched_merge_row.
Qed.

Lemma untouched_merged (ls : list line) (hist : list sales_row)
    (inv : list inventory_row) :
  map untouched (merged ls hist inv)
  = flat_map (fun l => repeat (untouched l) (copies hist inv l)) ls.
Proof.
  rewrite merged_flat_map.
  induction ls as [|l ls IH]; [reflexivity|].
  cbn [flat_map]. now rewrite map_app, IH, untouched_merge_line.
Qed.

(** ** Inventory allocator: the flagging loop leaves a frame *)

Section Frame.

Variable str_float : Q -> string.
Context {A : Type} (proj : line -> A).

Hypothesis proj_flagged : forall l v, proj (set_flagged l v) = proj l.
Hypothesis proj_flag_reason : forall l v, proj (set_flag_reason l v) = proj l.
Hypothesis proj_shortage_details :
  forall l v, proj (set_shortage_details l v) = proj l.

Lemma loc_set_from_frame (f : line -> line) (index : list nat) :
  (forall l, proj (f l) = proj l) ->
  forall tbl i, map proj (loc_set_from i tbl index f) = map proj tbl.
Proof.
  intros Hf tbl. induction tbl as [|l tbl IH]; intro i; [reflexivity|].
  cbn [loc_set_from map]. rewrite IH.
  destruct (existsb (Nat.eqb i) index); now rewrite ?Hf.
Qed.

Lemma process_group_frame (tbl : list line) (group : list (nat * line)) :
  map proj (process_group str_float tbl group) = map proj tbl.
Proof.
  unfold process_group. destruct group as [|[i0 first] rest]; [reflexivity|].
  destruct (Qle_bool (odoo_on_hand first) 0).
  { apply loc_set_from_frame. intro l.
    now rewrite proj_flag_reason, proj_flagged. }
  destruct (Py.Qltb _ _); [|reflexivity].
  destruct (Qle_bool (odoo_available first) 0).
  { apply loc_set_from_frame. intro l.
    now rewrite proj_flag_reason, proj_flagged. }
  generalize ((i0, first) :: rest) at 2. intro g. revert tbl.
  induction g as [|x g IH]; intro tbl; [reflexivity|].
  cbn [fold_left]. rewrite IH. apply loc_set_from_frame. intro l.
  now rewrite proj_shortage_details, proj_flag_reason.
Qed.

Lemma process_warehouse_frame (tbl : list line) (wh : warehouse) :
  map proj (process_warehouse str_float tbl wh) = map proj tbl.
Proof.
  unfold process_warehouse.
  generalize (wh_lines tbl wh). intro rows.
  generalize (group_keys rows). intro keys. revert tbl.
  induction keys as [|k keys IH]; intro tbl; [reflexivity|].
  cbn [fold_left]. rewrite IH. apply process_group_frame.
Qed.

Lemma flag_loop_frame (tbl : list line) :
  map proj (fold_left (process_warehouse str_float) [CE; CW] tbl)
  = map proj tbl.
Proof.
  cbn [fold_left]. now rewrite !process_warehouse_frame.
Qed.

End Frame.

(** ** Inventory allocator: how many rows a line becomes *)

Lemma merge_sales_length (hist : list sales_row) (l : line) :
  List.length (merge_sales hist [l])
  = Nat.max 1 (List.length (filter (sales_key_matches l) hist)).
Proof.
  destruct hist as [|h hist]; [reflexivity|].
  cbn [merge_sales flat_map]. rewrite app_nil_r. unfold merge_sales_line.
  destruct (filter (sales_key_matches l) (h :: hist)) as [|m ms];
    [reflexivity|].
  rewrite length_map. cbn [List.length]. lia.
Qed.

Lemma merge_inventory_length1 (inv : list inventory_row) (l : line) :
  List.length (merge_inventory inv [l])
  = Nat.max 1 (List.length (filter (inventory_key_matches l) inv)).
Proof.
  destruct inv as [|h inv]; [reflexivity|].
  cbn [merge_inventory flat_map]. rewrite app_nil_r.
  unfold merge_inventory_line.
  destruct (filter (inventory_key_matches l) (h :: inv)) as [|m ms];
    [reflexivity|].
  rewrite length_map. cbn [List.length]. lia.
Qed.

Lemma inventory_key_set_hist {num} (l : line_of num) (v : option Q)
    (r : inventory_row) :
  inventory_key_matches (set_hist_avg_sales l v) r = inventory_key_matches l r.
Proof. now destruct l. Qed.

Lemma merge_inventory_length (inv : list inventory_row) (l : line)
    (rows : list line) :
  (forall r, In r rows -> exists v, r = set_hist_avg_sales l v) ->
  List.length (merge_inventory inv rows)
  = (List.length rows
     * Nat.max 1 (List.length (filter (inventory_key_matches l) inv)))%nat.
Proof.
  induction rows as [|r rows IH]; intro H.
  - destruct inv; reflexivity.
  - change (r :: rows) with ([r] ++ rows).
    rewrite merge_inventory_app, !length_app, IH.
    2:{ intros x Hx. apply H. now right. }
    rewrite merge_inventory_length1.
    destruct (H r (or_introl eq_refl)) as (v & ->).
    rewrite (filter_ext _ _ (inventory_key_set_hist l v)).
    cbn [List.length]. lia.
Qed.

(** A line becomes one row per pair of matching external rows, an external
    table without a match counting for one. *)
Lemma copies_formula (hist : list sales_row) (inv : list inventory_row)
    (l : line) :
  copies hist inv l
  = (Nat.max 1 (List.length (sales_values hist l))
     * Nat.max 1 (List.length (inventory_values inv l)))%nat.
Proof.
  unfold copies, merge_line, merged, sales_values, inventory_values.
  rewrite !length_map. cbn [map].
  rewrite (merge_inventory_length inv (normalise_keys l)).
  - now rewrite merge_sales_length.
  - intros r. apply merge_sales_rows.
Qed.

Section AllocatorFrameClaims.

Variable str_float : Q -> string.

Local Abbreviation optimize_allocations := (optimize_allocations str_float).

Lemma flat_map_repeat_one {A B} (f : A -> B) (n : A -> nat) (l : list A) :
  (forall x, In x l -> n x = 1%nat) ->
  flat_map (fun x => repeat (f x) (n x)) l = map f l.
Proof.
  induction l as [|a l IH]; intro H; [reflexivity|].
  cbn [flat_map map]. rewrite (H a (or_introl eq_refl)), IH; [reflexivity|].
  intros x Hx. apply H. now right.
Qed.

Lemma untouched_output (line_details : list line) (hist : list sales_row)
    (inv : list inventory_row) :
  map untouched (fst (optimize_allocations line_details hist inv))
  = flat_map (fun l => repeat (untouched l) (copies hist inv l)) line_details.
Proof.
  unfold InventoryOptimizer.optimize_allocations.
  destruct line_details as [|l0 ls]; [reflexivity|]. cbn [fst].
  rewrite (flag_loop_frame str_float untouched); try (intros []; reflexivity).
  apply untouched_merged.
Qed.

Lemma map_flat_map_repeat {A B C} (g : B -> C) (f : A -> B) (n : A -> nat)
    (l : list A) :
  map g (flat_map (fun x => repeat (f x) (n x)) l)
  = flat_map (fun x => repeat (g (f x)) (n x)) l.
Proof.
  induction l as [|a l IH]; [reflexivity|].
  cbn [flat_map]. rewrite map_app, IH. f_equal.
  induction (n a) as [|k IHk]; [reflexivity|]. cbn [repeat map].
  now rewrite IHk.
Qed.

(** Unit counts of the output rows, line by line. *)
Lemma unit_counts_output (line_details : list line) (hist : list sales_row)
    (inv : list inventory_row) :
  map product_uom_qty (fst (optimize_allocations line_details hist inv))
  = flat_map (fun l => repeat (product_uom_qty l) (copies hist inv l))
             line_details.
Proof.
  pose proof (untouched_output line_details hist inv) as H.
  apply (f_equal (map (fun t =>
           match t with
           | (_, _, _, _, _, _, _, _, _, _, _, _, q, _, _, _, _, _) => q
           end))) in H.
  rewrite map_map, map_flat_map_repeat in H. exact H.
Qed.

(** C4.  Every row of the allocator's output stems from one input line and
    has its unit count, as well as every other column that is not an
    annotation, a merged field or the merge key; a line gives one row per
    pair of external rows with its key, at least one, and exactly one when
    each external table has at most one row with its key - then the unit
    counts after are the unit counts before, row by row. *)
Theorem allocator_non_destructive (line_details : list line)
    (hist : list sales_row) (inv : list inventory_row) :
  let out := fst (optimize_allocations line_details hist inv) in
  map product_uom_qty out
  = flat_map (fun l => repeat (product_uom_qty l) (copies hist inv l))
             line_details /\
  map untouched out
  = flat_map (fun l => repeat (untouched l) (copies hist inv l))
             line_details /\
  (forall l, (1 <= copies hist inv l)%nat) /\
  ((forall l, In l line_details ->
              (List.length (sales_values hist l) <= 1)%nat /\
              (List.length (inventory_values inv l) <= 1)%nat) ->
   map product_uom_qty out = map product_uom_qty line_details /\
   map untouched out = map untouched line_details).
Proof.
  intro out. subst out.
  split; [apply unit_counts_output|].
  split; [apply untouched_output|].
  split; [intro l; rewrite copies_formula; nia|].
  intro H.
  assert (H1 : forall l, In l line_details -> copies hist inv l = 1%nat).
  { intros l Hl. destruct (H l Hl) as [Hs Hi]. rewrite copies_formula. nia. }
  rewrite unit_counts_output, untouched_output.
  split; now apply flat_map_repeat_one.
Qed.

End AllocatorFrameClaims.

(** ** Inventory allocator: the flagging loop, row by row *)

Lemma nth_error_loc_set_from (f : line -> line) (index : list nat) :
  forall tbl i k,
    nth_error (loc_set_from i tbl index f) k
    = option_map
        (fun l => if existsb (Nat.eqb (i + k)) index then f l else l)
        (nth_error tbl k).
Proof.
  induction tbl as [|l tbl IH]; intros i k.
  - now destruct k.
  - destruct k as [|k]; cbn [loc_set_from nth_error option_map].
    + now rewrite Nat.add_0_r.
    + rewrite IH. now rewrite Nat.add_succ_r.
Qed.

Lemma nth_error_loc_set (f : line -> line) (index : list nat)
    (tbl : list line) (k : nat) :
  nth_error (loc_set tbl index f) k
  = option_map (fun l => if existsb (Nat.eqb k) index then f l else l)
               (nth_error tbl k).
Proof. unfold loc_set. now rewrite nth_error_loc_set_from. Qed.

Lemma shortage_note_idem (text : string) (l : line) :
  shortage_note text (shortage_note text l) = shortage_note text l.
Proof. now destruct l. Qed.

(** The row-by-row loop of the shortage branch annotates the rows of the
    group and no other. *)
Lemma nth_error_shortage_loop (text : string) (group : list (nat * line)) :
  forall tbl k,
    nth_error
      (fold_left (fun tbl x => loc_set tbl [fst x] (shortage_note text))
                 group tbl) k
    = option_map
        (fun l => if existsb (Nat.eqb k) (map fst group)
                  then shortage_note text l else l)
        (nth_error tbl k).
Proof.
  induction group as [|x group IH]; intros tbl k.
  - cbn. now destruct (nth_error tbl k).
  - cbn [fold_left map existsb]. rewrite IH, nth_error_loc_set.
    destruct (nth_error tbl k) as [l|]; [|reflexivity].
    cbn [option_map existsb]. rewrite orb_false_r.
    destruct (k =? fst x)%nat; cbn [orb]; [|reflexivity].
    destruct (existsb (Nat.eqb k) (map fst group));
      now rewrite ?shortage_note_idem.
Qed.

Lemma Qle_bool_false_of_lt (x : Q) : (0 < x)%Q -> Qle_bool x 0 = false.
Proof.
  intro H. destruct (Qle_bool x 0) eqn:E; [|reflexivity].
  apply Qle_bool_iff in E. exfalso. apply (Qlt_not_le _ _ H E).
Qed.

Section RowByRow.

Variable str_float : Q -> string.

Local Abbreviation process_group := (process_group str_float).
Local Abbreviation process_warehouse := (process_warehouse str_float).

(** One group: its rows, and only they, receive one update; the update is
    the shortage annotation when the group is short. *)
Lemma process_group_rows (tbl : list line) (group : list (nat * line)) :
  exists U : line -> line,
    (forall k,
       nth_error (process_group tbl group) k
       = option_map
           (fun l => if existsb (Nat.eqb k) (map fst group) then U l else l)
           (nth_error tbl k)) /\
    (short (map snd group) ->
     U = shortage_note (short_text (map snd group))).
Proof.
  unfold InventoryOptimizer.process_group.
  destruct group as [|[i0 first] rest].
  - exists (fun l => l). split; [|intros []].
    intro k. cbn. now destruct (nth_error tbl k).
  - cbn [map snd short short_text].
    destruct (Qle_bool (odoo_on_hand first) 0) eqn:Eh.
    { eexists. split; [intro k; apply nth_error_loc_set|].
      intros (Hh & _). rewrite (Qle_bool_false_of_lt _ Hh) in Eh.
      discriminate. }
    destruct (Py.Qltb (odoo_available first)
                (total_demand_of ((i0, first) :: rest))) eqn:Ed.
    + destruct (Qle_bool (odoo_available first) 0) eqn:Ea.
      { eexists. split; [intro k; apply nth_error_loc_set|].
        intros (_ & Ha & _). rewrite (Qle_bool_false_of_lt _ Ha) in Ea.
        discriminate. }
      exists (shortage_note
                (shortage_text (total_demand_of ((i0, first) :: rest))
                   (odoo_available first))).
      split; [intro k; apply nth_error_shortage_loop|].
      intros _. unfold total_demand_of. cbn [map snd].
      now rewrite map_map.
    + exists (fun l => l). split.
      * intro k. destruct (nth_error tbl k) as [l|]; [|reflexivity].
        cbn. now destruct (_ || _).
      * intros (_ & _ & Hd). apply Qltb_lt in Hd.
        unfold total_demand_of in Ed. cbn [map snd] in Ed, Hd.
        rewrite map_map in Hd. cbn [snd] in Ed. congruence.
Qed.

End RowByRow.

(** ** Inventory allocator: groups of a snapshot *)

Lemma In_enumerate_from {A} (l : list A) :
  forall i k x,
    In (k, x) (enumerate_from i l) <->
    exists j, k = (i + j)%nat /\ nth_error l j = Some x.
Proof.
  induction l as [|a l IH]; intros i k x; cbn [enumerate_from In].
  - split; [intros []|]. intros (j & _ & H). now destruct j.
  - rewrite IH. split.
    + intros [H|(j & -> & H)].
      * inversion H; subst. exists 0%nat. split; [lia|reflexivity].
      * exists (S j). split; [lia|exact H].
    + intros ([|j] & -> & H).
      * left. cbn in H. inversion H. f_equal. lia.
      * right. exists j. split; [lia|exact H].
Qed.

Lemma warehouse_eqb_eq (a b : warehouse) : warehouse_eqb a b = true <-> a = b.
Proof. destruct a, b; cbn; split; congruence. Qed.

(** The index labels of a group are the positions of the rows that have the
    group's warehouse and reference. *)
Lemma group_index (S0 : list line) (wh : warehouse) (ref : string) (k : nat) :
  existsb (Nat.eqb k) (map fst (group_rows (wh_lines S0 wh) ref)) = true <->
  exists l, nth_error S0 k = Some l /\
            line_warehouse l = wh /\ internal_reference l = ref.
Proof.
  rewrite existsb_exists. split.
  - intros (k' & Hin & E). apply Nat.eqb_eq in E. subst k'.
    apply in_map_iff in Hin. destruct Hin as ([k' l] & Ek & Hin).
    cbn in Ek. subst k'. unfold group_rows, wh_lines in Hin.
    apply filter_In in Hin. destruct Hin as (Hin & Hr).
    apply filter_In in Hin. destruct Hin as (Hin & Hw).
    apply In_enumerate_from in Hin. destruct Hin as (j & -> & Hn).
    cbn in Hr, Hw. exists l. split; [exact Hn|].
    split; [now apply warehouse_eqb_eq | now apply String.eqb_eq].
  - intros (l & Hn & Hw & Hr). exists k. split; [|apply Nat.eqb_refl].
    apply in_map_iff. exists (k, l). split; [reflexivity|].
    unfold group_rows, wh_lines. apply filter_In. split.
    + apply filter_In. split.
      * apply In_enumerate_from. now exists k.
      * cbn. now apply warehouse_eqb_eq.
    + cbn. now apply String.eqb_eq.
Qed.

Lemma map_snd_filter_enumerate (p : line -> bool) (tbl : list line) :
  forall i,
    map snd (filter (fun x => p (snd x)) (enumerate_from i tbl))
    = filter p tbl.
Proof.
  induction tbl as [|l tbl IH]; intro i; [reflexivity|].
  cbn [enumerate_from filter snd]. destruct (p l); cbn [map snd];
    now rewrite IH.
Qed.

Lemma filter_filter {A} (p q : A -> bool) (l : list A) :
  filter q (filter p l) = filter (fun x => p x && q x) l.
Proof.
  induction l as [|a l IH]; [reflexivity|].
  cbn [filter]. destruct (p a); cbn [filter andb]; [|exact IH].
  destruct (q a); now rewrite IH.
Qed.

(** The rows of a group are the lines of the snapshot that have the
    group's warehouse and reference, in table order. *)
Lemma group_rows_lines (S0 : list line) (wh : warehouse) (ref : string) :
  map snd (group_rows (wh_lines S0 wh) ref) = group_lines S0 wh ref.
Proof.
  unfold group_rows, wh_lines, group_lines.
  rewrite (filter_filter
             (fun x => warehouse_eqb (line_warehouse (snd x)) wh)
             (fun x => String.eqb (internal_reference (snd x)) ref)).
  apply (map_snd_filter_enumerate
           (fun l => warehouse_eqb (line_warehouse l) wh
                     && String.eqb (internal_reference l) ref)).
Qed.

Lemma In_insert_str (s x : string) (l : list string) :
  In x (Py.insert_str s l) <-> x = s \/ In x l.
Proof.
  induction l as [|t l IH]; cbn [Py.insert_str].
  - cbn. intuition.
  - destruct (String.leb s t); cbn [In]; [intuition|].
    rewrite IH. cbn [In]. intuition.
Qed.

Lemma In_sorted_str (x : string) (l : list string) :
  In x (Py.sorted_str l) <-> In x l.
Proof.
  induction l as [|z l IH]; [reflexivity|].
  unfold Py.sorted_str in *. cbn [fold_right In].
  rewrite In_insert_str, IH. intuition.
Qed.

Lemma In_unique_str (x : string) (l : list string) :
  In x l -> In x (Py.unique String.eqb l).
Proof.
  induction l as [|a l IH]; [auto|].
  cbn [Py.unique In]. intros [->|H]; [now left|].
  destruct (String.eqb_spec a x) as [->|Hne]; [now left|].
  right. apply filter_In. split; [now apply IH|].
  apply negb_true_iff. now apply String.eqb_neq.
Qed.

(** Every reference that occurs in a warehouse is one of its group keys. *)
Lemma group_key_of_row (S0 : list line) (wh : warehouse) (k : nat) (l : line) :
  nth_error S0 k = Some l -> line_warehouse l = wh ->
  In (internal_reference l) (group_keys (wh_lines S0 wh)).
Proof.
  intros Hn Hw. unfold group_keys. apply In_sorted_str, In_unique_str.
  apply in_map_iff. exists (k, l). split; [reflexivity|].
  unfold wh_lines. apply filter_In. split.
  - apply In_enumerate_from. now exists k.
  - cbn. now apply warehouse_eqb_eq.
Qed.

Lemma cons_inj {A} (a b : A) (l l' : list A) :
  a :: l = b :: l' -> a = b /\ l = l'.
Proof.
  intro H. split; [exact (f_equal (hd a) H) | exact (f_equal (@tl A) H)].
Qed.

(** Groups are read off the stable columns. *)
Lemma group_lines_stable (S0 T : list line) (wh : warehouse) (ref : string) :
  map stable S0 = map stable T ->
  map stable (group_lines S0 wh ref) = map stable (group_lines T wh ref).
Proof.
  revert T. induction S0 as [|a S0 IH]; intros [|b T] H;
    try discriminate; [reflexivity|].
  cbn [map] in H. apply cons_inj in H. destruct H as [Hab HST].
  unfold group_lines in *. cbn [filter].
  assert (Ea : line_warehouse a = line_warehouse b
               /\ internal_reference a = internal_reference b).
  { unfold stable in Hab. now inversion Hab. }
  destruct Ea as [-> ->].
  destruct (_ && _); cbn [map]; rewrite (IH T HST); [now rewrite Hab|].
  reflexivity.
Qed.

Lemma short_stable (g g' : list line) :
  map stable g = map stable g' -> short g -> short g'.
Proof.
  intros H. assert (Hq : map product_uom_qty g = map product_uom_qty g').
  { apply (f_equal (map (fun t => snd (fst (fst t))))) in H.
    rewrite !map_map in H. exact H. }
  destruct g as [|a g], g' as [|b g']; try discriminate; [auto|].
  cbn [short]. rewrite Hq. cbn [map] in H. apply cons_inj in H.
  destruct H as [Hab _]. unfold stable in Hab.
  inversion Hab as [[Hw Hr Hq' Ha Hh]]. now rewrite Ha, Hh.
Qed.

Lemma short_text_stable (g g' : list line) :
  map stable g = map stable g' -> short_text g = short_text g'.
Proof.
  intros H. assert (Hq : map product_uom_qty g = map product_uom_qty g').
  { apply (f_equal (map (fun t => snd (fst (fst t))))) in H.
    rewrite !map_map in H. exact H. }
  destruct g as [|a g], g' as [|b g']; try discriminate; [auto|].
  cbn [short_text]. rewrite Hq. cbn [map] in H. apply cons_inj in H.
  destruct H as [Hab _]. unfold stable in Hab.
  inversion Hab as [[Hw Hr Hq' Ha Hh]]. now rewrite Ha.
Qed.

(** ** Inventory allocator: one pass over a warehouse *)

Section Passes.

Variable str_float : Q -> string.

Local Abbreviation process_group := (process_group str_float).
Local Abbreviation process_warehouse := (process_warehouse str_float).

Variable S0 : list line.
Variable wh : warehouse.
Variable k : nat.
Variable lS : line.
Hypothesis row_k : nth_error S0 k = Some lS.

Local Abbreviation pass_over rs T :=
  (fold_left (fun tbl ref => process_group tbl (group_rows (wh_lines S0 wh) ref))
             rs T).

(** Groups of another warehouse or of other references leave row [k]. *)
Lemma pass_over_other (rs : list string) :
  forall T,
    line_warehouse lS <> wh \/ ~ In (internal_reference lS) rs ->
    nth_error (pass_over rs T) k = nth_error T k.
Proof.
  induction rs as [|r rs IH]; intros T H; [reflexivity|].
  cbn [fold_left]. rewrite IH.
  2:{ destruct H as [H|H]; [now left|]. right. intro C. apply H. now right. }
  destruct (process_group_rows str_float T (group_rows (wh_lines S0 wh) r))
    as (U & HU & _).
  rewrite HU.
  destruct (existsb (Nat.eqb k) (map fst (group_rows (wh_lines S0 wh) r)))
    eqn:E.
  - apply group_index in E. destruct E as (l & Hl & Hw & Hr).
    rewrite row_k in Hl. inversion Hl; subst l.
    exfalso. destruct H as [H|H]; [now apply H|]. apply H. now left.
  - now destruct (nth_error T k).
Qed.

Hypothesis row_wh : line_warehouse lS = wh.
Hypothesis row_short : short (group_lines S0 wh (internal_reference lS)).

(** Once the group of row [k] has had its turn, the row carries the
    shortage annotation of its group and nothing else has changed in it. *)
Lemma pass_over_own (rs : list string) :
  forall T,
    In (internal_reference lS) rs ->
    nth_error (pass_over rs T) k
    = option_map
        (shortage_note
           (short_text (group_lines S0 wh (internal_reference lS))))
        (nth_error T k).
Proof.
  induction rs as [|r rs IH]; intros T Hin; [destruct Hin|].
  cbn [fold_left].
  destruct (process_group_rows str_float T (group_rows (wh_lines S0 wh) r))
    as (U & HU & HS).
  destruct (string_dec r (internal_reference lS)) as [->|Hne].
  - rewrite group_rows_lines in HS. specialize (HS row_short).
    assert (E : existsb (Nat.eqb k)
                  (map fst (group_rows (wh_lines S0 wh)
                              (internal_reference lS))) = true).
    { apply group_index. now exists lS. }
    destruct (in_dec string_dec (internal_reference lS) rs) as [Hin'|Hnin].
    + rewrite (IH _ Hin'), HU, E, HS.
      destruct (nth_error T k) as [l|]; [|reflexivity].
      cbn [option_map]. now rewrite shortage_note_idem.
    + rewrite pass_over_other by now right.
      rewrite HU, E, HS. reflexivity.
  - destruct Hin as [Hin|Hin]; [contradiction|].
    rewrite (IH _ Hin), HU.
    destruct (existsb (Nat.eqb k) (map fst (group_rows (wh_lines S0 wh) r)))
      eqn:E.
    + apply group_index in E. destruct E as (l & Hl & _ & Hr).
      rewrite row_k in Hl. inversion Hl; subst l. now contradiction Hne.
    + now destruct (nth_error T k).
Qed.

End Passes.

Section FlagLoop.

Variable str_float : Q -> string.

Local Abbreviation process_warehouse := (process_warehouse str_float).

Lemma process_warehouse_other (S0 : list line) (wh : warehouse) (k : nat)
    (lS : line) :
  nth_error S0 k = Some lS -> line_warehouse lS <> wh ->
  nth_error (process_warehouse S0 wh) k = Some lS.
Proof.
  intros Hk Hw. unfold InventoryOptimizer.process_warehouse.
  rewrite (pass_over_other str_float S0 wh k lS Hk); [exact Hk|now left].
Qed.

Lemma process_warehouse_own (S0 : list line) (k : nat) (lS : line) :
  nth_error S0 k = Some lS ->
  short (group_lines S0 (line_warehouse lS) (internal_reference lS)) ->
  nth_error (process_warehouse S0 (line_warehouse lS)) k
  = Some (shortage_note
            (short_text
               (group_lines S0 (line_warehouse lS) (internal_reference lS)))
            lS).
Proof.
  intros Hk Hs. unfold InventoryOptimizer.process_warehouse.
  rewrite (pass_over_own str_float S0 (line_warehouse lS) k lS Hk eq_refl Hs).
  - now rewrite Hk.
  - now apply (group_key_of_row S0 _ k).
Qed.

Lemma stable_frame_flagged l v : stable (set_flagged l v) = stable l.
Proof. now destruct l. Qed.
Lemma stable_frame_reason l v : stable (set_flag_reason l v) = stable l.
Proof. now destruct l. Qed.
Lemma stable_frame_details l v : stable (set_shortage_details l v) = stable l.
Proof. now destruct l. Qed.

(** Both passes: a row of a short group ends as the merged row with the
    shortage annotation of its group. *)
Lemma flag_loop_short (T0 : list line) (k : nat) (l0 : line) :
  nth_error T0 k = Some l0 ->
  short (group_lines T0 (line_warehouse l0) (internal_reference l0)) ->
  nth_error (fold_left process_warehouse [CE; CW] T0) k
  = Some (shortage_note
            (short_text
               (group_lines T0 (line_warehouse l0) (internal_reference l0)))
            l0).
Proof.
  intros Hk Hs. cbn [fold_left].
  destruct (line_warehouse l0) eqn:W.
  - pose proof (process_warehouse_own T0 k l0 Hk) as H1.
    rewrite W in H1. specialize (H1 Hs).
    apply (process_warehouse_other _ CW) in H1; [exact H1|].
    destruct l0; cbn in *. congruence.
  - assert (H1 : nth_error (process_warehouse T0 CE) k = Some l0).
    { apply process_warehouse_other; [exact Hk|congruence]. }
    pose proof (process_warehouse_frame str_float stable stable_frame_flagged
                  stable_frame_reason stable_frame_details T0 CE) as Hst.
    pose proof (process_warehouse_own _ k l0 H1) as H2.
    rewrite W in H2.
    pose proof (group_lines_stable _ _ CW (internal_reference l0) Hst) as Hg.
    rewrite (short_text_stable _ _ Hg) in H2. apply H2.
    apply (short_stable _ _ (eq_sym Hg)). exact Hs.
Qed.

End FlagLoop.

(** ** Inventory allocator: shortage annotation and merged fields *)

Lemma annotations_merge_row (l : line) (vh vi : option Q) :
  annotations (fillna (set_store_on_hand
                         (set_hist_avg_sales (normalise_keys l) vh) vi))
  = annotations l.
Proof. now destruct l. Qed.

Lemma annotations_merged (ls : list line) (hist : list sales_row)
    (inv : list inventory_row) :
  map annotations (merged ls hist inv)
  = flat_map (fun l => repeat (annotations l) (copies hist inv l)) ls.
Proof.
  rewrite merged_flat_map.
  induction ls as [|l ls IH]; [reflexivity|].
  cbn [flat_map]. rewrite map_app, IH. f_equal.
  unfold copies. apply map_const_repeat. intros r Hr.
  apply merge_line_rows in Hr. destruct Hr as (vh & vi & ->).
  apply annotations_merge_row.
Qed.

Lemma map_flat_map {A B C} (f : B -> C) (g : A -> list B) (l : list A) :
  map f (flat_map g l) = flat_map (fun x => map f (g x)) l.
Proof.
  induction l as [|a l IH]; [reflexivity|].
  cbn [flat_map]. now rewrite map_app, IH.
Qed.

Section AllocatorClaims.

Variable str_float : Q -> string.

Local Abbreviation optimize_allocations := (optimize_allocations str_float).

(** C5, as amended.  In a (warehouse, reference) group of the output whose
    first line has a positive on-hand quantity and a positive available
    quantity below the group's total demand, every line is the merged line
    with flag reason "Shortage" and the detail text "D: d, Ava: a", d and a
    being the total demand and the available quantity truncated to
    integers; its boolean flagged marker and its unit count are those the
    input line had. *)
Theorem shortage_annotation (line_details : list line)
    (hist : list sales_row) (inv : list inventory_row)
    (wh : warehouse) (ref : string) :
  let tbl := merged line_details hist inv in
  let out := fst (optimize_allocations line_details hist inv) in
  let g := group_lines out wh ref in
  short g ->
  (forall k l,
     nth_error out k = Some l ->
     line_warehouse l = wh -> internal_reference l = ref ->
     exists l0,
       nth_error tbl k = Some l0 /\
       l = shortage_note (short_text g) l0 /\
       flagged l = flagged l0) /\
  Forall (fun l => flag_reason l = Some "Shortage" /\
                   shortage_details l = Some (short_text g)) g /\
  map annotations tbl
  = flat_map (fun l => repeat (annotations l) (copies hist inv l))
             line_details /\
  map product_uom_qty out
  = flat_map (fun l => repeat (product_uom_qty l) (copies hist inv l))
             line_details.
Proof.
  intros tbl out g Hs.
  assert (Hout : out = fold_left (process_warehouse str_float) [CE; CW] tbl).
  { subst out tbl. unfold InventoryOptimizer.optimize_allocations.
    destruct line_details as [|l0 ls]; [|reflexivity].
    subst g. cbn in Hs. contradiction. }
  assert (Hst : map stable out = map stable tbl).
  { rewrite Hout. apply flag_loop_frame; intros []; reflexivity. }
  assert (Hrow : forall k l,
     nth_error out k = Some l ->
     line_warehouse l = wh -> internal_reference l = ref ->
     exists l0,
       nth_error tbl k = Some l0 /\
       l = shortage_note (short_text g) l0 /\
       flagged l = flagged l0).
  { intros k l Hk Hw Hr.
    assert (H0 : nth_error (map stable tbl) k = Some (stable l)).
    { rewrite <- Hst. now apply map_nth_error. }
    rewrite nth_error_map in H0.
    destruct (nth_error tbl k) as [l0|] eqn:E0; [|discriminate].
    cbn in H0. injection H0 as H0.
    assert (Hk0 : line_warehouse l0 = wh /\ internal_reference l0 = ref).
    { unfold stable in H0. inversion H0. now subst. }
    destruct Hk0 as [Hw0 Hr0].
    pose proof (group_lines_stable _ _ wh ref Hst) as Hg. fold g in Hg.
    pose proof (flag_loop_short str_float tbl k l0 E0) as HF.
    rewrite Hw0, Hr0 in HF.
    specialize (HF (short_stable _ _ Hg Hs)).
    rewrite <- Hout, Hk in HF. injection HF as HF.
    rewrite <- (short_text_stable _ _ Hg) in HF.
    exists l0. split; [reflexivity|]. split; [exact HF|].
    rewrite HF. now destruct l0. }
  split; [exact Hrow|]. split; [|split].
  - apply Forall_forall. intros l Hl. unfold g, group_lines in Hl.
    apply filter_In in Hl. destruct Hl as (Hin & Hkey).
    apply andb_true_iff in Hkey. destruct Hkey as (Hw & Hr).
    apply warehouse_eqb_eq in Hw. apply String.eqb_eq in Hr.
    apply In_nth_error in Hin. destruct Hin as (k & Hk).
    destruct (Hrow k l Hk Hw Hr) as (l0 & _ & -> & _).
    now destruct l0.
  - apply annotations_merged.
  - apply unit_counts_output.
Qed.

(** C6, as amended.  The merged fields of the output are those of the rows
    each input line gives; a line whose key is in neither external table
    gives one row, whose historical-average-sales field is 0 if the
    historical table is not empty and otherwise the value the line came with
    (0 for null), and likewise for the store-on-hand field and the inventory
    table; neither field is ever null. *)
Theorem merge_defaulting (line_details : list line)
    (hist : list sales_row) (inv : list inventory_row) :
  let out := fst (optimize_allocations line_details hist inv) in
  map merged_fields out
  = flat_map (fun l => map merged_fields (merge_line hist inv l))
             line_details /\
  Forall (fun r => hist_avg_sales r <> None /\ store_on_hand r <> None)
         out /\
  (forall l : line,
     sales_values hist l = [] -> inventory_values inv l = [] ->
     map merged_fields (merge_line hist inv l)
     = [(match hist with
         | [] => fill0 (hist_avg_sales l)
         | _ => Some 0%Q
         end,
         match inv with
         | [] => fill0 (store_on_hand l)
         | _ => Some 0%Q
         end)]).
Proof.
  intro out. subst out. split; [|split].
  - unfold InventoryOptimizer.optimize_allocations.
    destruct line_details as [|l0 ls]; [reflexivity|]. cbn [fst].
    rewrite (flag_loop_frame str_float merged_fields);
      try (intros []; reflexivity).
    now rewrite merged_flat_map, map_flat_map.
  - unfold InventoryOptimizer.optimize_allocations.
    destruct line_details as [|l0 ls]; [constructor|]. cbn [fst].
    pose proof (flag_loop_frame str_float merged_fields
                  ltac:(intros []; reflexivity) ltac:(intros []; reflexivity)
                  ltac:(intros []; reflexivity)
                  (merged (l0 :: ls) hist inv)) as Hf.
    apply Forall_forall. intros r Hr.
    apply (in_map merged_fields) in Hr. rewrite Hf in Hr.
    apply in_map_iff in Hr. destruct Hr as (x & Hx & Hin).
    unfold merged in Hin. apply in_map_iff in Hin.
    destruct Hin as (y & <- & _). unfold merged_fields in Hx.
    injection Hx as Hh Hs. rewrite <- Hh, <- Hs.
    destruct y as [? ? ? ? ? ? ? ? ? ? ? ? ? ? ? ? ? ? soh has ? ? ? ?].
    destruct soh, has; cbn; split; discriminate.
  - intros l Hs Hi. unfold sales_values in Hs. unfold inventory_values in Hi.
    apply map_eq_nil in Hs. apply map_eq_nil in Hi.
    unfold merge_line, merged. cbn [map].
    destruct hist as [|h hist'].
    + cbn [merge_sales].
      destruct inv as [|i inv'].
      * cbn [merge_inventory map]. now destruct l.
      * cbn [merge_inventory flat_map]. rewrite app_nil_r.
        unfold merge_inventory_line. rewrite Hi. cbn [map]. now destruct l.
    + cbn [merge_sales flat_map]. rewrite app_nil_r.
      unfold merge_sales_line. rewrite Hs.
      destruct inv as [|i inv'].
      * cbn [merge_inventory map]. now destruct l.
      * cbn [merge_inventory flat_map]. rewrite app_nil_r.
        unfold merge_inventory_line.
        rewrite (filter_ext _ _ (inventory_key_set_hist (normalise_keys l) None)).
        rewrite Hi. cbn [map]. now destruct l.
Qed.

End AllocatorClaims.

(** Two lines of one group ask for 30 and 20 units of a reference of which
    30 are available. *)
Lemma shortage_annotation_witness :
  Forall (fun l => flag_reason l = Some "Shortage" /\
                   shortage_details l = Some "D: 50, Ava: 30")
         (group_lines
            (fst (optimize_allocations Samples.show_float
                    [Samples.stocked 20 "R4" 30 100 30;
                     Samples.stocked 28 "R4" 20 100 30] [] []))
            CE "R4").
Proof.
  apply (shortage_annotation Samples.show_float
           [Samples.stocked 20 "R4" 30 100 30;
            Samples.stocked 28 "R4" 20 100 30] [] [] CE "R4").
  vm_compute. repeat split.
Defined.

(** C5 fails as stated: the line of a short group is not flagged - its
    flagged marker stays false, only its reason and detail are set - and
    the detail text of a demand of 50.5 against 30.5 available reads
    "D: 50, Ava: 30". *)
Lemma shortage_annotation_counterexample :
  (exists r,
     fst (optimize_allocations Samples.show_float
            [Samples.stocked 20 "R4" 50 100 30] [] []) = [r] /\
     short [r] /\
     flag_reason r = Some "Shortage" /\
     shortage_details r = Some "D: 50, Ava: 30" /\
     flagged r = false) /\
  (exists r,
     fst (optimize_allocations Samples.show_float
            [Samples.stocked 20 "R4" (101 # 2) 100 (61 # 2)] [] []) = [r] /\
     short [r] /\
     shortage_details r = Some "D: 50, Ava: 30").
Proof.
  split; eexists; (split; [vm_compute; reflexivity|]);
    vm_compute; repeat split.
Qed.

(** One line and external tables that only know another reference. *)
Lemma merge_defaulting_witness :
  map merged_fields
      (merge_line [mk_sales_row "R9" 20 (Some 7%Q)]
                  [mk_inventory_row "R9" 20 (Some 3%Q)]
                  (Samples.stocked 20 "R4" 10 100 80))
  = [(Some 0%Q, Some 0%Q)].
Proof.
  apply (merge_defaulting Samples.show_float
           [Samples.stocked 20 "R4" 10 100 80]
           [mk_sales_row "R9" 20 (Some 7%Q)]
           [mk_inventory_row "R9" 20 (Some 3%Q)]);
    reflexivity.
Defined.

(** C6 fails as stated: a first run merges an average of 50 onto the line;
    a second run on its output with both external tables empty leaves the
    50 in place, although the line's key is in neither table. *)
Lemma merge_defaulting_counterexample :
  exists r1 r2,
    fst (optimize_allocations Samples.show_float
           [Samples.stocked 20 "R4" 10 100 80]
           [mk_sales_row "R4" 20 (Some 50%Q)] []) = [r1] /\
    fst (optimize_allocations Samples.show_float [r1] [] []) = [r2] /\
    sales_values [] r1 = [] /\
    inventory_values [] r1 = [] /\
    hist_avg_sales r2 = Some 50%Q /\
    ~ (50 == 0)%Q.
Proof.
  do 2 eexists. split; [vm_compute; reflexivity|].
  split; [vm_compute; reflexivity|].
  repeat split. discriminate.
Qed.

(** Three lines, and external tables with one row per key. *)
Lemma allocator_non_destructive_witness :
  map product_uom_qty
      (fst (optimize_allocations Samples.show_float
              [Samples.stocked 20 "R4" 30 100 30;
               Samples.stocked 28 "R4" 20 100 30;
               Samples.stocked 20 "R7" 5 0 0]
              [mk_sales_row "R4" 20 (Some 50%Q)]
              [mk_inventory_row "R7" 20 (Some 3%Q)]))
  = [30%Q; 20%Q; 5%Q].
Proof.
  apply (allocator_non_destructive Samples.show_float
           [Samples.stocked 20 "R4" 30 100 30;
            Samples.stocked 28 "R4" 20 100 30;
            Samples.stocked 20 "R7" 5 0 0]
           [mk_sales_row "R4" 20 (Some 50%Q)]
           [mk_inventory_row "R7" 20 (Some 3%Q)]).
  intros l [<-|[<-|[<-|[]]]]; vm_compute; split; lia.
Defined.

(** ** Order references: what the numbering does guarantee *)

Lemma str_of_Z_injective (a b : Z) : Py.str_of_Z a = Py.str_of_Z b -> a = b.
Proof.
  unfold Py.str_of_Z. intro H.
  apply (f_equal NilEmpty.int_of_string) in H. rewrite !NilEmpty.isi in H.
  injection H as H. apply (f_equal Z.of_int) in H.
  now rewrite !DecimalZ.of_to in H.
Qed.

Lemma so_ref_injective (a b : Z) : so_ref a = so_ref b -> a = b.
Proof.
  unfold so_ref. cbn [String.append]. intro H. injection H as H.
  now apply str_of_Z_injective.
Qed.

Lemma NoDup_map_inj {A B} (f : A -> B) (l : list A) :
  (forall x y, f x = f y -> x = y) -> NoDup l -> NoDup (map f l).
Proof.
  intros Hf H. induction H as [|a l Ha Hl IH]; [constructor|].
  cbn [map]. constructor; [|exact IH].
  intro C. apply in_map_iff in C. destruct C as (x & E & Hx).
  apply Hf in E. now subst.
Qed.

Lemma NoDup_unique_Z (l : list Z) : NoDup (Py.unique Z.eqb l).
Proof.
  induction l as [|a l IH]; [constructor|].
  cbn [Py.unique]. constructor.
  - intro C. apply filter_In in C. destruct C as [_ C].
    now rewrite Z.eqb_refl in C.
  - now apply NoDup_filter.
Qed.

Lemma In_unique_Z (x : Z) (l : list Z) : In x l -> In x (Py.unique Z.eqb l).
Proof.
  induction l as [|a l IH]; [auto|].
  cbn [Py.unique In]. intros [->|H]; [now left|].
  destruct (Z.eqb_spec a x) as [->|Hne]; [now left|].
  right. apply filter_In. split; [now apply IH|].
  apply negb_true_iff. now apply Z.eqb_neq.
Qed.

Lemma NoDup_insert_Z (z : Z) (l : list Z) :
  ~ In z l -> NoDup l -> NoDup (Py.insert_Z z l).
Proof.
  intros Hz H. induction H as [|a l Ha Hl IH]; cbn [Py.insert_Z].
  - constructor; [auto|constructor].
  - destruct (z <=? a)%Z.
    + constructor; [exact Hz|now constructor].
    + constructor.
      * rewrite In_insert_Z. intros [->|C]; [apply Hz; now left|contradiction].
      * apply IH. intro C. apply Hz. now right.
Qed.

Lemma NoDup_sorted_Z (l : list Z) : NoDup l -> NoDup (Py.sorted_Z l).
Proof.
  intro H. induction H as [|a l Ha Hl IH]; [constructor|].
  unfold Py.sorted_Z in *. cbn [fold_right].
  apply NoDup_insert_Z; [|exact IH]. now rewrite In_sorted_Z.
Qed.

Lemma insert_Z_sorted (z : Z) (l : list Z) :
  Sorted Z.le l -> Sorted Z.le (Py.insert_Z z l).
Proof.
  induction l as [|t l IH]; intro H; cbn [Py.insert_Z].
  - repeat constructor.
  - destruct (Z.leb_spec z t) as [E|E].
    + constructor; [exact H|]. now constructor.
    + inversion H as [|? ? Hs Hh]; subst.
      constructor; [now apply IH|].
      destruct l as [|u l']; cbn [Py.insert_Z].
      * constructor. lia.
      * destruct (z <=? u)%Z; constructor; [lia|]. now inversion Hh.
Qed.

Lemma sorted_Z_sorted (l : list Z) : Sorted Z.le (Py.sorted_Z l).
Proof.
  induction l as [|s l IH]; [constructor|].
  unfold Py.sorted_Z in *. cbn [fold_right]. now apply insert_Z_sorted.
Qed.

Section Numbering.

Variable cw_stores : list Z.
Variable tt_store_names : Z -> option string.
Variable str_cell : column -> option Z -> string.

Local Abbreviation aggregate := (aggregate cw_stores tt_store_names str_cell).
Local Abbreviation summaries_from :=
  (summaries_from cw_stores tt_store_names str_cell).

Lemma summaries_from_so_refs (ls : list expanded_line) (S0 : Z)
    (stores : list Z) :
  forall index,
    map h_so_reference (summaries_from ls S0 index stores)
    = map (fun i => so_ref (S0 + Z.of_nat i))
          (seq index (List.length stores)).
Proof.
  induction stores as [|sid stores IH]; intro index; [reflexivity|].
  cbn [DataTransformer.summaries_from map List.length seq]. now rewrite IH.
Qed.

Lemma map_get_absent (S0 : Z) (stores : list Z) (n : Z) :
  ~ In n stores ->
  forall index, map_get (store_so_map_from S0 index stores) n = None.
Proof.
  induction stores as [|sid stores IH]; intros Hn index; [reflexivity|].
  cbn [store_so_map_from map_get]. rewrite IH.
  - destruct (Z.eqb_spec sid n) as [->|_]; [|reflexivity].
    exfalso. apply Hn. now left.
  - intro C. apply Hn. now right.
Qed.

Lemma map_get_present (S0 : Z) (stores : list Z) (n : Z) :
  NoDup stores ->
  forall i index,
    nth_error stores i = Some n ->
    map_get (store_so_map_from S0 index stores) n
    = Some (so_ref (S0 + Z.of_nat (index + i))).
Proof.
  intro H. induction H as [|sid stores Hs Hl IH]; intros i index Hi.
  - now destruct i.
  - cbn [store_so_map_from map_get]. destruct i as [|i].
    + cbn in Hi. injection Hi as ->.
      rewrite (map_get_absent _ _ _ Hs), Z.eqb_refl, Nat.add_0_r.
      reflexivity.
    + cbn in Hi. rewrite (IH i (S index) Hi).
      now rewrite Nat.add_succ_r.
Qed.

(** The i-th destination in ascending order gets the text OATS00 followed
    by the decimal digits of S + i; destinations are distinct and ascending,
    their references are pairwise distinct, and every line that is kept
    carries the reference of its destination. *)
Lemma order_reference_numbering (expanded_lines : list expanded_line)
    (starting_so_ref : Z) :
  let details := dropna_store_id expanded_lines in
  let stores := unique_stores details in
  let headers := fst (aggregate expanded_lines starting_so_ref) in
  let lines := snd (aggregate expanded_lines starting_so_ref) in
  map h_store_id headers = stores /\
  NoDup stores /\ Sorted Z.le stores /\
  map h_so_reference headers
  = map (fun i => so_ref (starting_so_ref + Z.of_nat i))
        (seq 0 (List.length stores)) /\
  NoDup (map h_so_reference headers) /\
  Forall (fun l =>
            exists i n,
              store_id l = Some n /\ nth_error stores i = Some n /\
              so_reference l = Some (so_ref (starting_so_ref + Z.of_nat i)))
         lines.
Proof.
  intros details stores headers lines.
  assert (Hnd : NoDup stores).
  { apply NoDup_sorted_Z, NoDup_unique_Z. }
  assert (Hrefs :
    map h_so_reference
        (summaries_from details starting_so_ref 0 stores)
    = map (fun i => so_ref (starting_so_ref + Z.of_nat i))
          (seq 0 (List.length stores))).
  { apply summaries_from_so_refs. }
  assert (Hdistinct :
    NoDup (map (fun i => so_ref (starting_so_ref + Z.of_nat i))
               (seq 0 (List.length stores)))).
  { apply NoDup_map_inj; [|apply seq_NoDup].
    intros x y E. apply so_ref_injective in E. lia. }
  subst headers lines. unfold DataTransformer.aggregate.
  destruct expanded_lines as [|l0 ls0].
  - subst stores details. cbn. repeat split; constructor.
  - cbn [fst snd]. fold details. fold stores.
    split; [apply summaries_from_store_ids|].
    split; [exact Hnd|]. split; [apply sorted_Z_sorted|].
    split; [exact Hrefs|]. split; [now rewrite Hrefs|].
    apply Forall_forall. intros l Hl. apply in_map_iff in Hl.
    destruct Hl as (x & <- & Hx).
    assert (Hsid : exists n, store_id x = Some n).
    { unfold details, dropna_store_id in Hx. apply filter_In in Hx.
      destruct (store_id x) as [n|]; [now exists n|].
      destruct Hx as [_ C]. discriminate. }
    destruct Hsid as (n & En).
    assert (Hin : In n stores).
    { unfold stores, unique_stores. apply In_sorted_Z, In_unique_Z.
      unfold store_ids. apply in_flat_map. exists x. split; [exact Hx|].
      rewrite En. now left. }
    apply In_nth_error in Hin. destruct Hin as (i & Hi).
    exists i, n. split; [now destruct x|]. split; [exact Hi|].
    rewrite En.
    replace (so_reference (set_so_reference x
               (map_get (store_so_map_from starting_so_ref 0 stores) n)))
      with (map_get (store_so_map_from starting_so_ref 0 stores) n)
      by now destruct x.
    now rewrite (map_get_present _ _ _ Hnd i 0%nat Hi).
Qed.

End Numbering.

(** * Further properties *)

(** ** The flagging loop, as one annotation per line *)

Lemma NoDup_unique_str (l : list string) : NoDup (Py.unique String.eqb l).
Proof.
  induction l as [|a l IH]; [constructor|].
  cbn [Py.unique]. constructor.
  - intro C. apply filter_In in C. destruct C as [_ C].
    now rewrite String.eqb_refl in C.
  - now apply NoDup_filter.
Qed.

Lemma NoDup_insert_str (z : string) (l : list string) :
  ~ In z l -> NoDup l -> NoDup (Py.insert_str z l).
Proof.
  intros Hz H. induction H as [|a l Ha Hl IH]; cbn [Py.insert_str].
  - constructor; [auto|constructor].
  - destruct (String.leb z a).
    + constructor; [exact Hz|now constructor].
    + constructor.
      * rewrite In_insert_str.
        intros [->|C]; [apply Hz; now left|contradiction].
      * apply IH. intro C. apply Hz. now right.
Qed.

Lemma NoDup_group_keys (rows : list (nat * line)) : NoDup (group_keys rows).
Proof.
  unfold group_keys.
  generalize (Py.unique String.eqb
                (map (fun x => internal_reference (snd x)) rows))
             (NoDup_unique_str
                (map (fun x => internal_reference (snd x)) rows)).
  intros l H. induction H as [|a l Ha Hl IH]; [constructor|].
  unfold Py.sorted_str in *. cbn [fold_right].
  apply NoDup_insert_str; [|exact IH]. now rewrite In_sorted_str.
Qed.

Lemma flag_with_idem (reason : string) (l : line) :
  flag_with reason (flag_with reason l) = flag_with reason l.
Proof. now destruct l. Qed.

Lemma stable_group_effect (str_float : Q -> string) (g : list line) (l : line) :
  stable (group_effect str_float g l) = stable l.
Proof.
  unfold group_effect. destruct g as [|first rest]; [reflexivity|].
  destruct (Qle_bool (odoo_on_hand first) 0); [now destruct l|].
  destruct (Py.Qltb _ _); [|reflexivity].
  destruct (Qle_bool (odoo_available first) 0); now destruct l.
Qed.

Section RowWise.

Variable str_float : Q -> string.

Local Abbreviation process_group := (process_group str_float).
Local Abbreviation process_warehouse := (process_warehouse str_float).

(** One group whose first row is still as in the snapshot: its rows, and
    only they, receive the effect of the group. *)
Lemma process_group_effect (tbl : list line) (group : list (nat * line)) :
  (forall i0 first rest,
     group = (i0, first) :: rest -> nth_error tbl i0 = Some first) ->
  forall k,
    nth_error (process_group tbl group) k
    = option_map
        (fun l => if existsb (Nat.eqb k) (map fst group)
                  then group_effect str_float (map snd group) l else l)
        (nth_error tbl k).
Proof.
  intros Hfirst k. unfold InventoryOptimizer.process_group.
  destruct group as [|[i0 first] rest].
  - cbn. now destruct (nth_error tbl k).
  - specialize (Hfirst i0 first rest eq_refl).
    assert (Ed : total_demand_of ((i0, first) :: rest)
                 = Py.sum (map product_uom_qty
                             (map snd ((i0, first) :: rest)))).
    { unfold total_demand_of. now rewrite map_map. }
    rewrite Ed. unfold group_effect. cbn [map snd fst].
    destruct (Qle_bool (odoo_on_hand first) 0).
    { apply nth_error_loc_set. }
    destruct (Py.Qltb (odoo_available first)
                (Py.sum (product_uom_qty first
                         :: map product_uom_qty (map snd rest)))).
    + destruct (Qle_bool (odoo_available first) 0).
      * rewrite Hfirst. apply nth_error_loc_set.
      * apply nth_error_shortage_loop.
    + destruct (nth_error tbl k) as [l|]; [|reflexivity].
      cbn. now destruct (_ || _).
Qed.

End RowWise.

Section RowWisePass.

Variable str_float : Q -> string.
Variable S0 : list line.
Variable wh : warehouse.

Local Abbreviation process_group := (process_group str_float).
Local Abbreviation pass_over rs T :=
  (fold_left (fun tbl ref => process_group tbl (group_rows (wh_lines S0 wh) ref))
             rs T).

Lemma group_rows_first (r : string) (i0 : nat) (first : line)
    (rest : list (nat * line)) :
  group_rows (wh_lines S0 wh) r = (i0, first) :: rest ->
  nth_error S0 i0 = Some first /\
  line_warehouse first = wh /\ internal_reference first = r.
Proof.
  intro E.
  assert (Hin : In (i0, first) (group_rows (wh_lines S0 wh) r))
    by (rewrite E; now left).
  unfold group_rows, wh_lines in Hin.
  apply filter_In in Hin. destruct Hin as (Hin & Hr).
  apply filter_In in Hin. destruct Hin as (Hin & Hw).
  apply In_enumerate_from in Hin. destruct Hin as (j & -> & Hn).
  cbn in Hr, Hw. split; [exact Hn|].
  split; [now apply warehouse_eqb_eq | now apply String.eqb_eq].
Qed.

(** While the rows of the groups still to come are as in the snapshot, the
    pass gives every row of those groups the effect of its own group. *)
Lemma pass_over_effect (rs : list string) :
  NoDup rs ->
  forall T,
    (forall k l, nth_error S0 k = Some l ->
                 line_warehouse l <> wh \/ In (internal_reference l) rs ->
                 nth_error T k = Some l) ->
    forall k lS,
      nth_error S0 k = Some lS ->
      line_warehouse lS = wh -> In (internal_reference lS) rs ->
      nth_error (pass_over rs T) k
      = Some (group_effect str_float
                (group_lines S0 wh (internal_reference lS)) lS).
Proof.
  intro Hnd. induction Hnd as [|r rs Hr Hnd IH]; intros T HT k lS Hk Hw Hin.
  - destruct Hin.
  - cbn [fold_left].
    assert (Hgroup : forall k',
      nth_error (process_group T (group_rows (wh_lines S0 wh) r)) k'
      = option_map
          (fun l => if existsb (Nat.eqb k')
                         (map fst (group_rows (wh_lines S0 wh) r))
                    then group_effect str_float (group_lines S0 wh r) l
                    else l)
          (nth_error T k')).
    { intro k'. rewrite <- group_rows_lines.
      apply process_group_effect. intros i0 first rest E.
      apply group_rows_first in E. destruct E as (Hn & Hw0 & Hr0).
      apply HT; [exact Hn|]. right. left. now symmetry. }
    assert (HT1 : forall k' l,
      nth_error S0 k' = Some l ->
      line_warehouse l <> wh \/ In (internal_reference l) rs ->
      nth_error (process_group T (group_rows (wh_lines S0 wh) r)) k'
      = Some l).
    { intros k' l Hk' H. rewrite Hgroup.
      rewrite (HT k' l Hk').
      2:{ destruct H as [H|H]; [now left|]. right. now right. }
      cbn [option_map].
      destruct (existsb (Nat.eqb k')
                  (map fst (group_rows (wh_lines S0 wh) r))) eqn:E;
        [|reflexivity].
      apply group_index in E. destruct E as (l' & Hl' & Hw' & Hr').
      rewrite Hk' in Hl'. inversion Hl'; subst l'.
      exfalso. destruct H as [H|H]; [now apply H|].
      apply Hr. now rewrite <- Hr'. }
    destruct (string_dec r (internal_reference lS)) as [E|Hne].
    + subst r.
      rewrite (pass_over_other str_float S0 wh k lS Hk) by now right.
      rewrite Hgroup, (HT k lS Hk) by (right; now left).
      cbn [option_map].
      assert (Ek : existsb (Nat.eqb k)
                     (map fst (group_rows (wh_lines S0 wh)
                                 (internal_reference lS))) = true).
      { apply group_index. now exists lS. }
      now rewrite Ek.
    + destruct Hin as [Hin|Hin]; [contradiction|].
      now apply (IH _ HT1).
Qed.

End RowWisePass.

Section RowWiseLoop.

Variable str_float : Q -> string.

Local Abbreviation process_warehouse := (process_warehouse str_float).
Local Abbreviation group_effect := (group_effect str_float).

Lemma stable_frame (proj := stable) :
  (forall l v, proj (set_flagged l v) = proj l) /\
  (forall l v, proj (set_flag_reason l v) = proj l) /\
  (forall l v, proj (set_shortage_details l v) = proj l).
Proof. repeat split; intros []; reflexivity. Qed.

(** One warehouse pass is a map over the table. *)
Lemma process_warehouse_map (S0 : list line) (wh : warehouse) :
  process_warehouse S0 wh
  = map (fun l => if warehouse_eqb (line_warehouse l) wh
                  then group_effect (group_lines S0 wh (internal_reference l)) l
                  else l) S0.
Proof.
  apply nth_error_ext. intro k. rewrite nth_error_map.
  destruct (nth_error S0 k) as [lS|] eqn:Hk; cbn [option_map].
  - destruct (warehouse_eqb (line_warehouse lS) wh) eqn:Ew.
    + apply warehouse_eqb_eq in Ew.
      unfold InventoryOptimizer.process_warehouse.
      apply (pass_over_effect str_float S0 wh _ (NoDup_group_keys _));
        auto.
      now apply (group_key_of_row S0 wh k).
    + apply process_warehouse_other; [exact Hk|].
      intro C. apply warehouse_eqb_eq in C. congruence.
  - apply nth_error_None. apply nth_error_None in Hk.
    destruct stable_frame as (H1 & H2 & H3).
    pose proof (process_warehouse_frame str_float stable H1 H2 H3 S0 wh) as Hf.
    apply (f_equal (@List.length _)) in Hf. rewrite !length_map in Hf.
    now rewrite Hf.
Qed.

Lemma group_lines_other_pass (T0 : list line) (f : line -> line)
    (wh : warehouse) (ref : string) :
  (forall l, line_warehouse l = wh -> f l = l) ->
  (forall l, line_warehouse (f l) = line_warehouse l) ->
  group_lines (map f T0) wh ref = group_lines T0 wh ref.
Proof.
  intros Hsame Hwh. unfold group_lines.
  induction T0 as [|l T0 IH]; [reflexivity|].
  cbn [map filter]. rewrite Hwh.
  destruct (warehouse_eqb (line_warehouse l) wh) eqn:E; cbn [andb];
    [|exact IH].
  apply warehouse_eqb_eq in E. rewrite (Hsame l E), IH. reflexivity.
Qed.

Lemma warehouse_group_effect (g : list line) (l : line) :
  line_warehouse (group_effect g l) = line_warehouse l /\
  internal_reference (group_effect g l) = internal_reference l.
Proof.
  pose proof (stable_group_effect str_float g l) as H.
  unfold stable in H. now inversion H.
Qed.

(** The whole loop gives every line the annotation of its group, the groups
    being those of the table the loop starts from. *)
Lemma flag_loop_annotate (T0 : list line) :
  fold_left process_warehouse [CE; CW] T0 = map (annotate str_float T0) T0.
Proof.
  cbn [fold_left]. rewrite !process_warehouse_map, map_map.
  apply map_ext. intro l. unfold annotate.
  destruct (line_warehouse l) eqn:W; cbn [warehouse_eqb].
  - destruct (warehouse_group_effect
                (group_lines T0 CE (internal_reference l)) l) as [Hw _].
    rewrite Hw, W. reflexivity.
  - rewrite W. cbn [warehouse_eqb].
    rewrite group_lines_other_pass; [reflexivity| |].
    + intros x Hx. now rewrite Hx.
    + intro x. destruct (warehouse_eqb (line_warehouse x) CE);
        [|reflexivity].
      apply warehouse_group_effect.
Qed.

End RowWiseLoop.

(** ** What the allocator does to each line *)

Section AllocatorRows.

Variable str_float : Q -> string.

Local Abbreviation optimize_allocations := (optimize_allocations str_float).

Lemma optimize_rows (line_details : list line)
    (hist : list sales_row) (inv : list inventory_row) :
  fst (optimize_allocations line_details hist inv)
  = map (annotate str_float (merged line_details hist inv))
        (merged line_details hist inv).
Proof.
  unfold InventoryOptimizer.optimize_allocations.
  destruct line_details as [|l0 ls].
  - cbn [fst]. now destruct hist, inv.
  - cbn [fst]. apply flag_loop_annotate.
Qed.

(** The allocator's output is the merged table with every line annotated
    after its (warehouse, reference) group; no log line is produced. *)
Theorem allocator_rowwise (line_details : list line)
    (hist : list sales_row) (inv : list inventory_row) :
  let tbl := merged line_details hist inv in
  fst (optimize_allocations line_details hist inv)
  = map (annotate str_float tbl) tbl /\
  snd (optimize_allocations line_details hist inv) = [].
Proof.
  intro tbl. subst tbl. split; [apply optimize_rows|].
  unfold InventoryOptimizer.optimize_allocations.
  now destruct line_details.
Qed.

Lemma output_row (line_details : list line)
    (hist : list sales_row) (inv : list inventory_row) (k : nat) (l0 : line) :
  nth_error (merged line_details hist inv) k = Some l0 ->
  nth_error (fst (optimize_allocations line_details hist inv)) k
  = Some (annotate str_float (merged line_details hist inv) l0).
Proof.
  intro Hk. rewrite optimize_rows. now rewrite nth_error_map, Hk.
Qed.

(** A group whose first line shows no stock on hand: every line of the
    group ends flagged with the reason "0/- On Hand", whatever the demand
    and the available quantity; its other columns, the shortage detail
    included, are as before. *)
Theorem zero_on_hand_flagged (line_details : list line)
    (hist : list sales_row) (inv : list inventory_row)
    (k : nat) (l0 first : line) (rest : list line) :
  let tbl := merged line_details hist inv in
  nth_error tbl k = Some l0 ->
  group_lines tbl (line_warehouse l0) (internal_reference l0)
  = first :: rest ->
  (odoo_on_hand first <= 0)%Q ->
  exists l,
    nth_error (fst (optimize_allocations line_details hist inv)) k = Some l /\
    l = flag_with "0/- On Hand" l0 /\
    flagged l = true /\
    flag_reason l = Some "0/- On Hand" /\
    shortage_details l = shortage_details l0 /\
    untouched l = untouched l0 /\
    merged_fields l = merged_fields l0.
Proof.
  intros tbl Hk Hg Hh. eexists. split; [exact (output_row _ _ _ _ _ Hk)|].
  fold tbl. unfold annotate, group_effect. rewrite Hg.
  apply Qle_bool_iff in Hh. rewrite Hh.
  repeat split; now destruct l0.
Qed.

(** A group with stock on hand whose available quantity is zero or negative
    and below its demand: every line of the group ends flagged; the reason
    is "Negative Available: a" when the group's first line had no reason,
    and that line's reason followed by ", Available: a" when it had one. *)
Theorem negative_available_flagged (line_details : list line)
    (hist : list sales_row) (inv : list inventory_row)
    (k : nat) (l0 first : line) (rest : list line) :
  let tbl := merged line_details hist inv in
  let g := group_lines tbl (line_warehouse l0) (internal_reference l0) in
  nth_error tbl k = Some l0 ->
  g = first :: rest ->
  (0 < odoo_on_hand first)%Q ->
  (odoo_available first <= 0)%Q ->
  (odoo_available first < Py.sum (map product_uom_qty g))%Q ->
  exists l reason,
    nth_error (fst (optimize_allocations line_details hist inv)) k = Some l /\
    l = flag_with reason l0 /\
    flagged l = true /\
    flag_reason l = Some reason /\
    (match flag_reason first with
     | None | Some "" =>
         reason
         = ("Negative Available: " ++ str_float (odoo_available first))%string
     | Some s =>
         reason
         = (s ++ ", Available: " ++ str_float (odoo_available first))%string
     end) /\
    untouched l = untouched l0.
Proof.
  intros tbl g Hk Hg Hh Ha Hd. subst g.
  exists (annotate str_float tbl l0),
         (negative_available_reason str_float (flag_reason first)
            (odoo_available first)).
  split; [exact (output_row _ _ _ _ _ Hk)|].
  unfold annotate, group_effect. rewrite Hg in *.
  rewrite (Qle_bool_false_of_lt _ Hh).
  apply Qltb_lt in Hd. rewrite Hd.
  apply Qle_bool_iff in Ha. rewrite Ha.
  split; [reflexivity|]. split; [now destruct l0|].
  split; [now destruct l0|]. split; [|now destruct l0].
  unfold negative_available_reason.
  destruct (flag_reason first) as [s|]; [|reflexivity].
  destruct s as [|c s]; reflexivity.
Qed.

(** A group with stock on hand whose demand does not exceed the available
    quantity: its lines leave the loop exactly as they entered it. *)
Theorem enough_stock_untouched (line_details : list line)
    (hist : list sales_row) (inv : list inventory_row)
    (k : nat) (l0 first : line) (rest : list line) :
  let tbl := merged line_details hist inv in
  let g := group_lines tbl (line_warehouse l0) (internal_reference l0) in
  nth_error tbl k = Some l0 ->
  g = first :: rest ->
  (0 < odoo_on_hand first)%Q ->
  (Py.sum (map product_uom_qty g) <= odoo_available first)%Q ->
  nth_error (fst (optimize_allocations line_details hist inv)) k = Some l0.
Proof.
  intros tbl g Hk Hg Hh Hd. subst g.
  rewrite (output_row _ _ _ _ _ Hk). fold tbl. f_equal.
  unfold annotate, group_effect. rewrite Hg in *.
  rewrite (Qle_bool_false_of_lt _ Hh).
  destruct (Py.Qltb _ _) eqn:E; [|reflexivity].
  apply Qltb_lt in E. exfalso. apply (Qlt_not_le _ _ E Hd).
Qed.

(** The allocator never clears a flag, and it never flags a line of a group
    that has stock on hand and a positive available quantity. *)
Theorem flags_only_added (line_details : list line)
    (hist : list sales_row) (inv : list inventory_row) (k : nat) (l0 : line) :
  let tbl := merged line_details hist inv in
  nth_error tbl k = Some l0 ->
  exists l,
    nth_error (fst (optimize_allocations line_details hist inv)) k = Some l /\
    (flagged l0 = true -> flagged l = true) /\
    (forall first rest,
       group_lines tbl (line_warehouse l0) (internal_reference l0)
       = first :: rest ->
       (0 < odoo_on_hand first)%Q -> (0 < odoo_available first)%Q ->
       flagged l = flagged l0).
Proof.
  intros tbl Hk. eexists. split; [exact (output_row _ _ _ _ _ Hk)|]. fold tbl.
  unfold annotate, group_effect. split.
  - intro Hf.
    destruct (group_lines tbl (line_warehouse l0) (internal_reference l0))
      as [|first rest]; [exact Hf|].
    destruct (Qle_bool (odoo_on_hand first) 0); [now destruct l0|].
    destruct (Py.Qltb _ _); [|exact Hf].
    destruct (Qle_bool (odoo_available first) 0); now destruct l0.
  - intros first rest Hg Hh Ha. rewrite Hg.
    rewrite (Qle_bool_false_of_lt _ Hh).
    destruct (Py.Qltb _ _); [|reflexivity].
    rewrite (Qle_bool_false_of_lt _ Ha). now destruct l0.
Qed.

End AllocatorRows.

Lemma zero_on_hand_flagged_witness :
  exists l,
    nth_error
      (fst (optimize_allocations Samples.show_float
              [Samples.stocked 20 "R7" 5 0 0; Samples.stocked 28 "R7" 1 0 9]
              [] [])) 1
    = Some l /\
    flagged l = true /\ flag_reason l = Some "0/- On Hand".
Proof.
  destruct (zero_on_hand_flagged Samples.show_float
              [Samples.stocked 20 "R7" 5 0 0; Samples.stocked 28 "R7" 1 0 9]
              [] [] 1 (Samples.stocked 28 "R7" 1 0 9)
              (Samples.stocked 20 "R7" 5 0 0) [Samples.stocked 28 "R7" 1 0 9])
    as (l & Hl & _ & Hf & Hr & _).
  - reflexivity.
  - reflexivity.
  - vm_compute. discriminate.
  - exists l. auto.
Defined.

Lemma negative_available_flagged_witness :
  exists l,
    nth_error
      (fst (optimize_allocations Samples.show_float
              [Samples.stocked 20 "R8" 5 10 (-2 # 1)] [] [])) 0
    = Some l /\
    flagged l = true /\ flag_reason l = Some "Negative Available: -2/1".
Proof.
  destruct (negative_available_flagged Samples.show_float
              [Samples.stocked 20 "R8" 5 10 (-2 # 1)] [] [] 0
              (Samples.stocked 20 "R8" 5 10 (-2 # 1))
              (Samples.stocked 20 "R8" 5 10 (-2 # 1)) [])
    as (l & reason & Hl & _ & Hf & Hr & Hreason & _).
  - reflexivity.
  - reflexivity.
  - reflexivity.
  - vm_compute. discriminate.
  - reflexivity.
  - exists l. split; [exact Hl|]. split; [exact Hf|].
    rewrite Hr. cbn in Hreason. now rewrite Hreason.
Defined.

Lemma enough_stock_untouched_witness :
  nth_error
    (fst (optimize_allocations Samples.show_float
            [Samples.stocked 20 "R1" 5 100 80; Samples.stocked 28 "R1" 75 100 80]
            [] [])) 1
  = Some (Samples.stocked 28 "R1" 75 100 80).
Proof.
  apply (enough_stock_untouched Samples.show_float
           [Samples.stocked 20 "R1" 5 100 80; Samples.stocked 28 "R1" 75 100 80]
           [] [] 1 (Samples.stocked 28 "R1" 75 100 80)
           (Samples.stocked 20 "R1" 5 100 80)
           [Samples.stocked 28 "R1" 75 100 80]).
  - reflexivity.
  - reflexivity.
  - reflexivity.
  - vm_compute. discriminate.
Defined.

Lemma flags_only_added_witness :
  exists l,
    nth_error
      (fst (optimize_allocations Samples.show_float
              [set_flagged (Samples.stocked 20 "R1" 5 100 80) true] [] [])) 0
    = Some l /\
    flagged l = true.
Proof.
  destruct (flags_only_added Samples.show_float
              [set_flagged (Samples.stocked 20 "R1" 5 100 80) true] [] [] 0
              (set_flagged (Samples.stocked 20 "R1" 5 100 80) true))
    as (l & Hl & Hf & _).
  - reflexivity.
  - exists l. split; [exact Hl|]. now apply Hf.
Defined.

(** ** The left merges, value by value *)

Lemma merge_sales_values {num} (hist : list sales_row) (l : line_of num) :
  merge_sales hist [l]
  = map (set_hist_avg_sales l)
        (joined_values (is_nil hist) (hist_avg_sales l)
           (map avg_monthly_sales (filter (sales_key_matches l) hist))).
Proof.
  destruct hist as [|h hist].
  - cbn. now rewrite set_hist_avg_sales_same.
  - cbn [merge_sales flat_map is_nil joined_values]. rewrite app_nil_r.
    unfold merge_sales_line.
    destruct (filter (sales_key_matches l) (h :: hist)) as [|m ms];
      [reflexivity|].
    cbn [map]. now rewrite map_map.
Qed.

Lemma merge_inventory_values {num} (inv : list inventory_row)
    (l : line_of num) :
  merge_inventory inv [l]
  = map (set_store_on_hand l)
        (joined_values (is_nil inv) (store_on_hand l)
           (map quantity (filter (inventory_key_matches l) inv))).
Proof.
  destruct inv as [|h inv].
  - cbn. now rewrite set_store_on_hand_same.
  - cbn [merge_inventory flat_map is_nil joined_values]. rewrite app_nil_r.
    unfold merge_inventory_line.
    destruct (filter (inventory_key_matches l) (h :: inv)) as [|m ms];
      [reflexivity|].
    cbn [map]. now rewrite map_map.
Qed.

Lemma merge_inventory_flat {num} (inv : list inventory_row)
    (ls : list (line_of num)) :
  merge_inventory inv ls = flat_map (fun l => merge_inventory inv [l]) ls.
Proof.
  induction ls as [|l ls IH]; [now destruct inv|].
  change (l :: ls) with ([l] ++ ls).
  now rewrite merge_inventory_app, flat_map_app, <- IH; cbn; rewrite app_nil_r.
Qed.

Lemma merged_fields_of_row {num} (l : line_of num) (vh vi : option Q) :
  merged_fields
    (fillna (set_store_on_hand (set_hist_avg_sales (normalise_keys l) vh) vi))
  = (fill0 vh, fill0 vi).
Proof. now destruct l. Qed.

(** The merged fields of the rows one line gives. *)
Lemma merge_line_values {num} (hist : list sales_row) (inv : list inventory_row)
    (l : line_of num) :
  map merged_fields (merge_line hist inv l)
  = flat_map
      (fun vh =>
         map (fun vi => (fill0 vh, fill0 vi))
             (joined_values (is_nil inv) (store_on_hand l)
                (inventory_values inv l)))
      (joined_values (is_nil hist) (hist_avg_sales l) (sales_values hist l)).
Proof.
  unfold merge_line, merged, sales_values, inventory_values. cbn [map].
  rewrite merge_sales_values, merge_inventory_flat.
  replace (hist_avg_sales (normalise_keys l)) with (hist_avg_sales l)
    by now destruct l.
  generalize (joined_values (is_nil hist) (hist_avg_sales l)
                (map avg_monthly_sales
                   (filter (sales_key_matches (normalise_keys l)) hist))).
  intro vhs. induction vhs as [|vh vhs IH]; [reflexivity|].
  cbn [map flat_map]. rewrite !map_app, IH. f_equal.
  rewrite merge_inventory_values.
  rewrite (filter_ext _ _ (inventory_key_set_hist (normalise_keys l) vh)).
  replace (store_on_hand (set_hist_avg_sales (normalise_keys l) vh))
    with (store_on_hand l) by now destruct l.
  rewrite !map_map. apply map_ext. intro vi. apply merged_fields_of_row.
Qed.

Section JoinValues.

Variable str_float : Q -> string.

Local Abbreviation optimize_allocations := (optimize_allocations str_float).

(** The two merges are left joins on (reference, destination): a line
    gives one output row per pair of external rows with its key, in table
    order, carrying their values with null read as 0; a table without a
    row for the key contributes 0, an empty table the value the line came
    with.  With one row per table for the key the line gives one row,
    carrying the two external values. *)
Theorem merge_join_values (line_details : list line)
    (hist : list sales_row) (inv : list inventory_row) :
  map merged_fields (fst (optimize_allocations line_details hist inv))
  = flat_map
      (fun l =>
         flat_map
           (fun vh =>
              map (fun vi => (fill0 vh, fill0 vi))
                  (joined_values (is_nil inv) (store_on_hand l)
                     (inventory_values inv l)))
           (joined_values (is_nil hist) (hist_avg_sales l)
              (sales_values hist l)))
      line_details /\
  (forall (l : line) vh vi,
     sales_values hist l = [vh] -> inventory_values inv l = [vi] ->
     map merged_fields (merge_line hist inv l) = [(fill0 vh, fill0 vi)]).
Proof.
  split.
  - unfold InventoryOptimizer.optimize_allocations.
    destruct line_details as [|l0 ls]; [reflexivity|]. cbn [fst].
    rewrite (flag_loop_frame str_float merged_fields);
      try (intros []; reflexivity).
    rewrite merged_flat_map, map_flat_map.
    apply flat_map_ext. intro l. apply merge_line_values.
  - intros l vh vi Hs Hi. rewrite merge_line_values, Hs, Hi.
    assert (Eh : is_nil hist = false).
    { destruct hist; [discriminate Hs|reflexivity]. }
    assert (Ei : is_nil inv = false).
    { destruct inv; [discriminate Hi|reflexivity]. }
    now rewrite Eh, Ei.
Qed.

End JoinValues.

Lemma merge_join_values_witness :
  map merged_fields
      (merge_line [mk_sales_row "R4" 20 (Some 50%Q)]
                  [mk_inventory_row "R4" 20 None]
                  (Samples.stocked 20 "R4" 10 100 80))
  = [(Some 50%Q, Some 0%Q)].
Proof.
  apply (proj2 (merge_join_values Samples.show_float
                  [Samples.stocked 20 "R4" 10 100 80]
                  [mk_sales_row "R4" 20 (Some 50%Q)]
                  [mk_inventory_row "R4" 20 None])
           (Samples.stocked 20 "R4" 10 100 80) (Some 50%Q) None);
    reflexivity.
Defined.

(** ** The expander: when it fails, and what it returns when it does not *)

Section ExpanderRuns.

Variable cw_stores : list Z.
Variable tt_store_names : Z -> option string.
Variable str_cell : column -> option Z -> string.

Local Abbreviation expand_product := (expand_product cw_stores).
Local Abbreviation expand_from := (expand_from cw_stores).
Local Abbreviation expand_row := (expand_row cw_stores str_cell).
Local Abbreviation expand_rows := (expand_rows cw_stores str_cell).
Local Abbreviation transform_data :=
  (transform_data cw_stores tt_store_names str_cell).

(** [transform_data] raises exactly when some line matches several variants
    the first of which has no factor while other fetched variants have one:
    the bundle total is NaN and [int] refuses it.  In every other case -
    empty inputs, unmatched lines and zero factors included - it returns
    its three tables. *)
Theorem transform_data_failure (po_df : list po_row) (products : list product)
    (starting_so_ref : Z) :
  transform_data po_df products starting_so_ref = None
  <-> existsb (nan_bundle products) po_df = true.
Proof.
  unfold DataTransformer.transform_data.
  destruct po_df as [|r po].
  - split; discriminate.
  - destruct products as [|p ps].
    + split; [discriminate|]. intro H. exfalso.
      apply existsb_exists in H. destruct H as (x & _ & Hx).
      unfold nan_bundle in Hx. cbn in Hx. discriminate.
    + rewrite <- (expand_rows_raises cw_stores str_cell).
      destruct (expand_rows (p :: ps) (r :: po)) as [[ls es]|].
      * destruct (aggregate cw_stores tt_store_names str_cell ls
                    starting_so_ref).
        split; discriminate.
      * split; reflexivity.
Qed.

Lemma expand_from_ids (products : list product) (row : po_row)
    (matched : list product) :
  forall todo idx ls,
    expand_from products row matched idx todo = Some ls ->
    map (fun l => (internal_reference l, product_id l)) ls
    = map (fun p => (Internal_Reference row, id p)) todo.
Proof.
  induction todo as [|p todo IH]; intros idx ls H.
  - cbn in H. injection H as <-. reflexivity.
  - cbn [DataTransformer.expand_from] in H.
    destruct (expand_product products row matched idx p) as [l|] eqn:El;
      [|discriminate].
    destruct (expand_from products row matched (S idx) todo) as [ls'|] eqn:E;
      [|discriminate].
    injection H as <-. cbn [map]. rewrite (IH _ _ E). f_equal.
    destruct (expand_product_line_data _ _ _ _ _ _ _ El) as (u & v & w & ->).
    reflexivity.
Qed.

(** When the expansion goes through, the diagnostics are the messages of
    the unmatched lines, one each and in line order, and the expanded lines
    are the (line, variant) pairs in line order and, within a line, in
    catalog order. *)
Theorem expansion_output (products : list product) (rows : list po_row)
    (ls : list expanded_line) (es : list string) :
  expand_rows products rows = Some (ls, es) ->
  es = map (not_found_message str_cell) (filter (unmatched products) rows) /\
  map (fun l => (internal_reference l, product_id l)) ls
  = flat_map (fun row => map (fun p => (Internal_Reference row, id p))
                             (matched_products products row))
             rows.
Proof.
  revert ls es. induction rows as [|row rows IH]; intros ls es H.
  - cbn in H. injection H as <- <-. split; reflexivity.
  - cbn [DataTransformer.expand_rows] in H.
    destruct (expand_row products row) as [[l1 e1]|] eqn:E1; [|discriminate].
    destruct (expand_rows products rows) as [[l2 e2]|] eqn:E2;
      [|discriminate].
    injection H as <- <-. destruct (IH _ _ eq_refl) as [He Hl].
    cbn [filter flat_map]. rewrite map_app, Hl.
    assert (Eu : unmatched products row
                 = is_nil (matched_products products row)) by reflexivity.
    unfold DataTransformer.expand_row in E1.
    destruct (matched_products products row) as [|p ps] eqn:Hm;
      rewrite Eu; cbn [is_nil].
    + injection E1 as <- <-. cbn [map app]. rewrite <- He.
      split; reflexivity.
    + destruct (expand_from products row (p :: ps) 0 (p :: ps)) as [l0|] eqn:E0;
        [|discriminate].
      injection E1 as <- <-. split; [exact He|].
      f_equal. now apply (expand_from_ids products row (p :: ps) (p :: ps)
                            0%nat).
Qed.

End ExpanderRuns.

(** RN has two variants the first of which has no factor: the run raises.
    RZ has two variants the first of which has factor 0: the run returns
    two lines of 0 units, their unit price an infinity and their total
    price NaN. *)
Lemma transform_data_failure_witness :
  transform_data Samples.no_cw Samples.no_names Samples.show_cell
    [Samples.po 5 "R1" 2 24; Samples.po 5 "RN" 1 12] Samples.patchy 391
  = None /\
  exists hs l1 l2,
    transform_data Samples.no_cw Samples.no_names Samples.show_cell
      [Samples.po 5 "RZ" 1 12] Samples.patchy 391
    = Some (hs, [l1; l2], []) /\
    map product_uom_qty [l1; l2]
    = [Py.Fin (inject_Z 0); Py.Fin (inject_Z 0)] /\
    map price_unit [l1; l2] = [Py.Inf false; Py.Inf false] /\
    map total_price [l1; l2] = [Py.NaN; Py.NaN].
Proof.
  split.
  - apply (proj2 (transform_data_failure Samples.no_cw Samples.no_names
                    Samples.show_cell
                    [Samples.po 5 "R1" 2 24; Samples.po 5 "RN" 1 12]
                    Samples.patchy 391)).
    reflexivity.
  - do 3 eexists. split; [vm_compute; reflexivity|]. repeat split.
Defined.

Lemma expansion_output_witness :
  exists ls es,
    expand_rows Samples.no_cw Samples.show_cell Samples.catalog
      [Samples.po 5 "R3" 1 12; Samples.po 5 "XX" 1 12; Samples.po 9 "R1" 2 24]
    = Some (ls, es) /\
    es = ["Product not found in Odoo: XX (Store: 5, PO: 7001)"] /\
    map (fun l => (internal_reference l, product_id l)) ls
    = [("R3", 4%Z); ("R3", 5%Z); ("R1", 1%Z)].
Proof.
  destruct (expand_rows Samples.no_cw Samples.show_cell Samples.catalog
              [Samples.po 5 "R3" 1 12; Samples.po 5 "XX" 1 12;
               Samples.po 9 "R1" 2 24]) as [[ls es]|] eqn:E;
    [|vm_compute in E; discriminate E].
  exists ls, es. split; [reflexivity|].
  exact (expansion_output Samples.no_cw Samples.show_cell Samples.catalog
           _ ls es E).
Defined.

(** ** The lines [transform_data] hands on *)

Section FreshLines.

Variable cw_stores : list Z.
Variable tt_store_names : Z -> option string.
Variable str_cell : column -> option Z -> string.

Local Abbreviation expand_product := (expand_product cw_stores).
Local Abbreviation expand_from := (expand_from cw_stores).
Local Abbreviation expand_row := (expand_row cw_stores str_cell).
Local Abbreviation expand_rows := (expand_rows cw_stores str_cell).
Local Abbreviation transform_data :=
  (transform_data cw_stores tt_store_names str_cell).

Lemma as_expanded_line_data (row : po_row) (p : product)
    (upo units price : Py.float64) :
  as_expanded cw_stores (line_data cw_stores row p upo units price).
Proof. repeat split. Qed.

Lemma expand_product_fresh (products : list product) (row : po_row)
    (matched : list product) (idx : nat) (p : product) (l : expanded_line) :
  expand_product products row matched idx p = Some l ->
  as_expanded cw_stores l.
Proof.
  intro H.
  destruct (expand_product_line_data _ _ _ _ _ _ _ H) as (u & v & w & ->).
  apply as_expanded_line_data.
Qed.

Lemma expand_from_fresh (products : list product) (row : po_row)
    (matched : list product) :
  forall todo idx ls,
    expand_from products row matched idx todo = Some ls ->
    Forall (as_expanded cw_stores) ls.
Proof.
  induction todo as [|p todo IH]; intros idx ls H.
  - cbn in H. injection H as <-. constructor.
  - cbn [DataTransformer.expand_from] in H.
    destruct (expand_product products row matched idx p) as [l|] eqn:El;
      [|discriminate].
    destruct (expand_from products row matched (S idx) todo) as [ls'|] eqn:E;
      [|discriminate].
    injection H as <-. constructor.
    + now apply (expand_product_fresh products row matched idx p).
    + now apply (IH (S idx)).
Qed.

Lemma expand_rows_fresh (products : list product) :
  forall rows ls es,
    expand_rows products rows = Some (ls, es) ->
    Forall (as_expanded cw_stores) ls.
Proof.
  induction rows as [|row rows IH]; intros ls es H.
  - cbn in H. injection H as <- <-. constructor.
  - cbn [DataTransformer.expand_rows] in H.
    destruct (expand_row products row) as [[l1 e1]|] eqn:E1; [|discriminate].
    destruct (expand_rows products rows) as [[l2 e2]|] eqn:E2;
      [|discriminate].
    injection H as <- <-. apply Forall_app. split; [|now apply (IH _ e2)].
    unfold DataTransformer.expand_row in E1.
    destruct (matched_products products row) as [|p ps].
    + injection E1 as <- <-. constructor.
    + destruct (expand_from products row (p :: ps) 0 (p :: ps)) as [l0|] eqn:E0;
        [|discriminate].
      injection E1 as <- <-.
      exact (expand_from_fresh products row (p :: ps) (p :: ps) 0%nat l0 E0).
Qed.

Lemma as_expanded_so_reference (l : expanded_line) (r : option string) :
  as_expanded cw_stores l -> as_expanded cw_stores (set_so_reference l r).
Proof. now destruct l. Qed.

Lemma transform_lines_fresh (po_df : list po_row) (products : list product)
    (starting_so_ref : Z) (headers : list header) (lines : list expanded_line)
    (errors : list string) :
  transform_data po_df products starting_so_ref
  = Some (headers, lines, errors) ->
  Forall (fun l => as_expanded cw_stores l /\
                   store_id l <> None /\ so_reference l <> None)
         lines.
Proof.
  unfold DataTransformer.transform_data.
  destruct po_df as [|r po].
  { intro H. injection H as <- <- <-. constructor. }
  destruct products as [|p ps].
  { intro H. injection H as <- <- <-. constructor. }
  destruct (expand_rows (p :: ps) (r :: po)) as [[ls es]|] eqn:E;
    [|discriminate].
  pose proof (expand_rows_fresh _ _ _ _ E) as Hfresh.
  pose proof (order_reference_numbering cw_stores tt_store_names str_cell ls
                starting_so_ref) as Hnum.
  cbv zeta in Hnum. destruct Hnum as (_ & _ & _ & _ & _ & Hrefs).
  destruct (aggregate cw_stores tt_store_names str_cell ls starting_so_ref)
    as [hs out] eqn:Ea.
  intro H. injection H as <- <- <-.
  cbn [snd] in Hrefs.
  apply Forall_forall. intros l Hl.
  rewrite Forall_forall in Hrefs. destruct (Hrefs l Hl) as (i & n & Hs & _ & Hr).
  split; [|split; [now rewrite Hs | now rewrite Hr]].
  assert (Hout : exists f : expanded_line -> option string,
            out = map (fun x => set_so_reference x (f x))
                      (dropna_store_id ls)).
  { apply (f_equal snd) in Ea. cbn [snd] in Ea. rewrite <- Ea.
    unfold DataTransformer.aggregate. destruct ls as [|l0 ls0].
    - exists (fun _ => None). reflexivity.
    - eexists (fun x => match store_id x with
                        | Some n => map_get _ n
                        | None => None
                        end). reflexivity. }
  destruct Hout as (f & ->). apply in_map_iff in Hl.
  destruct Hl as (x & <- & Hx). apply as_expanded_so_reference.
  rewrite Forall_forall in Hfresh. apply Hfresh.
  unfold dropna_store_id in Hx. apply filter_In in Hx. tauto.
Qed.

(** Every line [transform_data] returns is as the expander leaves it -
    unflagged, without reason or detail, merged fields at zero, total price
    the product of unit count and unit price, warehouse that of its
    destination - and has a destination id and an order reference. *)
Theorem transform_data_lines (po_df : list po_row) (products : list product)
    (starting_so_ref : Z) (headers : list header) (lines : list expanded_line)
    (errors : list string) :
  transform_data po_df products starting_so_ref
  = Some (headers, lines, errors) ->
  Forall (fun l => as_expanded cw_stores l /\
                   store_id l <> None /\ so_reference l <> None)
         lines.
Proof. apply transform_lines_fresh. Qed.

(** Lines as [transform_data] returns them, merged with any external
    tables in which their key does not occur - empty tables included - have
    both merged fields at 0. *)
Theorem pipeline_merge_default (po_df : list po_row) (products : list product)
    (starting_so_ref : Z) (headers : list header) (lines : list expanded_line)
    (errors : list string) (hist : list sales_row) (inv : list inventory_row)
    (l : expanded_line) :
  transform_data po_df products starting_so_ref
  = Some (headers, lines, errors) ->
  In l lines ->
  sales_values hist l = [] -> inventory_values inv l = [] ->
  map merged_fields (merge_line hist inv l) = [(Some 0%Q, Some 0%Q)].
Proof.
  intros Ht Hl Hs Hi.
  pose proof (transform_lines_fresh _ _ _ _ _ _ Ht) as Hf.
  rewrite Forall_forall in Hf.
  destruct (Hf l Hl) as ((_ & _ & _ & Hsoh & Hhas & _) & _).
  rewrite merge_line_values, Hs, Hi, Hsoh, Hhas.
  destruct hist, inv; reflexivity.
Qed.

End FreshLines.

Lemma transform_data_lines_witness :
  exists hs ls es,
    transform_data Samples.no_cw Samples.no_names Samples.show_cell
      [Samples.po 5 "R3" 1 12; Samples.po 9 "R1" 2 24] Samples.catalog 391
    = Some (hs, ls, es) /\
    List.length ls = 3%nat /\
    Forall (fun l => as_expanded Samples.no_cw l /\
                     store_id l <> None /\ so_reference l <> None) ls.
Proof.
  destruct (transform_data Samples.no_cw Samples.no_names Samples.show_cell
              [Samples.po 5 "R3" 1 12; Samples.po 9 "R1" 2 24]
              Samples.catalog 391) as [[[hs ls] es]|] eqn:E;
    [|vm_compute in E; discriminate E].
  exists hs, ls, es. split; [reflexivity|]. split.
  - vm_compute in E. injection E as _ <- _. reflexivity.
  - exact (transform_data_lines Samples.no_cw Samples.no_names
             Samples.show_cell _ _ _ hs ls es E).
Defined.

Lemma pipeline_merge_default_witness :
  exists hs l es,
    transform_data Samples.no_cw Samples.no_names Samples.show_cell
      [Samples.po 9 "R1" 2 24] Samples.catalog 391
    = Some (hs, [l], es) /\
    map merged_fields
        (merge_line [] [mk_inventory_row "R9" 9 (Some 3%Q)] l)
    = [(Some 0%Q, Some 0%Q)].
Proof.
  destruct (transform_data Samples.no_cw Samples.no_names Samples.show_cell
              [Samples.po 9 "R1" 2 24] Samples.catalog 391)
    as [[[hs ls] es]|] eqn:E; [|vm_compute in E; discriminate E].
  assert (Hls : exists l, ls = [l]).
  { vm_compute in E. injection E as _ <- _. eexists. reflexivity. }
  destruct Hls as (l & ->). exists hs, l, es. split; [reflexivity|].
  apply (pipeline_merge_default Samples.no_cw Samples.no_names
           Samples.show_cell _ _ _ hs [l] es
           [] [mk_inventory_row "R9" 9 (Some 3%Q)] l E).
  - now left.
  - reflexivity.
  - vm_compute in E. injection E as _ <- _. reflexivity.
Defined.

(** ** Headers and lines add up *)

Lemma group_of_cons (l : expanded_line) (ds : list expanded_line) (sid : Z) :
  group_of (l :: ds) sid
  = if Z_opt_eqb (store_id l) (Some sid)
    then l :: group_of ds sid else group_of ds sid.
Proof. reflexivity. Qed.

Lemma group_count_absent (l : expanded_line) (ds : list expanded_line)
    (n : Z) (stores : list Z) :
  store_id l = Some n -> ~ In n stores ->
  map (fun sid => group_of (l :: ds) sid) stores
  = map (fun sid => group_of ds sid) stores.
Proof.
  intros Hs Hn. apply map_ext_in. intros sid Hsid.
  rewrite group_of_cons, Hs. cbn [Z_opt_eqb].
  destruct (Z.eqb_spec n sid) as [->|_]; [contradiction|reflexivity].
Qed.

Lemma group_count_step (l : expanded_line) (ds : list expanded_line)
    (n : Z) (stores : list Z) :
  store_id l = Some n -> NoDup stores -> In n stores ->
  sum_nat (map (fun sid => List.length (group_of (l :: ds) sid)) stores)
  = S (sum_nat (map (fun sid => List.length (group_of ds sid)) stores)).
Proof.
  intros Hs Hnd. induction Hnd as [|s ss Hss Hnd IH]; intro Hin;
    [destruct Hin|].
  cbn [map sum_nat fold_right]. fold (sum_nat).
  rewrite group_of_cons, Hs. cbn [Z_opt_eqb].
  destruct (Z.eqb_spec n s) as [->|Hne].
  - cbn [List.length].
    pose proof (group_count_absent l ds s ss Hs Hss) as E.
    apply (f_equal (map (@List.length expanded_line))) in E.
    rewrite !map_map in E. unfold sum_nat in *. now rewrite E.
  - destruct Hin as [C|Hin]; [congruence|].
    unfold sum_nat in *. rewrite (IH Hin). lia.
Qed.

Lemma group_count (stores : list Z) (details : list expanded_line) :
  NoDup stores ->
  (forall l, In l details -> exists n, store_id l = Some n /\ In n stores) ->
  sum_nat (map (fun sid => List.length (group_of details sid)) stores)
  = List.length details.
Proof.
  intros Hnd. induction details as [|l ds IH]; intro H.
  - clear H Hnd. unfold sum_nat.
    induction stores as [|s ss IHs]; [reflexivity|]. cbn. exact IHs.
  - destruct (H l (or_introl eq_refl)) as (n & Hs & Hin).
    rewrite (group_count_step l ds n stores Hs Hnd Hin), IH;
      [reflexivity|].
    intros x Hx. apply H. now right.
Qed.

Section HeaderTotals.

Variable cw_stores : list Z.
Variable tt_store_names : Z -> option string.
Variable str_cell : column -> option Z -> string.

Local Abbreviation aggregate := (aggregate cw_stores tt_store_names str_cell).
Local Abbreviation summaries_from :=
  (summaries_from cw_stores tt_store_names str_cell).

Lemma summaries_from_totals (ls : list expanded_line) (S0 : Z)
    (stores : list Z) :
  forall index,
    map h_total_lines (summaries_from ls S0 index stores)
    = map (fun sid => List.length (group_of ls sid)) stores.
Proof.
  induction stores as [|sid stores IH]; intro index; [reflexivity|].
  cbn [DataTransformer.summaries_from map]. now rewrite (IH (S index)).
Qed.

Lemma details_covered (ls : list expanded_line) (l : expanded_line) :
  In l (dropna_store_id ls) ->
  exists n, store_id l = Some n /\ In n (unique_stores (dropna_store_id ls)).
Proof.
  intro Hl. assert (Hs : exists n, store_id l = Some n).
  { unfold dropna_store_id in Hl. apply filter_In in Hl.
    destruct (store_id l) as [n|]; [now exists n|].
    destruct Hl as [_ C]. discriminate. }
  destruct Hs as (n & En). exists n. split; [exact En|].
  unfold unique_stores. apply In_sorted_Z, In_unique_Z.
  unfold store_ids. apply in_flat_map. exists l. split; [exact Hl|].
  rewrite En. now left.
Qed.

(** The headers partition the kept lines by destination: their line counts
    add up to the number of lines, every header counts at least one line,
    and there is a header exactly when there is a line. *)
Theorem header_totals (expanded_lines : list expanded_line)
    (starting_so_ref : Z) :
  let headers := fst (aggregate expanded_lines starting_so_ref) in
  let lines := snd (aggregate expanded_lines starting_so_ref) in
  sum_nat (map h_total_lines headers) = List.length lines /\
  Forall (fun h => (1 <= h_total_lines h)%nat) headers /\
  (headers = [] <-> lines = []).
Proof.
  intros headers lines. subst headers lines.
  unfold DataTransformer.aggregate.
  destruct expanded_lines as [|l0 ls0];
    [cbn; repeat split; try reflexivity; constructor|].
  cbn [fst snd].
  set (details := dropna_store_id (l0 :: ls0)).
  set (stores := unique_stores details).
  assert (Hnd : NoDup stores) by apply NoDup_sorted_Z, NoDup_unique_Z.
  assert (Hcov : forall l, In l details ->
                 exists n, store_id l = Some n /\ In n stores)
    by apply details_covered.
  pose proof (summaries_from_totals details starting_so_ref stores 0) as Hl.
  split; [|split].
  - rewrite Hl, length_map. now apply group_count.
  - apply summaries_from_Forall. intros index sid Hsid.
    cbn [h_total_lines summary].
    pose proof (group_of_unique_store details sid Hsid) as Hne.
    destruct (group_of details sid); [contradiction|cbn; lia].
  - split; intro H.
    + apply (f_equal (map h_store_id)) in H.
      rewrite summaries_from_store_ids in H. cbn [map] in H.
      destruct details as [|d ds] eqn:Ed; [reflexivity|].
      destruct (Hcov d (or_introl eq_refl)) as (n & _ & Hin).
      rewrite H in Hin. destruct Hin.
    + apply map_eq_nil in H. subst stores. rewrite H. reflexivity.
Qed.

End HeaderTotals.

Section ReferenceAssignment.

Variable cw_stores : list Z.
Variable tt_store_names : Z -> option string.
Variable str_cell : column -> option Z -> string.

(** Destinations are numbered in ascending order of id: the i-th distinct
    destination gets the reference made of OATS00 and the decimal digits of
    the starting number plus i; no two destinations share a reference, and
    every kept line carries the reference of its own destination. *)
Theorem order_reference_assignment (expanded_lines : list expanded_line)
    (starting_so_ref : Z) :
  let stores := unique_stores (dropna_store_id expanded_lines) in
  let headers :=
    fst (aggregate cw_stores tt_store_names str_cell expanded_lines
           starting_so_ref) in
  let lines :=
    snd (aggregate cw_stores tt_store_names str_cell expanded_lines
           starting_so_ref) in
  map h_store_id headers = stores /\
  NoDup stores /\ Sorted Z.le stores /\
  map h_so_reference headers
  = map (fun i => so_ref (starting_so_ref + Z.of_nat i))
        (seq 0 (List.length stores)) /\
  NoDup (map h_so_reference headers) /\
  Forall (fun l =>
            exists i n,
              store_id l = Some n /\ nth_error stores i = Some n /\
              so_reference l = Some (so_ref (starting_so_ref + Z.of_nat i)))
         lines.
Proof. apply order_reference_numbering. Qed.

End ReferenceAssignment.

(** ** The validator, applied again, and its drop report *)

Section ValidatorAgain.

Import PDFExtractor.
Variable float_of_string : string -> option Py.float64.

Local Abbreviation float_field := (float_field float_of_string).
Local Abbreviation validate_po_data := (validate_po_data float_of_string).
Local Abbreviation valid_recordb := (valid_recordb float_of_string).
Local Abbreviation overflowsb := (overflowsb float_of_string).
Local Abbreviation coerced := (coerced float_of_string).

(** A kept record passes again, unchanged. *)
Lemma coerced_valid (it : item) :
  valid_recordb it = true ->
  overflowsb (coerced it) = false /\
  valid_recordb (coerced it) = true /\
  coerced (coerced it) = coerced it.
Proof.
  unfold PDFExtractor.valid_recordb, PDFExtractor.overflowsb,
    PDFExtractor.coerced.
  intro H. apply andb_true_iff in H. destruct H as [Hr H].
  destruct (float_field (N_of_Order it)) as [qty| |]; try discriminate.
  destruct (float_field (Price it)) as [price| |]; try discriminate.
  change (required_ok (set_numbers it qty price)) with (required_ok it).
  rewrite Hr. cbn. rewrite H. repeat split.
Qed.

Lemma kept_again (data : list item) :
  existsb overflowsb (map coerced (filter valid_recordb data)) = false /\
  map coerced (filter valid_recordb (map coerced (filter valid_recordb data)))
  = map coerced (filter valid_recordb data).
Proof.
  induction data as [|it rest [IH1 IH2]]; [split; reflexivity|].
  cbn [filter]. destruct (valid_recordb it) eqn:Hv; [|now split].
  destruct (coerced_valid it Hv) as (Ho & Hv' & Hc).
  cbn [map existsb filter]. rewrite Ho, Hv'. cbn [orb map].
  split; [exact IH1|]. now rewrite Hc, IH2.
Qed.

(** Validating validated records changes nothing. *)
Theorem validate_po_data_idempotent (data : list item) :
  match validate_po_data data with
  | Some valid_data => validate_po_data valid_data
  | None => None
  end
  = validate_po_data data.
Proof.
  rewrite (validate_po_data_run float_of_string data).
  destruct (existsb overflowsb data); [reflexivity|].
  rewrite (validate_po_data_run float_of_string).
  destruct (kept_again data) as [-> ->]. reflexivity.
Qed.

Lemma filter_split_length {A} (p : A -> bool) (l : list A) :
  (List.length (filter p l)
   + List.length (filter (fun x => negb (p x)) l))%nat
  = List.length l.
Proof.
  induction l as [|a l IH]; [reflexivity|].
  cbn [filter]. destruct (p a); cbn [negb List.length]; lia.
Qed.

(** The scanner's report of dropped records: unless the validator raises,
    it is added exactly when some record is invalid, and the count it
    states is the number of invalid records; the diagnostics collected
    before are kept, in order. *)
Theorem validate_and_report_count (data : list item) (filename : string)
    (errors : list string) :
  let valid_data := map coerced (filter valid_recordb data) in
  let invalid := filter (fun it => negb (valid_recordb it)) data in
  Scanner.validate_and_report float_of_string data filename errors
  = (if existsb overflowsb data then None
     else Some (valid_data,
                if is_nil invalid then errors
                else errors
                     ++ [("Dropped "
                          ++ Py.str_of_Z (Z.of_nat (List.length invalid))
                          ++ " invalid items from " ++ filename)%string])) /\
  (List.length valid_data + List.length invalid)%nat = List.length data.
Proof.
  intros valid_data invalid. subst valid_data invalid.
  pose proof (filter_split_length valid_recordb data) as Hsplit.
  rewrite length_map. split; [|exact Hsplit].
  unfold Scanner.validate_and_report.
  rewrite (validate_po_data_run float_of_string data).
  destruct (existsb overflowsb data); [reflexivity|]. rewrite length_map.
  destruct (filter (fun it => negb (valid_recordb it)) data) as [|x xs] eqn:E.
  - cbn [List.length] in Hsplit. cbn [is_nil].
    destruct (Nat.ltb_spec (List.length (filter valid_recordb data))
                (List.length data)); [lia|reflexivity].
  - cbn [List.length] in Hsplit. cbn [is_nil].
    destruct (Nat.ltb_spec (List.length (filter valid_recordb data))
                (List.length data)); [|lia].
    replace (Z.of_nat (List.length data)
             - Z.of_nat (List.length (filter valid_recordb data)))%Z
      with (Z.of_nat (List.length (x :: xs)))
      by (cbn [List.length]; lia).
    reflexivity.
Qed.

End ValidatorAgain.

(** From the numeric tokens of an item line the scanner reads the quantity
    and the price off the end: with three or more tokens the last one is
    ignored and the two before it are taken, with two tokens both are
    taken, and with fewer no record is made. *)
Theorem qty_and_price_positions :
  (forall pre a b c,
     Scanner.qty_and_price (pre ++ [a; b; c]) = Some (a, b)) /\
  (forall a b, Scanner.qty_and_price [a; b] = Some (a, b)) /\
  (forall l, Scanner.qty_and_price l = None <-> (List.length l < 2)%nat).
Proof.
  split; [|split].
  - intros pre a b c. unfold Scanner.qty_and_price.
    rewrite rev_app_distr. reflexivity.
  - reflexivity.
  - intro l. unfold Scanner.qty_and_price.
    rewrite <- (length_rev l).
    destruct (rev l) as [|x [|y [|z r]]]; cbn [List.length];
      split; intro H; try reflexivity; try discriminate; lia.
Qed.

(** ** What reaches the import sheet *)

Lemma filter_map_comm {A B} (f : A -> B) (p : B -> bool) (l : list A) :
  filter p (map f l) = map f (filter (fun x => p (f x)) l).
Proof.
  induction l as [|a l IH]; [reflexivity|].
  cbn [map filter]. destruct (p (f a)); cbn [map]; now rewrite IH.
Qed.

Lemma flagged_merge_row (l r : line) (hist : list sales_row)
    (inv : list inventory_row) :
  In r (merge_line hist inv l) -> flagged r = flagged l.
Proof.
  intro H. apply merge_line_rows in H. destruct H as (vh & vi & ->).
  now destruct l.
Qed.

Section ImportSheet.

Variable str_float : Q -> string.

Lemma flagged_annotate (tbl : list line) (l : line) :
  flagged l = false ->
  flagged (annotate str_float tbl l)
  = blocked (group_lines tbl (line_warehouse l) (internal_reference l)).
Proof.
  intro Hf. unfold annotate, group_effect, blocked.
  destruct (group_lines tbl (line_warehouse l) (internal_reference l))
    as [|first rest]; [exact Hf|].
  destruct (Qle_bool (odoo_on_hand first) 0); [now destruct l|].
  cbn [orb]. destruct (Py.Qltb _ _); [|exact Hf]. cbn [andb].
  destruct (Qle_bool (odoo_available first) 0); now destruct l.
Qed.

Lemma order_line_annotate (tbl : list line) (l : line) :
  Frontend.order_line_of (annotate str_float tbl l) = Frontend.order_line_of l.
Proof.
  unfold annotate, group_effect.
  destruct (group_lines tbl (line_warehouse l) (internal_reference l))
    as [|first rest]; [reflexivity|].
  destruct (Qle_bool (odoo_on_hand first) 0); [now destruct l|].
  destruct (Py.Qltb _ _); [|reflexivity].
  destruct (Qle_bool (odoo_available first) 0); now destruct l.
Qed.

(** Lines that enter the allocator unflagged reach the sheet 'Sales Order
    Lines' exactly when their (warehouse, reference) group has stock on
    hand and is not short of a zero or negative available quantity; the rows
    written carry the merged lines' reference, product, unit count and unit
    price unchanged, so a line of a group in mere shortage is exported with
    its full quantity. *)
Theorem import_sheet_rows (line_details : list line)
    (hist : list sales_row) (inv : list inventory_row) :
  Forall (fun l => flagged l = false) line_details ->
  let tbl := merged line_details hist inv in
  Frontend.sales_order_lines
    (fst (optimize_allocations str_float line_details hist inv))
  = map Frontend.order_line_of
        (filter
           (fun l =>
              negb (blocked (group_lines tbl (line_warehouse l)
                                         (internal_reference l))))
           tbl).
Proof.
  intros Hf tbl.
  assert (Htbl : forall r, In r tbl -> flagged r = false).
  { intros r Hr. unfold tbl in Hr. rewrite merged_flat_map in Hr.
    apply in_flat_map in Hr. destruct Hr as (l & Hl & Hr).
    rewrite (flagged_merge_row l r hist inv Hr).
    rewrite Forall_forall in Hf. now apply Hf. }
  unfold Frontend.sales_order_lines.
  rewrite (optimize_rows str_float). fold tbl.
  rewrite filter_map_comm, map_map.
  rewrite (map_ext _ _ (order_line_annotate tbl)). f_equal.
  apply filter_ext_in. intros r Hr.
  now rewrite (flagged_annotate tbl r (Htbl r Hr)).
Qed.

End ImportSheet.

Lemma import_sheet_rows_witness :
  map Frontend.Quantity
      (Frontend.sales_order_lines
         (fst (optimize_allocations Samples.show_float
                 [Samples.stocked 20 "R4" 30 100 30;
                  Samples.stocked 28 "R4" 20 100 30;
                  Samples.stocked 20 "R7" 5 0 0] [] [])))
  = [30%Q; 20%Q].
Proof.
  rewrite (import_sheet_rows Samples.show_float
             [Samples.stocked 20 "R4" 30 100 30;
              Samples.stocked 28 "R4" 20 100 30;
              Samples.stocked 20 "R7" 5 0 0] [] []).
  - reflexivity.
  - repeat constructor.
Defined.

(** ** The external tables as the history provider builds them *)

Lemma unique_first {A} (eqb : A -> A -> bool) (l : list A) (x : A) :
  In x (Py.unique eqb l) ->
  exists l1 l2, l = l1 ++ x :: l2 /\ forall y, In y l1 -> eqb y x = false.
Proof.
  induction l as [|a l IH]; [intros []|].
  cbn [Py.unique In]. intros [->|H].
  - exists [], l. split; [reflexivity|]. intros y [].
  - apply filter_In in H. destruct H as [H Ha].
    destruct (IH H) as (l1 & l2 & -> & Hl1).
    exists (a :: l1), l2. split; [reflexivity|].
    intros y [<-|Hy]; [now apply negb_true_iff in Ha|now apply Hl1].
Qed.

Lemma unique_distinct {A} (eqb : A -> A -> bool) (l : list A) :
  ForallOrdPairs (fun x y => eqb x y = false) (Py.unique eqb l).
Proof.
  induction l as [|a l IH]; [constructor|].
  cbn [Py.unique]. constructor.
  - apply Forall_forall. intros y Hy. apply filter_In in Hy.
    now apply negb_true_iff.
  - generalize (Py.unique eqb l) IH. clear. intros u Hu.
    induction Hu as [|b u Hb Hu IHu]; [constructor|].
    cbn [filter]. destruct (negb (eqb a b)); [|exact IHu].
    constructor; [|exact IHu].
    apply Forall_forall. intros y Hy. apply filter_In in Hy.
    rewrite Forall_forall in Hb. now apply Hb.
Qed.

Lemma unique_complete {A} (eqb : A -> A -> bool) (l : list A) (x : A) :
  (forall a b, eqb a b = true <-> a = b) ->
  In x l -> In x (Py.unique eqb l).
Proof.
  intros Heq. induction l as [|a l IH]; [auto|].
  cbn [Py.unique In]. intros [->|H]; [now left|].
  destruct (eqb a x) eqn:E.
  - left. now apply Heq.
  - right. apply filter_In. split; [now apply IH|]. now rewrite E.
Qed.

Lemma NoDup_of_distinct {A B} (f : A -> B) (l : list A) :
  ForallOrdPairs (fun x y => f x <> f y) l -> NoDup (map f l).
Proof.
  intro H. induction H as [|a l Ha Hl IH]; [constructor|].
  cbn [map]. constructor; [|exact IH].
  intro C. apply in_map_iff in C. destruct C as (y & E & Hy).
  rewrite Forall_forall in Ha. now apply (Ha y Hy).
Qed.

Lemma ForallOrdPairs_impl {A} (R R' : A -> A -> Prop) (l : list A) :
  (forall x y, In x l -> In y l -> R x y -> R' x y) ->
  ForallOrdPairs R l -> ForallOrdPairs R' l.
Proof.
  intros HR H. induction H as [|a l Ha Hl IH]; [constructor|].
  constructor.
  - apply Forall_forall. intros y Hy. rewrite Forall_forall in Ha.
    apply HR; [now left|now right|now apply Ha].
  - apply IH. intros x y Hx Hy. apply HR; now right.
Qed.

Lemma StronglySorted_after {A} (R : A -> A -> Prop) (l1 l2 : list A) (x : A) :
  StronglySorted R (l1 ++ x :: l2) -> Forall (R x) l2.
Proof.
  induction l1 as [|a l1 IH]; cbn [app]; intro H.
  - now inversion H.
  - inversion H. now apply IH.
Qed.

Lemma key_eqb_eq (a b : SupabaseClient.key) :
  SupabaseClient.key_eqb a b = true <-> a = b.
Proof.
  destruct a as [[s|] [n|]], b as [[t|] [m|]];
    unfold SupabaseClient.key_eqb; cbn;
    rewrite ?andb_true_iff, ?String.eqb_eq, ?Z.eqb_eq;
    split; intro H; try discriminate; try (destruct H; discriminate);
    try (destruct H; congruence); try (injection H; auto);
    try reflexivity; try congruence.
  all: try (injection H as ->; reflexivity).
  all: try (rewrite H; split; reflexivity).
Qed.

Section StoreInventory.

Import SupabaseClient.

Variable product_map : list (Z * string).
Variable store_map : list (Z * Z).
Variable sort_snapshots : list snapshot -> list snapshot.

Hypothesis sort_same_rows :
  forall l x, In x (sort_snapshots l) <-> In x l.
Hypothesis sort_newest_first :
  forall l,
    StronglySorted (fun a b => (snapshot_date b <= snapshot_date a)%Z)
                   (sort_snapshots l).

Local Abbreviation snapshot_key := (snapshot_key product_map store_map).
Local Abbreviation get_store_inventory :=
  (get_store_inventory product_map store_map sort_snapshots).
Local Abbreviation latest data :=
  (Py.unique (fun a b => key_eqb (snapshot_key a) (snapshot_key b))
             (sort_snapshots data)).

Lemma store_inventory_rows (data : list snapshot) (row : inventory_row) :
  In row (get_store_inventory data) ->
  exists r n,
    In r (latest data) /\
    snd (snapshot_key r) = Some n /\
    row = mk_inventory_row (str_of_sku (fst (snapshot_key r))) n
                           (sn_quantity r).
Proof.
  unfold SupabaseClient.get_store_inventory.
  destruct (is_nil product_map || is_nil store_map); [intros []|].
  destruct (is_nil data); [intros []|].
  destruct (forallb _ (latest data)) eqn:E; [|intros []].
  intro H. apply in_map_iff in H. destruct H as (r & <- & Hr).
  rewrite forallb_forall in E. specialize (E r Hr).
  destruct (snd (snapshot_key r)) as [n|] eqn:En; [|discriminate].
  exists r, n. repeat split; [exact Hr|]. now rewrite En.
Qed.

(** The store-inventory table holds, for a (reference, store) key, the
    newest snapshot fetched for it: every row of the table comes from a
    fetched snapshot with its key and quantity, and no snapshot with that
    key is more recent. *)
Theorem store_inventory_latest (data : list snapshot) :
  Forall
    (fun row =>
       exists r n,
         In r data /\
         snd (snapshot_key r) = Some n /\
         inv_internal_reference row = str_of_sku (fst (snapshot_key r)) /\
         inv_store_id row = n /\
         quantity row = sn_quantity r /\
         forall r', In r' data -> snapshot_key r' = snapshot_key r ->
                    (snapshot_date r' <= snapshot_date r)%Z)
    (get_store_inventory data).
Proof.
  apply Forall_forall. intros row Hrow.
  destruct (store_inventory_rows data row Hrow) as (r & n & Hr & Hn & ->).
  exists r, n. pose proof Hr as Hfirst.
  apply unique_first in Hfirst.
  destruct Hfirst as (l1 & l2 & Hsplit & Hl1).
  split; [apply (sort_same_rows data); now apply (In_unique _ r) in Hr|].
  repeat split; [exact Hn|].
  intros r' Hr' Hkey. apply (sort_same_rows data) in Hr'.
  rewrite Hsplit in Hr'. apply in_app_or in Hr'.
  destruct Hr' as [Hin|[<-|Hin]].
  - specialize (Hl1 r' Hin). rewrite Hkey in Hl1.
    assert (C : key_eqb (snapshot_key r) (snapshot_key r) = true)
      by now apply key_eqb_eq.
    congruence.
  - lia.
  - pose proof (sort_newest_first data) as Hs. rewrite Hsplit in Hs.
    apply StronglySorted_after in Hs. rewrite Forall_forall in Hs.
    now apply Hs.
Qed.

Lemma inventory_keys_NoDup (data : list snapshot) :
  (forall r, In r data -> fst (snapshot_key r) <> None) ->
  NoDup (map inventory_key (get_store_inventory data)).
Proof.
  intro Hmapped. unfold SupabaseClient.get_store_inventory.
  destruct (is_nil product_map || is_nil store_map); [constructor|].
  destruct (is_nil data); [constructor|].
  destruct (forallb _ (latest data)) eqn:E; [|constructor].
  rewrite map_map. apply NoDup_of_distinct.
  apply (ForallOrdPairs_impl
           (fun a b => key_eqb (snapshot_key a) (snapshot_key b) = false)).
  2:{ apply unique_distinct. }
  intros x y Hx Hy Hxy C. unfold inventory_key in C.
  cbn [inv_internal_reference inv_store_id] in C.
  rewrite forallb_forall in E.
  pose proof (E x Hx) as Ex. pose proof (E y Hy) as Ey.
  assert (Hsx : fst (snapshot_key x) <> None).
  { apply Hmapped, (sort_same_rows data). now apply (In_unique _ x) in Hx. }
  assert (Hsy : fst (snapshot_key y) <> None).
  { apply Hmapped, (sort_same_rows data). now apply (In_unique _ y) in Hy. }
  assert (K : snapshot_key x = snapshot_key y).
  { destruct (snapshot_key x) as [[sx|] [nx|]];
      destruct (snapshot_key y) as [[sy|] [ny|]];
      cbn [fst snd str_of_sku] in *;
      try discriminate; try (now contradiction Hsx);
      try (now contradiction Hsy).
    injection C as -> ->. reflexivity. }
  apply key_eqb_eq in K. congruence.
Qed.

(** When every fetched snapshot's product is in the product map (the query
    asks for those products only), the table has at most one row per
    (reference, store) key. *)
Theorem store_inventory_keys_unique (data : list snapshot) :
  (forall r, In r data -> fst (snapshot_key r) <> None) ->
  NoDup (map inventory_key (get_store_inventory data)).
Proof. apply inventory_keys_NoDup. Qed.

End StoreInventory.

Lemma round_half_even_close (q : Q) :
  (inject_Z (SupabaseClient.round_half_even q) - q <= 1 # 2)%Q /\
  (q - inject_Z (SupabaseClient.round_half_even q) <= 1 # 2)%Q.
Proof.
  unfold SupabaseClient.round_half_even.
  pose proof (Qfloor_le q) as Hlo. pose proof (Qlt_floor q) as Hhi.
  rewrite inject_Z_plus in Hhi. change (inject_Z 1) with 1%Q in Hhi.
  destruct (Py.Qltb (q - inject_Z (Qfloor q)) (1 # 2)) eqn:E1.
  - apply Qltb_lt in E1. split; lra.
  - assert (H1 : ~ (q - inject_Z (Qfloor q) < 1 # 2)%Q).
    { intro C. apply Qltb_lt in C. congruence. }
    destruct (Py.Qltb (1 # 2) (q - inject_Z (Qfloor q))) eqn:E2.
    + rewrite inject_Z_plus. change (inject_Z 1) with 1%Q. split; lra.
    + assert (H2 : ~ (1 # 2 < q - inject_Z (Qfloor q))%Q).
      { intro C. apply Qltb_lt in C. congruence. }
      destruct (Z.even (Qfloor q)).
      * split; lra.
      * rewrite inject_Z_plus. change (inject_Z 1) with 1%Q. split; lra.
Qed.

Section HistoricalSales.

Import SupabaseClient.

Variable product_map : list (Z * string).
Variable store_map : list (Z * Z).

Local Abbreviation sale_key := (sale_key product_map store_map).
Local Abbreviation sold_in_group := (sold_in_group product_map store_map).
Local Abbreviation get_historical_sales :=
  (get_historical_sales product_map store_map).

Lemma pair_eqb_eq (a b : string * Z) : pair_eqb a b = true <-> a = b.
Proof.
  destruct a as [s n], b as [t m]. unfold pair_eqb. cbn [fst snd].
  rewrite andb_true_iff, String.eqb_eq, Z.eqb_eq.
  split; [intros [-> ->]; reflexivity|intro H; now inversion H].
Qed.

Lemma In_insert_pair (z x : string * Z) (l : list (string * Z)) :
  In x (insert_pair z l) <-> x = z \/ In x l.
Proof.
  induction l as [|t l IH]; cbn [insert_pair].
  - cbn. intuition.
  - destruct (pair_leb z t); cbn [In]; [intuition|].
    rewrite IH. cbn [In]. intuition.
Qed.

Lemma In_sorted_pairs (x : string * Z) (l : list (string * Z)) :
  In x (sorted_pairs l) <-> In x l.
Proof.
  induction l as [|z l IH]; [reflexivity|].
  unfold sorted_pairs in *. cbn [fold_right In].
  rewrite In_insert_pair, IH. intuition.
Qed.

Lemma NoDup_insert_pair (z : string * Z) (l : list (string * Z)) :
  ~ In z l -> NoDup l -> NoDup (insert_pair z l).
Proof.
  intros Hz H. induction H as [|a l Ha Hl IH]; cbn [insert_pair].
  - constructor; [auto|constructor].
  - destruct (pair_leb z a).
    + constructor; [exact Hz|now constructor].
    + constructor.
      * rewrite In_insert_pair.
        intros [->|C]; [apply Hz; now left|contradiction].
      * apply IH. intro C. apply Hz. now right.
Qed.

Lemma NoDup_sorted_pairs (l : list (string * Z)) :
  NoDup l -> NoDup (sorted_pairs l).
Proof.
  intro H. induction H as [|a l Ha Hl IH]; [constructor|].
  unfold sorted_pairs in *. cbn [fold_right].
  apply NoDup_insert_pair; [|exact IH]. now rewrite In_sorted_pairs.
Qed.

Lemma NoDup_unique_pairs (l : list (string * Z)) :
  NoDup (Py.unique pair_eqb l).
Proof.
  induction l as [|a l IH]; [constructor|].
  cbn [Py.unique]. constructor.
  - intro C. apply filter_In in C. destruct C as [_ C].
    assert (E : pair_eqb a a = true) by now apply pair_eqb_eq.
    now rewrite E in C.
  - now apply NoDup_filter.
Qed.

Lemma historical_keys_NoDup (data : list sale) :
  NoDup (map sales_key (get_historical_sales data)).
Proof.
  unfold SupabaseClient.get_historical_sales.
  destruct (is_nil product_map || is_nil store_map); [constructor|].
  destruct (is_nil data); [constructor|].
  destruct (forallb _ _); [|constructor].
  rewrite map_map. unfold sales_key. cbn [hs_internal_reference hs_store_id].
  rewrite (map_ext _ (fun k => k)) by (intros []; reflexivity).
  rewrite map_id. apply NoDup_sorted_pairs, NoDup_unique_pairs.
Qed.

(** The historical-sales table has at most one row per (reference, store)
    key; every row stands for a key some fetched sale maps to, and its
    average is the mean of that key's sold quantities (nulls skipped)
    rounded to the nearest integer, so it is within one half of the mean. *)
Theorem historical_sales_table (data : list sale) :
  let hist := get_historical_sales data in
  NoDup (map sales_key hist) /\
  Forall
    (fun h =>
       (exists r,
          In r data /\
          sale_key r
          = (Some (hs_internal_reference h), Some (hs_store_id h))) /\
       exists m,
         mean (sold_in_group data (sales_key h)) = Some m /\
         avg_monthly_sales h = Some (inject_Z (round_half_even m)) /\
         (inject_Z (round_half_even m) - m <= 1 # 2)%Q /\
         (m - inject_Z (round_half_even m) <= 1 # 2)%Q)
    hist.
Proof.
  intro hist. subst hist. unfold SupabaseClient.get_historical_sales.
  destruct (is_nil product_map || is_nil store_map);
    [split; constructor|].
  destruct (is_nil data); [split; constructor|].
  set (keys := sorted_pairs
                 (Py.unique pair_eqb
                    (flat_map (fun r => group_key_of (sale_key r)) data))).
  destruct (forallb (fun k => negb (is_nil (sold_in_group data k))) keys)
    eqn:E; [|split; constructor].
  split.
  - rewrite map_map. unfold sales_key. cbn [hs_internal_reference hs_store_id].
    rewrite (map_ext _ (fun k => k)) by (intros []; reflexivity).
    rewrite map_id. apply NoDup_sorted_pairs, NoDup_unique_pairs.
  - apply Forall_forall. intros h Hh. apply in_map_iff in Hh.
    destruct Hh as (k & <- & Hk). cbn [hs_internal_reference hs_store_id
                                        avg_monthly_sales].
    split.
    + unfold keys in Hk. rewrite In_sorted_pairs in Hk.
      apply (In_unique pair_eqb) in Hk. apply in_flat_map in Hk.
      destruct Hk as (r & Hr & Hkr). exists r. split; [exact Hr|].
      unfold group_key_of in Hkr.
      destruct (sale_key r) as [[s|] [n|]]; try contradiction.
      destruct Hkr as [<-|[]]. reflexivity.
    + rewrite forallb_forall in E. specialize (E k Hk).
      unfold sales_key. cbn [hs_internal_reference hs_store_id].
      replace (fst k, snd k) with k by now destruct k.
      unfold mean. destruct (sold_in_group data k) as [|v vs];
        [discriminate|].
      eexists. split; [reflexivity|]. split; [reflexivity|].
      apply round_half_even_close.
Qed.

End HistoricalSales.

(** ** The allocator fed by the history provider *)

Lemma inventory_match_key (l : line) (r : inventory_row) :
  inventory_key_matches l r = true ->
  store_id l = Some (inv_store_id r) /\
  internal_reference l = inv_internal_reference r.
Proof.
  unfold inventory_key_matches. rewrite andb_true_iff, String.eqb_eq.
  intros [Hr Hs]. split; [|exact Hr].
  destruct (store_id l) as [n|]; [|discriminate].
  cbn in Hs. apply Z.eqb_eq in Hs. now subst.
Qed.

Lemma sales_match_key (l : line) (r : sales_row) :
  sales_key_matches l r = true ->
  store_id l = Some (hs_store_id r) /\
  internal_reference l = hs_internal_reference r.
Proof.
  unfold sales_key_matches. rewrite andb_true_iff, String.eqb_eq.
  intros [Hr Hs]. split; [|exact Hr].
  destruct (store_id l) as [n|]; [|discriminate].
  cbn in Hs. apply Z.eqb_eq in Hs. now subst.
Qed.

Lemma one_inventory_match (l : line) (inv : list inventory_row) :
  NoDup (map inventory_key inv) ->
  (List.length (filter (inventory_key_matches l) inv) <= 1)%nat.
Proof.
  intro H. induction inv as [|a inv IH]; [cbn; lia|].
  cbn [map] in H. inversion H as [|? ? Ha Hinv]; subst.
  cbn [filter]. destruct (inventory_key_matches l a) eqn:Ea;
    [|now apply IH].
  assert (E : filter (inventory_key_matches l) inv = []).
  { destruct (filter (inventory_key_matches l) inv) as [|b bs] eqn:Eb;
      [reflexivity|].
    assert (Hb : In b (filter (inventory_key_matches l) inv))
      by (rewrite Eb; now left).
    apply filter_In in Hb. destruct Hb as [Hb Hm].
    exfalso. apply Ha. apply in_map_iff. exists b. split; [|exact Hb].
    apply inventory_match_key in Ea. apply inventory_match_key in Hm.
    unfold inventory_key. destruct Ea as [E1 E2], Hm as [E3 E4].
    f_equal; congruence. }
  rewrite E. cbn. lia.
Qed.

Lemma one_sales_match (l : line) (hist : list sales_row) :
  NoDup (map sales_key hist) ->
  (List.length (filter (sales_key_matches l) hist) <= 1)%nat.
Proof.
  intro H. induction hist as [|a hist IH]; [cbn; lia|].
  cbn [map] in H. inversion H as [|? ? Ha Hhist]; subst.
  cbn [filter]. destruct (sales_key_matches l a) eqn:Ea;
    [|now apply IH].
  assert (E : filter (sales_key_matches l) hist = []).
  { destruct (filter (sales_key_matches l) hist) as [|b bs] eqn:Eb;
      [reflexivity|].
    assert (Hb : In b (filter (sales_key_matches l) hist))
      by (rewrite Eb; now left).
    apply filter_In in Hb. destruct Hb as [Hb Hm].
    exfalso. apply Ha. apply in_map_iff. exists b. split; [|exact Hb].
    apply sales_match_key in Ea. apply sales_match_key in Hm.
    unfold sales_key. destruct Ea as [E1 E2], Hm as [E3 E4].
    f_equal; congruence. }
  rewrite E. cbn. lia.
Qed.

Section AllocatorWithHistory.

Import SupabaseClient.

Variable str_float : Q -> string.
Variable product_map : list (Z * string).
Variable store_map : list (Z * Z).
Variable sort_snapshots : list snapshot -> list snapshot.

Hypothesis sort_same_rows :
  forall l x, In x (sort_snapshots l) <-> In x l.

(** Fed with the two tables as the history provider builds them, the
    allocator returns as many rows as it was given lines, in the same
    order, each with its unit count and its other untouched columns: no line
    is duplicated by the merges. *)
Theorem allocation_keeps_lines (sales : list sale) (snapshots : list snapshot)
    (line_details : list line) :
  (forall r, In r snapshots ->
             fst (snapshot_key product_map store_map r) <> None) ->
  let hist := get_historical_sales product_map store_map sales in
  let inv :=
    get_store_inventory product_map store_map sort_snapshots snapshots in
  let out := fst (optimize_allocations str_float line_details hist inv) in
  map untouched out = map untouched line_details /\
  map product_uom_qty out = map product_uom_qty line_details /\
  List.length out = List.length line_details.
Proof.
  intros Hmapped hist inv out.
  assert (H1 : forall l, In l line_details -> copies hist inv l = 1%nat).
  { intros l _. rewrite copies_formula.
    unfold sales_values, inventory_values. rewrite !length_map.
    pose proof (one_sales_match (normalise_keys l) hist
                  (historical_keys_NoDup product_map store_map sales)).
    pose proof (one_inventory_match (normalise_keys l) inv
                  (inventory_keys_NoDup product_map store_map sort_snapshots
                     sort_same_rows snapshots Hmapped)).
    nia. }
  assert (Hu : map untouched out = map untouched line_details).
  { subst out. rewrite untouched_output. now apply flat_map_repeat_one. }
  split; [exact Hu|]. split.
  - subst out. rewrite unit_counts_output. now apply flat_map_repeat_one.
  - apply (f_equal (@List.length _)) in Hu. now rewrite !length_map in Hu.
Qed.

End AllocatorWithHistory.

(** ** Concrete runs of the history provider *)

Lemma In_insert_snapshot (x y : SupabaseClient.snapshot)
    (l : list SupabaseClient.snapshot) :
  In y (Samples.insert_snapshot x l) <-> y = x \/ In y l.
Proof.
  induction l as [|t l IH]; cbn [Samples.insert_snapshot].
  - cbn. intuition.
  - destruct (_ <=? _)%Z; cbn [In]; [intuition|].
    rewrite IH. cbn [In]. intuition.
Qed.

Lemma In_newest_first (l : list SupabaseClient.snapshot)
    (x : SupabaseClient.snapshot) :
  In x (Samples.newest_first l) <-> In x l.
Proof.
  induction l as [|z l IH]; [reflexivity|].
  unfold Samples.newest_first in *. cbn [fold_right In].
  rewrite In_insert_snapshot, IH. intuition.
Qed.

Lemma insert_snapshot_sorted (x : SupabaseClient.snapshot)
    (l : list SupabaseClient.snapshot) :
  StronglySorted
    (fun a b => (SupabaseClient.snapshot_date b
                 <= SupabaseClient.snapshot_date a)%Z) l ->
  StronglySorted
    (fun a b => (SupabaseClient.snapshot_date b
                 <= SupabaseClient.snapshot_date a)%Z)
    (Samples.insert_snapshot x l).
Proof.
  intro H. induction H as [|t l Hl IH Ht]; cbn [Samples.insert_snapshot].
  - repeat constructor.
  - destruct (Z.leb_spec (SupabaseClient.snapshot_date t)
                (SupabaseClient.snapshot_date x)) as [E|E].
    + constructor; [now constructor|].
      constructor; [exact E|].
      apply Forall_forall. intros y Hy. rewrite Forall_forall in Ht.
      specialize (Ht y Hy). cbn in Ht. lia.
    + constructor; [exact IH|].
      apply Forall_forall. intros y Hy. apply In_insert_snapshot in Hy.
      destruct Hy as [->|Hy]; [lia|].
      rewrite Forall_forall in Ht. now apply Ht.
Qed.

Lemma newest_first_sorted (l : list SupabaseClient.snapshot) :
  StronglySorted
    (fun a b => (SupabaseClient.snapshot_date b
                 <= SupabaseClient.snapshot_date a)%Z)
    (Samples.newest_first l).
Proof.
  induction l as [|x l IH]; [constructor|].
  unfold Samples.newest_first in *. cbn [fold_right].
  now apply insert_snapshot_sorted.
Qed.

(** Product 101 is R4 and store 7 is store number 20; three snapshots, the
    one of day 12 being the newest. *)
Lemma store_inventory_latest_witness :
  SupabaseClient.get_store_inventory [(101%Z, "R4")] [(7%Z, 20%Z)]
    Samples.newest_first
    [SupabaseClient.mk_snapshot 101 7 10 (Some 3%Q);
     SupabaseClient.mk_snapshot 101 7 12 (Some 8%Q);
     SupabaseClient.mk_snapshot 101 7 11 None]
  = [mk_inventory_row "R4" 20 (Some 8%Q)] /\
  Forall
    (fun row =>
       exists r n,
         In r [SupabaseClient.mk_snapshot 101 7 10 (Some 3%Q);
               SupabaseClient.mk_snapshot 101 7 12 (Some 8%Q);
               SupabaseClient.mk_snapshot 101 7 11 None] /\
         snd (SupabaseClient.snapshot_key [(101%Z, "R4")] [(7%Z, 20%Z)] r)
         = Some n /\
         inv_internal_reference row
         = SupabaseClient.str_of_sku
             (fst (SupabaseClient.snapshot_key [(101%Z, "R4")] [(7%Z, 20%Z)] r))
         /\
         inv_store_id row = n /\
         quantity row = SupabaseClient.sn_quantity r /\
         forall r',
           In r' [SupabaseClient.mk_snapshot 101 7 10 (Some 3%Q);
                  SupabaseClient.mk_snapshot 101 7 12 (Some 8%Q);
                  SupabaseClient.mk_snapshot 101 7 11 None] ->
           SupabaseClient.snapshot_key [(101%Z, "R4")] [(7%Z, 20%Z)] r'
           = SupabaseClient.snapshot_key [(101%Z, "R4")] [(7%Z, 20%Z)] r ->
           (SupabaseClient.snapshot_date r'
            <= SupabaseClient.snapshot_date r)%Z)
    (SupabaseClient.get_store_inventory [(101%Z, "R4")] [(7%Z, 20%Z)]
       Samples.newest_first
       [SupabaseClient.mk_snapshot 101 7 10 (Some 3%Q);
        SupabaseClient.mk_snapshot 101 7 12 (Some 8%Q);
        SupabaseClient.mk_snapshot 101 7 11 None]).
Proof.
  split; [reflexivity|].
  apply (store_inventory_latest [(101%Z, "R4")] [(7%Z, 20%Z)]
           Samples.newest_first In_newest_first newest_first_sorted).
Defined.

Lemma store_inventory_keys_unique_witness :
  NoDup
    (map inventory_key
       (SupabaseClient.get_store_inventory
          [(101%Z, "R4"); (102%Z, "R7")] [(7%Z, 20%Z)] Samples.newest_first
          [SupabaseClient.mk_snapshot 101 7 10 (Some 3%Q);
           SupabaseClient.mk_snapshot 102 7 12 (Some 8%Q);
           SupabaseClient.mk_snapshot 101 7 11 None])).
Proof.
  apply (store_inventory_keys_unique [(101%Z, "R4"); (102%Z, "R7")]
           [(7%Z, 20%Z)] Samples.newest_first In_newest_first).
  intros r [<-|[<-|[<-|[]]]]; discriminate.
Defined.

Lemma allocation_keeps_lines_witness :
  map product_uom_qty
      (fst (optimize_allocations Samples.show_float
              [Samples.stocked 20 "R4" 30 100 30;
               Samples.stocked 20 "R7" 5 0 0]
              (SupabaseClient.get_historical_sales
                 [(101%Z, "R4"); (102%Z, "R7")] [(7%Z, 20%Z)]
                 [SupabaseClient.mk_sale 101 7 (Some 4%Q);
                  SupabaseClient.mk_sale 101 7 (Some 7%Q)])
              (SupabaseClient.get_store_inventory
                 [(101%Z, "R4"); (102%Z, "R7")] [(7%Z, 20%Z)]
                 Samples.newest_first
                 [SupabaseClient.mk_snapshot 101 7 10 (Some 3%Q);
                  SupabaseClient.mk_snapshot 101 7 12 (Some 8%Q)])))
  = [30%Q; 5%Q].
Proof.
  apply (allocation_keeps_lines Samples.show_float
           [(101%Z, "R4"); (102%Z, "R7")] [(7%Z, 20%Z)]
           Samples.newest_first In_newest_first
           [SupabaseClient.mk_sale 101 7 (Some 4%Q);
            SupabaseClient.mk_sale 101 7 (Some 7%Q)]
           [SupabaseClient.mk_snapshot 101 7 10 (Some 3%Q);
            SupabaseClient.mk_snapshot 101 7 12 (Some 8%Q)]
           [Samples.stocked 20 "R4" 30 100 30; Samples.stocked 20 "R7" 5 0 0]).
  intros r [<-|[<-|[]]]; discriminate.
Defined.
